(** * Battery electrolyte design assistant: shallow embedding and properties

    The Python backend ([src/backend/agents/*.py]) is embedded function by
    function.  Python dictionaries that travel between the agents are
    insertion-ordered association lists of dynamically typed values;
    floating point numbers are idealised as exact rationals, and where a
    property depends on how floats round the arithmetic is that of the
    runtime; texts are sequences of ASCII characters; exceptions are an
    explicit error result. *)

From Stdlib Require Import String Ascii List ZArith QArith Qround Qabs Bool Lia.
From Stdlib Require Import DecimalString Lqa Permutation.
Import ListNotations.
Set Warnings "-register-all".
Open Scope string_scope.

(* ================================================================== *)
(** ** Python primitives *)
(* ================================================================== *)

Module Py.

(** *** Exceptions *)

Inductive exn : Type :=
| KeyError (key : string)
| TypeError
| JSONDecodeError
| OtherError (msg : string).

Inductive res (A : Type) : Type :=
| Ok (a : A)
| Raise (e : exn).
Arguments Ok {A} a.
Arguments Raise {A} e.

Definition bind {A B : Type} (m : res A) (k : A -> res B) : res B :=
  match m with
  | Ok a => k a
  | Raise e => Raise e
  end.

Declare Scope py_scope.
Delimit Scope py_scope with py.
Notation "x <- m ;; k" := (bind m (fun x => k))
  (at level 61, m at next level, right associativity) : py_scope.
Open Scope py_scope.

(** [for x in l: acc = f acc x], stopping at the first exception. *)
Fixpoint foldM {A B : Type} (f : B -> A -> res B) (l : list A) (acc : B) : res B :=
  match l with
  | [] => Ok acc
  | x :: l' => acc' <- f acc x ;; foldM f l' acc'
  end.

Fixpoint mapM {A B : Type} (f : A -> res B) (l : list A) : res (list B) :=
  match l with
  | [] => Ok []
  | x :: l' => y <- f x ;; ys <- mapM f l' ;; Ok (y :: ys)
  end.

Fixpoint filterM {A : Type} (f : A -> res bool) (l : list A) : res (list A) :=
  match l with
  | [] => Ok []
  | x :: l' =>
      b <- f x ;; ys <- filterM f l' ;; Ok (if b then x :: ys else ys)
  end.

(** *** Strings ([str.upper], [str.lower], [in], [startswith], [strip])

    A text is a sequence of characters below 128, for which [isascii]
    holds: on these, case mapping and whitespace are Python's.  A
    property that depends on the case or the whitespace of a text it
    does not fix is stated for texts for which [isascii] holds. *)

(** [s.isascii()] *)
Fixpoint isascii (s : string) : bool :=
  match s with
  | EmptyString => true
  | String c s' => (nat_of_ascii c <? 128)%nat && isascii s'
  end.

Definition upper_char (c : ascii) : ascii :=
  let n := nat_of_ascii c in
  if (97 <=? n)%nat && (n <=? 122)%nat then ascii_of_nat (n - 32) else c.

Definition lower_char (c : ascii) : ascii :=
  let n := nat_of_ascii c in
  if (65 <=? n)%nat && (n <=? 90)%nat then ascii_of_nat (n + 32) else c.

Fixpoint upper (s : string) : string :=
  match s with
  | EmptyString => EmptyString
  | String c s' => String (upper_char c) (upper s')
  end.

Fixpoint lower (s : string) : string :=
  match s with
  | EmptyString => EmptyString
  | String c s' => String (lower_char c) (lower s')
  end.

Definition startswith (s p : string) : bool := String.prefix p s.

(** [needle in hay] on strings. *)
Fixpoint contains (needle hay : string) : bool :=
  String.prefix needle hay ||
  match hay with
  | EmptyString => false
  | String _ hay' => contains needle hay'
  end.

(** [x in l] on a list of strings. *)
Definition str_in (x : string) (l : list string) : bool :=
  existsb (String.eqb x) l.

(** [c.isspace()]: tab to carriage return, the four separators 28 to
    31, and the space. *)
Definition is_space (c : ascii) : bool :=
  let n := nat_of_ascii c in
  (n =? 32)%nat || ((9 <=? n)%nat && (n <=? 13)%nat)
  || ((28 <=? n)%nat && (n <=? 31)%nat).

Fixpoint lstrip (s : string) : string :=
  match s with
  | EmptyString => EmptyString
  | String c s' => if is_space c then lstrip s' else s
  end.

Fixpoint rstrip (s : string) : string :=
  match s with
  | EmptyString => EmptyString
  | String c s' =>
      match rstrip s' with
      | EmptyString => if is_space c then EmptyString else String c EmptyString
      | t => String c t
      end
  end.

Definition strip (s : string) : string := rstrip (lstrip s).

(** The newline character. *)
Definition nl : string := String (ascii_of_nat 10) EmptyString.

(** [s.find(c)] and [s.rfind(c)] for a character [c]; [-1] when absent. *)
Fixpoint find_from (c : ascii) (s : string) (i : Z) : Z :=
  match s with
  | EmptyString => (-1)%Z
  | String c' s' => if Ascii.eqb c c' then i else find_from c s' (i + 1)%Z
  end.

Definition find (s : string) (c : ascii) : Z := find_from c s 0%Z.

Fixpoint rfind_from (c : ascii) (s : string) (i : Z) (last : Z) : Z :=
  match s with
  | EmptyString => last
  | String c' s' =>
      rfind_from c s' (i + 1)%Z (if Ascii.eqb c c' then i else last)
  end.

Definition rfind (s : string) (c : ascii) : Z := rfind_from c s 0%Z (-1)%Z.

(** [s[a:b]] for [0 <= a <= b]. *)
Definition slice (s : string) (a b : Z) : string :=
  substring (Z.to_nat a) (Z.to_nat (b - a)) s.

(** The double quote character. *)
Definition dq : string := String (ascii_of_nat 34) EmptyString.

(** [s.split(sep)] for a non-empty [sep]: [skip] characters of a matched
    separator are still to be passed over, [cur] is the piece being read. *)
Fixpoint split_go (sep s : string) (skip : nat) (cur : string) : list string :=
  match s with
  | EmptyString => [cur]
  | String c s' =>
      match skip with
      | S k => split_go sep s' k cur
      | O =>
          if String.prefix sep s
          then cur :: split_go sep s' (String.length sep - 1) EmptyString
          else split_go sep s' 0 (cur ++ String c EmptyString)
      end
  end.

Definition split (s sep : string) : list string := split_go sep s 0 EmptyString.

(** [s[n:]] *)
Definition drop (n : nat) (s : string) : string :=
  substring n (String.length s - n) s.

(** [s.replace(a, b)] for single characters. *)
Fixpoint replace_char (a b : ascii) (s : string) : string :=
  match s with
  | EmptyString => EmptyString
  | String c s' => String (if Ascii.eqb c a then b else c) (replace_char a b s')
  end.

Definition is_alpha (c : ascii) : bool :=
  let n := nat_of_ascii c in
  ((65 <=? n)%nat && (n <=? 90)%nat) || ((97 <=? n)%nat && (n <=? 122)%nat).

(** [s.title()]: a letter is upper-cased after a non-letter and
    lower-cased after a letter. *)
Fixpoint title_go (s : string) (after_letter : bool) : string :=
  match s with
  | EmptyString => EmptyString
  | String c s' =>
      String (if after_letter then lower_char c else upper_char c)
             (title_go s' (is_alpha c))
  end.

Definition title (s : string) : string := title_go s false.

(** [sep.join(l)] *)
Fixpoint join (sep : string) (l : list string) : string :=
  match l with
  | [] => ""
  | [x] => x
  | x :: l' => x ++ sep ++ join sep l'
  end.

(** *** Numbers

    A float is the rational it stands for, and [round] is decimal
    rounding, half to even, of that rational: near a tie it can differ
    by one unit of the last digit from Python's [round] of the double.
    A property that involves a rounded number either bounds it, or
    takes the arithmetic from the runtime ([float_round] and the
    like). *)

Definition Qgtb (x y : Q) : bool := negb (Qle_bool x y).

(** [round(x)] to an integer, ties to the even neighbour. *)
Definition round_half_even (x : Q) : Z :=
  let f := Qfloor x in
  match ((x - inject_Z f) ?= (1 # 2))%Q with
  | Lt => f
  | Gt => (f + 1)%Z
  | Eq => if Z.even f then f else (f + 1)%Z
  end.

(** [round(x, ndigits)] *)
Definition round (x : Q) (ndigits : nat) : Q :=
  let p := inject_Z (10 ^ Z.of_nat ndigits) in
  Qred (inject_Z (round_half_even (x * p)%Q) / p)%Q.

(** [int(x)]: truncation toward zero. *)
Definition int (x : Q) : Z := Z.quot (Qnum x) (Z.pos (Qden x)).

(** [sum(l)], [min(l)] and [max(l)]; the last two are applied to
    non-empty lists only and take the head as their start value. *)
Definition sum (l : list Q) : Q := fold_left Qplus l 0%Q.

Definition Qmin_list (x : Q) (l : list Q) : Q :=
  fold_left (fun m y => if Qle_bool m y then m else y) l x.

Definition Qmax_list (x : Q) (l : list Q) : Q :=
  fold_left (fun m y => if Qle_bool y m then m else y) l x.

(** *** Dynamically typed values and dictionaries *)

Inductive value : Type :=
| VNone
| VBool (b : bool)
| VInt (z : Z)
| VFloat (q : Q)
| VStr (s : string)
| VList (l : list value)
| VTuple (l : list value)
| VDict (d : list (string * value)).

(** A [dict] keeps its keys in insertion order, each key once. *)
Definition dict : Type := list (string * value).

(** [k in d] *)
Definition has_key (k : string) (d : dict) : bool :=
  existsb (fun kv => String.eqb k (fst kv)) d.

(** [d.get(k)] *)
Fixpoint dget (k : string) (d : dict) : option value :=
  match d with
  | [] => None
  | (k', v) :: d' => if String.eqb k k' then Some v else dget k d'
  end.

(** [d.get(k, default)] *)
Definition get (d : dict) (k : string) (default : value) : value :=
  match dget k d with
  | Some v => v
  | None => default
  end.

(** [d[k]] *)
Definition getitem (d : dict) (k : string) : res value :=
  match dget k d with
  | Some v => Ok v
  | None => Raise (KeyError k)
  end.

(** [d[k] = v]: an existing key keeps its position, a new key goes last. *)
Fixpoint dset (k : string) (v : value) (d : dict) : dict :=
  match d with
  | [] => [(k, v)]
  | (k', v') :: d' =>
      if String.eqb k k' then (k, v) :: d' else (k', v') :: dset k v d'
  end.

Definition keys (d : dict) : list string := map fst d.
Definition values (d : dict) : list value := map snd d.

(** Views of a value at the type the source's annotations give it. *)
Definition as_dict (v : value) : res dict :=
  match v with VDict d => Ok d | _ => Raise TypeError end.

Definition as_list (v : value) : res (list value) :=
  match v with VList l => Ok l | VTuple l => Ok l | _ => Raise TypeError end.

Definition as_str (v : value) : res string :=
  match v with VStr s => Ok s | _ => Raise TypeError end.

Definition as_num (v : value) : res Q :=
  match v with
  | VInt z => Ok (inject_Z z)
  | VFloat q => Ok q
  | VBool b => Ok (if b then 1 else 0)
  | _ => Raise TypeError
  end.

Definition as_str_list (v : value) : res (list string) :=
  l <- as_list v ;; mapM as_str l.

(** [s in v] for a string literal [s]. *)
Definition str_in_value (s : string) (v : value) : res bool :=
  match v with
  | VDict d => Ok (has_key s d)
  | VList l | VTuple l =>
      Ok (existsb (fun x => match x with VStr s' => String.eqb s' s | _ => false end) l)
  | VStr hay => Ok (contains s hay)
  | _ => Raise TypeError
  end.

(** [v[s]] for a string literal [s]. *)
Definition subscript (v : value) (s : string) : res value :=
  match v with
  | VDict d => getitem d s
  | _ => Raise TypeError
  end.

(** [v == s] for a string literal [s]. *)
Definition eq_str (v : value) (s : string) : bool :=
  match v with VStr s' => String.eqb s' s | _ => false end.

(** [v > q] for a numeric literal [q]. *)
Definition gt (v : value) (q : Q) : res bool :=
  x <- as_num v ;; Ok (Qgtb x q).

(** Truth value of [if v:]. *)
Definition truthy (v : value) : bool :=
  match v with
  | VNone => false
  | VBool b => b
  | VInt z => negb (z =? 0)%Z
  | VFloat q => negb (Qeq_bool q 0)
  | VStr s => negb (String.eqb s "")
  | VList l => negb (Nat.eqb (List.length l) 0)
  | VTuple l => negb (Nat.eqb (List.length l) 0)
  | VDict d => negb (Nat.eqb (List.length d) 0)
  end.

(** *** Services of the interpreter and of the language-model backend

    What the standard library and the backend compute is not part of the
    repository; the agents are parameterised by it. *)

(** The regular expressions the agents search for. *)
Inductive pattern : Type :=
| PlansObject        (* \{[\s\S]*plans[\s\S]*\}, whole match *)
| CodeBlock          (* ```(?:json)?\s*(\{.*?\})\s*```, group 1 *)
| PredictionsObject  (* \{[^{}]*predictions[^{}]*\{.*?\}.*?\}, whole match *)
| FormulaPattern     (* chemical formulas such as LiPF6 or ZnSO4, one group *)
| ConcentrationPattern. (* a number, a unit and a word: three groups *)

(** The f-string prompt templates sent to the backend. *)
Inductive template_id : Type :=
| ClassifyPrompt | GreetingPrompt | OffTopicPrompt | AnalyzePrompt
| SummarizePrompt | CompatibilityPrompt | RationalePrompt
| PlansPrompt | PredictionPrompt.

Record runtime : Type := {
  (** [str(v)] of a value that is not a string *)
  repr : value -> string;
  (** [format(x, spec)] of a number, as in [f"{x:.2f}"] *)
  format_num : Q -> string -> string;
  json_loads : string -> res value;
  re_search : pattern -> string -> option string;
  (** [re.findall(pattern, s)]: the groups of each match *)
  re_findall : pattern -> string -> list (list string);
  (** [list(set(l))]: the distinct strings of [l], in the order the set
      lists them *)
  list_of_set : list string -> list string;
  (** [str(uuid.uuid4())] of the n-th identifier drawn *)
  uuid4 : nat -> string;
  (** one draw of [random.uniform(a, b)] *)
  random_uniform : Q -> Q -> Q;
  (** the n-th reading of [time.time()] *)
  clock : nat -> Q;
  (** Python's arithmetic on floats, on the numbers the rationals stand
      for: [sum(l)], [x / y] and [round(x, ndigits)] *)
  float_sum : list Q -> Q;
  float_truediv : Q -> Q -> Q;
  float_round : Q -> nat -> Q;
  (** [str(e)] of an exception *)
  exn_message : exn -> string;
  (** the text of a prompt template for its arguments: (prompt, system prompt) *)
  render_prompt : template_id -> list value -> res (string * string)
}.

(** [LLMService.generate(prompt, system_prompt, temperature, max_tokens)] *)
Record LLMService : Type := {
  generate : string -> string -> Q -> nat -> res string
}.

(** [format(v, spec)] for the numeric specs [.2f] and [.0%]: only
    numbers are accepted. *)
Definition format (rt : runtime) (v : value) (spec : string) : res string :=
  x <- as_num v ;; Ok (format_num rt x spec).

(** [f"{v}"] *)
Definition fstr (rt : runtime) (v : value) : string :=
  match v with
  | VStr s => s
  | _ => repr rt v
  end.

(** [try: body except Exception: handler] *)
Definition try_except {A : Type} (body : res A) (handler : exn -> res A) : res A :=
  match body with
  | Ok a => Ok a
  | Raise e => handler e
  end.

End Py.
Import Py.

(* ================================================================== *)
(** ** Property / compatibility responder
       ([agents/property_compatibility_agent.py]) *)
(* ================================================================== *)

Module PropertyCompatibilityAgent.

Definition _initialize_property_database : dict :=
[
  ("EC", VDict [
      ("molecular_weight", VFloat 88.06); ("density", VFloat 1.32);
      ("viscosity", VFloat 1.9); ("dielectric_constant", VFloat 89.8);
      ("melting_point", VFloat 36.4); ("boiling_point", VInt 248);
      ("flash_point", VInt 160); ("oxidation_potential", VFloat 6.2);
      ("reduction_potential", VFloat 0.8); ("category", VStr "solvent") ]);
  ("DMC", VDict [
      ("molecular_weight", VFloat 90.08); ("density", VFloat 1.07);
      ("viscosity", VFloat 0.59); ("dielectric_constant", VFloat 3.1);
      ("melting_point", VFloat 4.6); ("boiling_point", VInt 91);
      ("flash_point", VInt 18); ("oxidation_potential", VFloat 6.7);
      ("reduction_potential", VFloat 1.0); ("category", VStr "solvent") ]);
  ("EMC", VDict [
      ("molecular_weight", VFloat 104.1); ("density", VFloat 1.01);
      ("viscosity", VFloat 0.65); ("dielectric_constant", VFloat 2.9);
      ("melting_point", VInt (-53)); ("boiling_point", VInt 110);
      ("flash_point", VInt 25); ("oxidation_potential", VFloat 6.7);
      ("reduction_potential", VFloat 1.0); ("category", VStr "solvent") ]);
  ("DEC", VDict [
      ("molecular_weight", VFloat 118.13); ("density", VFloat 0.98);
      ("viscosity", VFloat 0.75); ("dielectric_constant", VFloat 2.8);
      ("melting_point", VFloat (-74.3)); ("boiling_point", VInt 126);
      ("flash_point", VInt 31); ("oxidation_potential", VFloat 6.7);
      ("reduction_potential", VFloat 1.0); ("category", VStr "solvent") ]);
  ("PC", VDict [
      ("molecular_weight", VFloat 102.09); ("density", VFloat 1.20);
      ("viscosity", VFloat 2.5); ("dielectric_constant", VFloat 64.9);
      ("melting_point", VFloat (-48.8)); ("boiling_point", VInt 242);
      ("flash_point", VInt 132); ("oxidation_potential", VFloat 6.6);
      ("reduction_potential", VFloat 0.9); ("category", VStr "solvent") ]);
  ("LiPF6", VDict [
      ("molecular_weight", VFloat 151.91); ("decomposition_temp", VInt 80);
      ("ionic_conductivity", VFloat 10.7);
      ("thermal_stability", VStr "moderate");
      ("moisture_sensitivity", VStr "high"); ("category", VStr "salt") ]);
  ("LiTFSI", VDict [
      ("molecular_weight", VFloat 287.09); ("decomposition_temp", VInt 360);
      ("ionic_conductivity", VFloat 9.0);
      ("thermal_stability", VStr "excellent");
      ("moisture_sensitivity", VStr "low"); ("al_corrosion", VBool true);
      ("category", VStr "salt") ]);
  ("LiFSI", VDict [
      ("molecular_weight", VFloat 187.07); ("decomposition_temp", VInt 200);
      ("ionic_conductivity", VFloat 12.0); ("thermal_stability", VStr "good");
      ("moisture_sensitivity", VStr "moderate"); ("category", VStr "salt") ]);
  ("LiBF4", VDict [
      ("molecular_weight", VFloat 93.75); ("decomposition_temp", VInt 293);
      ("ionic_conductivity", VFloat 3.4); ("thermal_stability", VStr "good");
      ("moisture_sensitivity", VStr "high"); ("category", VStr "salt") ]);
  ("VC", VDict [
      ("molecular_weight", VFloat 86.05);
      ("recommended_concentration", VTuple [VInt 1; VInt 2]);
      ("function", VStr "SEI_former"); ("category", VStr "additive") ]);
  ("FEC", VDict [
      ("molecular_weight", VFloat 106.05);
      ("recommended_concentration", VTuple [VInt 5; VInt 10]);
      ("function", VStr "SEI_former"); ("category", VStr "additive") ]);
  ("PS", VDict [
      ("molecular_weight", VFloat 122.14);
      ("recommended_concentration", VTuple [VInt 1; VInt 3]);
      ("function", VStr "anode_passivation"); ("category", VStr "additive") ]);
  ("LiBOB", VDict [
      ("molecular_weight", VFloat 193.79);
      ("recommended_concentration", VTuple [VFloat 0.5; VInt 1]);
      ("function", VStr "cathode_stabilizer"); ("category", VStr "additive") ]) ].

(** A compatibility rule; [rule.get("condition", "")] reads [condition]. *)
Record rule : Type := {
  rule_id : string;
  components : list string;
  condition : string;
  with_material : option string;
  issue : string;
  severity : string;
  solution : string
}.

Definition _initialize_compatibility_rules : list rule :=
  [ {| rule_id := "PC_graphite";
       components := ["PC"];
       condition := "PC concentration > 30%";
       with_material := Some "graphite_anode";
       issue := "PC causes graphite exfoliation due to co-intercalation";
       severity := "critical";
       solution := "Use EC-based electrolyte or add FEC (10%)" |};
    {| rule_id := "LiTFSI_Al";
       components := ["LiTFSI"];
       condition := "voltage > 3.8V";
       with_material := Some "aluminum_current_collector";
       issue := "LiTFSI corrodes aluminum at high voltages";
       severity := "high";
       solution := "Add LiPF6 (50:50 ratio) or use LiTFSI concentration < 0.5M" |};
    {| rule_id := "LiPF6_thermal";
       components := ["LiPF6"];
       condition := "temperature > 60°C";
       with_material := None;
       issue := "LiPF6 decomposes, releasing HF";
       severity := "high";
       solution := "Use LiBF4 or LiFSI for high-temperature applications" |};
    {| rule_id := "high_EC_viscosity";
       components := ["EC"];
       condition := "EC concentration > 50%";
       with_material := None;
       issue := "High viscosity reduces rate capability";
       severity := "medium";
       solution := "Add linear carbonates (DMC, EMC, DEC) to reduce viscosity" |};
    {| rule_id := "FEC_gas_generation";
       components := ["FEC"];
       condition := "concentration > 15%";
       with_material := None;
       issue := "Excessive CO2 generation during cycling";
       severity := "medium";
       solution := "Keep FEC between 5-10 wt%" |};
    {| rule_id := "high_voltage_cathode";
       components := ["EC"; "DMC"; "EMC"; "DEC"];
       condition := "cathode voltage > 4.5V";
       with_material := None;
       issue := "Carbonate solvents oxidize at high voltages";
       severity := "high";
       solution := "Add FEC, use fluorinated solvents, or consider high-concentration electrolyte" |}
  ].

Definition property_database : dict := _initialize_property_database.
Definition compatibility_rules : list rule := _initialize_compatibility_rules.

Definition unknown_component : value :=
  VDict [("status", VStr "unknown"); ("note", VStr "Not in database")].

Definition _get_component_properties (components : list string) : dict :=
  fold_left
    (fun properties comp =>
       let comp_upper := upper comp in
       if has_key comp_upper property_database
       then dset comp_upper (get property_database comp_upper VNone) properties
       else dset comp_upper unknown_component properties)
    components [].

(** One iteration of [for rule in self.compatibility_rules]; the three
    operating values are only inspected in the branches that reach them. *)
Definition check_rule (components_upper : list string)
    (voltage temperature anode : value) (issues : list value) (r : rule)
  : res (list value) :=
  let rule_components := map upper (components r) in
  if existsb (fun rc => str_in rc components_upper) rule_components then
    let triggered := false in
    triggered <-
      (if str_in "PC" rule_components && str_in "PC" components_upper then
         a <- as_str anode ;;
         Ok (if contains "graphite" (lower a) then true else triggered)
       else Ok triggered) ;;
    triggered <-
      (if str_in "LiTFSI" rule_components && str_in "LiTFSI" components_upper then
         b <- gt voltage 3.8 ;; Ok (if b then true else triggered)
       else Ok triggered) ;;
    triggered <-
      (if str_in "LiPF6" rule_components && str_in "LiPF6" components_upper then
         b <- gt temperature 60 ;; Ok (if b then true else triggered)
       else Ok triggered) ;;
    triggered <-
      (if contains "cathode voltage" (condition r) then
         b <- gt voltage 4.5 ;; Ok (if b then true else triggered)
       else Ok triggered) ;;
    if triggered then
      Ok (issues ++
          [VDict [ ("rule_id", VStr (rule_id r)); ("issue", VStr (issue r));
                   ("severity", VStr (severity r));
                   ("solution", VStr (solution r)) ]])%list
    else Ok issues
  else Ok issues.

Definition _check_compatibility (components : list string)
    (operating_conditions electrode_materials : dict) : res (list value) :=
  let issues := [] in
  let components_upper := map upper components in
  let voltage := get operating_conditions "max_voltage" (VFloat 4.2) in
  let temperature := get operating_conditions "max_temperature" (VInt 45) in
  let anode := get electrode_materials "anode" (VStr "graphite") in
  foldM (check_rule components_upper voltage temperature anode)
        compatibility_rules issues.

Definition _calculate_aggregate_properties (properties : dict) : res dict :=
  solvents <-
    foldM (fun acc kv =>
             v <- as_dict (snd kv) ;;
             Ok (if eq_str (get v "category" VNone) "solvent"
                 then (acc ++ [v])%list else acc))
          properties [] ;;
  match solvents with
  | [] => Ok []
  | s0 :: rest =>
      let n := inject_Z (Z.of_nat (List.length solvents)) in
      viscosity <-
        mapM (fun s => as_num (get s "viscosity" (VFloat 1.0))) solvents ;;
      dielectric <-
        mapM (fun s => as_num (get s "dielectric_constant" (VInt 10))) solvents ;;
      oxidation <-
        mapM (fun s => as_num (get s "oxidation_potential" (VFloat 6.0))) solvents ;;
      reduction <-
        mapM (fun s => as_num (get s "reduction_potential" (VFloat 0.5))) solvents ;;
      let avg_viscosity := (sum viscosity / n)%Q in
      let avg_dielectric := (sum dielectric / n)%Q in
      let min_oxidation := Qmin_list (hd 0%Q oxidation) (tl oxidation) in
      let max_reduction := Qmax_list (hd 0%Q reduction) (tl reduction) in
      Ok [ ("estimated_viscosity_mPas", VFloat (round avg_viscosity 2));
           ("estimated_dielectric_constant", VFloat (round avg_dielectric 1));
           ("electrochemical_window",
            VTuple [ VFloat (round max_reduction 2);
                     VFloat (round min_oxidation 2) ]);
           ("window_width_V",
            VFloat (round (min_oxidation - max_reduction)%Q 2)) ]
  end.

(** [issue["severity"] in ["critical", "high"]] and the like. *)
Definition severity_in (issue : value) (l : list string) : res bool :=
  d <- as_dict issue ;;
  sev <- getitem d "severity" ;;
  Ok (existsb (eq_str sev) l).

Definition _generate_recommendations (components : list string)
    (issues : list value) (operating_conditions : dict) : res (list string) :=
  let recommendations : list string := [] in
  recommendations <-
    foldM (fun recs issue =>
             b <- severity_in issue ["critical"; "high"] ;;
             if b then
               d <- as_dict issue ;;
               sol <- getitem d "solution" ;;
               sol <- as_str sol ;;
               Ok (app recs ["PRIORITY: " ++ sol])
             else Ok recs)
          issues recommendations ;;
  let voltage := get operating_conditions "max_voltage" (VFloat 4.2) in
  let temp := get operating_conditions "max_temperature" (VInt 45) in
  high_voltage <- gt voltage 4.3 ;;
  let recommendations :=
    if high_voltage
    then (recommendations ++
          ["Consider adding VC or FEC for high-voltage stability"])%list
    else recommendations in
  high_temp <- gt temp 50 ;;
  let recommendations :=
    if high_temp
    then (recommendations ++
          ["Consider LiFSI or LiBF4 instead of LiPF6 for thermal stability"])%list
    else recommendations in
  let components_upper := map upper components in
  let has_additive :=
    existsb (fun c =>
               has_key c property_database &&
               match get property_database c VNone with
               | VDict entry => eq_str (get entry "category" VNone) "additive"
               | _ => false
               end)
            components_upper in
  let recommendations :=
    if negb has_additive
    then (recommendations ++
          ["Consider adding VC (1-2 wt%) for improved cycle life"])%list
    else recommendations in
  Ok (match recommendations with
      | [] => ["Formulation appears compatible for intended use"]
      | _ => recommendations
      end).

(** [process]; the call to [log_action] only writes to the log. *)
Definition process (input_data : dict) : res dict :=
  components <- as_str_list (get input_data "components" (VList [])) ;;
  operating_conditions <-
    as_dict (get input_data "operating_conditions" (VDict [])) ;;
  electrode_materials <-
    as_dict (get input_data "electrode_materials" (VDict [])) ;;
  let properties := _get_component_properties components in
  compatibility_issues <-
    _check_compatibility components operating_conditions electrode_materials ;;
  aggregate <- _calculate_aggregate_properties properties ;;
  recommendations <-
    _generate_recommendations components compatibility_issues
                              operating_conditions ;;
  critical <-
    filterM (fun i => severity_in i ["critical"]) compatibility_issues ;;
  Ok [ ("status", VStr "success");
       ("component_properties", VDict properties);
       ("aggregate_properties", VDict aggregate);
       ("compatibility_issues", VList compatibility_issues);
       ("recommendations", VList (map VStr recommendations));
       ("is_compatible", VBool (Nat.eqb (List.length critical) 0)) ].

End PropertyCompatibilityAgent.

(* ================================================================== *)
(** ** Planner ([agents/experiment_planning_agent.py]) *)
(* ================================================================== *)

Module ExperimentPlanningAgent.

Definition protocol (name : string) (steps : list string) (duration : string)
    (equipment : list string) : value :=
  VDict [ ("name", VStr name); ("steps", VList (map VStr steps));
          ("duration", VStr duration);
          ("equipment", VList (map VStr equipment)) ].

Definition _initialize_protocols : dict :=
[
  ("cell_assembly", protocol "Cell Assembly"
      [
        "Prepare electrodes according to battery type specifications";
        "Dry components under vacuum at appropriate temperature";
        "Transfer to controlled atmosphere environment";
        "Stack electrodes with appropriate separator";
        "Add electrolyte with precise volume";
        "Seal cell according to cell format";
        "Rest before testing" ]
      "1-2 days"
      ["Glovebox/dry room"; "Cell assembly tools"; "Vacuum oven"]);
  ("cycling_test", protocol "Galvanostatic Cycling"
      [
        "Connect cell to battery cycler";
        "Set voltage window appropriate for battery chemistry";
        "Perform formation cycles at low rate";
        "Run regular cycling at specified rate";
        "Record capacity, efficiency, voltage profiles" ]
      "1-4 weeks depending on cycle number"
      ["Battery cycler"; "Temperature chamber"]);
  ("rate_capability", protocol "Rate Capability Test"
      [
        "Complete formation cycles";
        "Cycle at progressively higher rates";
        "Return to low rate for recovery check";
        "Plot capacity vs rate" ]
      "3-5 days"
      ["Battery cycler"]);
  ("impedance_spectroscopy", protocol "Electrochemical Impedance Spectroscopy (EIS)"
      [
        "Equilibrate cell at desired state of charge";
        "Apply small AC perturbation";
        "Sweep frequency range";
        "Analyze impedance response" ]
      "2-4 hours per measurement"
      ["Potentiostat/Galvanostat"; "Frequency response analyzer"]);
  ("conductivity_measurement", protocol "Ionic Conductivity Measurement"
      [
        "Prepare electrolyte sample";
        "Fill conductivity cell";
        "Measure impedance";
        "Calculate conductivity";
        "Optional: temperature-dependent measurements" ]
      "1-2 hours"
      ["Conductivity cell"; "Impedance analyzer"]) ].

Definition base_protocols : dict := _initialize_protocols.

Definition _detect_battery_type (query : string) : string :=
  let query_lower := lower query in
  let any kws := existsb (fun kw => contains kw query_lower) kws in
  if any ["zinc"; "zn-ion"; "zn ion"; "zn metal"; "zn anode"; "aqueous zinc"]
  then "zinc"
  else if any ["sodium"; "na-ion"; "na ion"; "sodium-ion"]
  then "sodium-ion"
  else if any ["magnesium"; "mg-ion"; "mg ion"; "mg metal"]
  then "magnesium"
  else if any ["solid-state"; "solid state"; "all-solid"; "solid electrolyte";
               "polymer electrolyte"]
  then "solid-state"
  else if any ["aqueous"; "water-based"; "water based"]
  then "aqueous"
  else if any ["lithium"; "li-ion"; "li ion"; "lithium-ion"; "lipf6"; "lifsi"]
  then "lithium-ion"
  else "lithium-ion".

Definition component (name abbreviation : string) (concentration : value)
    (unit role : string) : value :=
  VDict [ ("name", VStr name); ("abbreviation", VStr abbreviation);
          ("concentration", concentration); ("unit", VStr unit);
          ("role", VStr role) ].

Definition template (title : string) (formulation : list value)
    (rationale : string) (priority_score : value) : value :=
  VDict [ ("title", VStr title); ("formulation", VList formulation);
          ("rationale", VStr rationale); ("priority_score", priority_score) ].

(** The chemistry-specific templates of [_generate_fallback_plans]. *)
Definition templates : dict :=
[
  ("zinc", VDict [
    ("baseline", template
      "Baseline Aqueous Zinc Electrolyte"
      [
        component "Zinc Sulfate" "ZnSO4" (VFloat 2.0) "M" "salt";
        component "Water" "H2O" (VInt 100) "vol%" "solvent";
        component "Manganese Sulfate" "MnSO4" (VFloat 0.1) "M" "additive" ]
      "Standard aqueous zinc electrolyte with MnSO4 to suppress Mn dissolution from cathode."
      (VFloat 0.85));
    ("optimized", template
      "Optimized Zinc Triflate Electrolyte"
      [
        component "Zinc Trifluoromethanesulfonate" "Zn(CF3SO3)2" (VFloat 3.0) "M" "salt";
        component "Water" "H2O" (VInt 100) "vol%" "solvent";
        component "Lithium bis(trifluoromethanesulfonyl)imide" "LiTFSI" (VFloat 0.5) "M" "additive" ]
      "High-concentration zinc triflate with LiTFSI for improved Zn plating/stripping reversibility."
      (VFloat 0.90));
    ("advanced", template
      "Water-in-Salt Zinc Electrolyte"
      [
        component "Zinc Trifluoromethanesulfonate" "Zn(CF3SO3)2" (VFloat 4.0) "M" "salt";
        component "Lithium bis(trifluoromethanesulfonyl)imide" "LiTFSI" (VFloat 21.0) "M" "salt";
        component "Water" "H2O" (VInt 100) "vol%" "solvent" ]
      "Water-in-salt electrolyte with expanded electrochemical stability window and dendrite suppression."
      (VFloat 0.88)) ]);
  ("sodium-ion", VDict [
    ("baseline", template
      "Baseline Sodium-ion Electrolyte"
      [
        component "Ethylene Carbonate" "EC" (VInt 50) "vol%" "solvent";
        component "Propylene Carbonate" "PC" (VInt 50) "vol%" "solvent";
        component "Sodium Hexafluorophosphate" "NaPF6" (VFloat 1.0) "M" "salt" ]
      "Standard carbonate-based electrolyte for sodium-ion batteries."
      (VFloat 0.85));
    ("optimized", template
      "Optimized Ether-based Na Electrolyte"
      [
        component "Diethylene Glycol Dimethyl Ether" "Diglyme" (VInt 100) "vol%" "solvent";
        component "Sodium bis(trifluoromethanesulfonyl)imide" "NaTFSI" (VFloat 1.0) "M" "salt" ]
      "Ether-based electrolyte with improved Na metal compatibility and lower viscosity."
      (VFloat 0.90));
    ("advanced", template
      "Advanced Concentrated Na Electrolyte"
      [
        component "Dimethoxyethane" "DME" (VInt 100) "vol%" "solvent";
        component "Sodium bis(fluorosulfonyl)imide" "NaFSI" (VFloat 4.0) "M" "salt" ]
      "High-concentration NaFSI in ether for stable Na metal anode performance."
      (VFloat 0.88)) ]);
  ("lithium-ion", VDict [
    ("baseline", template
      "Baseline Commercial-type Electrolyte"
      [
        component "Ethylene Carbonate" "EC" (VInt 30) "vol%" "solvent";
        component "Ethyl Methyl Carbonate" "EMC" (VInt 70) "vol%" "solvent";
        component "Lithium Hexafluorophosphate" "LiPF6" (VFloat 1.0) "M" "salt";
        component "Vinylene Carbonate" "VC" (VInt 2) "wt%" "additive" ]
      "Industry-standard EC:EMC electrolyte with VC additive for SEI formation."
      (VFloat 0.85));
    ("optimized", template
      "Optimized Li-ion Electrolyte"
      [
        component "Ethylene Carbonate" "EC" (VInt 30) "vol%" "solvent";
        component "Dimethyl Carbonate" "DMC" (VInt 40) "vol%" "solvent";
        component "Ethyl Methyl Carbonate" "EMC" (VInt 30) "vol%" "solvent";
        component "Lithium bis(fluorosulfonyl)imide" "LiFSI" (VFloat 1.2) "M" "salt";
        component "Vinylene Carbonate" "VC" (VFloat 1.5) "wt%" "additive";
        component "Fluoroethylene Carbonate" "FEC" (VInt 5) "wt%" "additive" ]
      "Ternary solvent with LiFSI for improved conductivity and thermal stability."
      (VFloat 0.90));
    ("advanced", template
      "Advanced Dual-Salt Li Electrolyte"
      [
        component "Ethylene Carbonate" "EC" (VInt 30) "vol%" "solvent";
        component "Dimethyl Carbonate" "DMC" (VInt 35) "vol%" "solvent";
        component "Ethyl Methyl Carbonate" "EMC" (VInt 35) "vol%" "solvent";
        component "Lithium Hexafluorophosphate" "LiPF6" (VFloat 0.8) "M" "salt";
        component "Lithium bis(fluorosulfonyl)imide" "LiFSI" (VFloat 0.2) "M" "salt";
        component "Vinylene Carbonate" "VC" (VInt 2) "wt%" "additive";
        component "1,3,2-Dioxathiolane 2,2-dioxide" "DTD" (VInt 1) "wt%" "additive" ]
      "Dual-salt system with synergistic SEI formation from VC and DTD."
      (VFloat 0.88)) ]);
  ("magnesium", VDict [
    ("baseline", template
      "Baseline APC Magnesium Electrolyte"
      [
        component "Magnesium Chloride" "MgCl2" (VFloat 0.25) "M" "salt";
        component "Aluminum Chloride" "AlCl3" (VFloat 0.5) "M" "Lewis acid";
        component "Tetrahydrofuran" "THF" (VInt 100) "vol%" "solvent" ]
      "All-phenyl complex (APC) type electrolyte, well-established for Mg batteries."
      (VFloat 0.85));
    ("optimized", template
      "Optimized Mg(TFSI)2 Electrolyte"
      [
        component "Magnesium bis(trifluoromethanesulfonyl)imide" "Mg(TFSI)2" (VFloat 0.5) "M" "salt";
        component "Dimethoxyethane" "DME" (VInt 50) "vol%" "solvent";
        component "Tetraglyme" "TEGDME" (VInt 50) "vol%" "solvent" ]
      "Non-corrosive Mg(TFSI)2 salt in glyme-based solvents for wider compatibility."
      (VFloat 0.88));
    ("advanced", template
      "Advanced Mg Electrolyte with Boron Cluster"
      [
        component "Magnesium Carborane" "Mg(CB11H12)2" (VFloat 0.5) "M" "salt";
        component "Tetraglyme" "TEGDME" (VInt 100) "vol%" "solvent" ]
      "Carborane-based anion provides high oxidative stability and non-nucleophilic character."
      (VFloat 0.82)) ]) ].

Section Planner.

Variable rt : runtime.
Variable llm_service : option LLMService.

(** One iteration of [for plan_type in ...]; [n] identifiers were drawn
    before it. *)
Definition fallback_plan (battery_type : string) (chem_templates : dict)
    (n : nat) (plan_type : string) : res value :=
  template <- getitem chem_templates plan_type ;;
  template <- as_dict template ;;
  title <- getitem template "title" ;;
  formulation <- getitem template "formulation" ;;
  rationale <- getitem template "rationale" ;;
  priority_score <- getitem template "priority_score" ;;
  Ok (VDict
        [ ("plan_id", VStr (substring 0 8 (uuid4 rt n)));
          ("title", title);
          ("formulation", formulation);
          ("rationale", rationale);
          ("battery_type", VStr battery_type);
          ("experimental_steps", VList
             [ VStr ("Prepare electrolyte for " ++ battery_type ++ " battery");
               VStr "Verify purity and water content";
               VStr "Assemble test cells";
               VStr "Perform formation cycles";
               VStr "Run cycling tests";
               VStr "Conduct EIS measurements";
               VStr "Analyze results" ]);
          ("safety_considerations", VList
             [ VStr "Handle all chemicals with appropriate PPE";
               VStr "Work in appropriate atmosphere (glovebox for air-sensitive)";
               VStr "Follow MSDS guidelines for all components" ]);
          ("estimated_cost", VStr "$300-600");
          ("estimated_time", VStr "4-8 weeks");
          ("priority_score", priority_score) ]).

Definition _generate_fallback_plans (query battery_type : string)
  : res (list value) :=
  default <- getitem templates "lithium-ion" ;;
  chem_templates <- as_dict (get templates battery_type default) ;;
  foldM (fun plans plan_type =>
           plan <- fallback_plan battery_type chem_templates
                                 (List.length plans) plan_type ;;
           Ok (app plans [plan]))
        ["advanced"; "optimized"; "baseline"] [].

(** [for plan in plans: plan["plan_id"] = ...; plan["battery_type"] = ...],
    by the kind of object [plans] is. *)
Fixpoint stamp_list (battery_type : string) (n : nat) (plans : list value)
  : res (list value) :=
  match plans with
  | [] => Ok []
  | plan :: rest =>
      d <- as_dict plan ;;
      let d := dset "plan_id" (VStr (substring 0 8 (uuid4 rt n))) d in
      let d := dset "battery_type" (VStr battery_type) d in
      rest' <- stamp_list battery_type (S n) rest ;;
      Ok (VDict d :: rest')
  end.

Definition stamp_plans (battery_type : string) (plans : value) : res value :=
  match plans with
  | VList l => l' <- stamp_list battery_type 0 l ;; Ok (VList l')
  | VDict [] => Ok plans
  | VStr EmptyString => Ok plans
  | _ => Raise TypeError
  end.

Definition _parse_llm_plans (response battery_type : string) : value :=
  match
    (direct <-
       match json_loads rt response with
       | Ok data =>
           has_plans <- str_in_value "plans" data ;;
           if has_plans then
             plans <- subscript data "plans" ;;
             plans <- stamp_plans battery_type plans ;;
             Ok (Some plans)
           else Ok None
       | Raise JSONDecodeError => Ok None
       | Raise e => Raise e
       end ;;
     match direct with
     | Some plans => Ok plans
     | None =>
         match re_search rt PlansObject response with
         | Some json_match =>
             data <- json_loads rt json_match ;;
             data <- as_dict data ;;
             stamp_plans battery_type (get data "plans" (VList []))
         | None => Ok VNone
         end
     end)
  with
  | Ok plans => plans
  | Raise _ => VNone
  end.

Definition _generate_plans_with_llm (llm : LLMService)
    (query battery_type : string)
    (literature_data property_data target_application operating_conditions
     electrode_materials user_specified_materials detected_components : value)
  : res (list value) :=
  prompts <-
    render_prompt rt PlansPrompt
      [ VStr query; VStr battery_type; literature_data; property_data;
        target_application; operating_conditions; electrode_materials;
        user_specified_materials; detected_components ] ;;
  try_except
    (response <- generate llm (fst prompts) (snd prompts) 0.4 3000 ;;
     let plans := _parse_llm_plans response battery_type in
     if truthy plans then as_list plans
     else _generate_fallback_plans query battery_type)
    (fun _ => _generate_fallback_plans query battery_type).

Definition _select_protocols (plan : value) (battery_type : string)
  : res (list value) :=
  p1 <- getitem base_protocols "cell_assembly" ;;
  p2 <- getitem base_protocols "cycling_test" ;;
  p3 <- getitem base_protocols "rate_capability" ;;
  p4 <- getitem base_protocols "impedance_spectroscopy" ;;
  p5 <- getitem base_protocols "conductivity_measurement" ;;
  Ok [p1; p2; p3; p4; p5].

Definition _generate_recommendation (plans : list value) (battery_type : string)
  : res string :=
  match plans with
  | [] =>
      Ok ("Unable to generate recommendations for " ++ battery_type
          ++ " battery. Please provide more context.")
  | top_plan :: _ =>
      top_plan <- as_dict top_plan ;;
      title <- getitem top_plan "title" ;;
      priority <- format rt (get top_plan "priority_score" (VFloat 0.85)) ".2f" ;;
      Ok ("Recommended for " ++ upper battery_type ++ " battery: '"
          ++ fstr rt title ++ "' (priority: " ++ priority ++ "). "
          ++ "This formulation uses components specifically selected for "
          ++ battery_type ++ " chemistry. "
          ++ "Estimated cost: "
          ++ fstr rt (get top_plan "estimated_cost" (VStr "TBD"))
          ++ ", timeline: "
          ++ fstr rt (get top_plan "estimated_time" (VStr "TBD")) ++ ".")
  end.

(** [process]; input values are read at the types the source's
    annotations give them, and [log_action] only writes to the log. *)
Definition process (input_data : dict) : res dict :=
  query <- as_str (get input_data "query" (VStr "")) ;;
  let literature_data := get input_data "literature_data" (VDict []) in
  let property_data := get input_data "property_data" (VDict []) in
  let target_application := get input_data "target_application" (VStr "general") in
  battery_type <- as_str (get input_data "battery_type" (VStr "")) ;;
  let operating_conditions := get input_data "operating_conditions" (VDict []) in
  let electrode_materials := get input_data "electrode_materials" (VDict []) in
  let user_specified_materials :=
    get input_data "user_specified_materials" (VList []) in
  let detected_components := get input_data "detected_components" (VList []) in
  let battery_type :=
    if String.eqb battery_type "" then _detect_battery_type query
    else battery_type in
  plans <-
    match llm_service with
    | Some llm =>
        _generate_plans_with_llm llm query battery_type literature_data
          property_data target_application operating_conditions
          electrode_materials user_specified_materials detected_components
    | None => _generate_fallback_plans query battery_type
    end ;;
  plans <-
    mapM (fun plan =>
            d <- as_dict plan ;;
            protocols <- _select_protocols plan battery_type ;;
            Ok (VDict (dset "protocols" (VList protocols) d)))
         plans ;;
  recommendation <- _generate_recommendation plans battery_type ;;
  Ok [ ("status", VStr "success");
       ("experiment_plans", VList plans);
       ("total_plans", VInt (Z.of_nat (List.length plans)));
       ("battery_type", VStr battery_type);
       ("recommendation", VStr recommendation) ].

End Planner.

End ExperimentPlanningAgent.

(* ================================================================== *)
(** ** Performance predictor ([agents/performance_prediction_agent.py]) *)
(* ================================================================== *)

Module PerformancePredictionAgent.

Definition baseline (capacity cycles rate conductivity temp_range : value)
  : value :=
  VDict [ ("capacity", capacity); ("cycles", cycles); ("rate", rate);
          ("conductivity", conductivity); ("temp_range", temp_range) ].

(** The table of [_get_base_values_for_chemistry]. *)
Definition baselines : dict :=
[
  ("lithium-ion", baseline (VInt 85) (VInt 500) (VInt 70) (VInt 10) (VTuple [VInt (-20); VInt 60]));
  ("zinc", baseline (VInt 80) (VInt 300) (VInt 65) (VInt 50) (VTuple [VInt 0; VInt 50]));
  ("sodium-ion", baseline (VInt 80) (VInt 400) (VInt 65) (VInt 8) (VTuple [VInt (-20); VInt 55]));
  ("magnesium", baseline (VInt 75) (VInt 200) (VInt 50) (VInt 5) (VTuple [VInt 0; VInt 50]));
  ("aqueous", baseline (VInt 80) (VInt 500) (VInt 80) (VInt 100) (VTuple [VInt 0; VInt 40]));
  ("unknown", baseline (VInt 75) (VInt 300) (VInt 60) (VInt 5) (VTuple [VInt (-10); VInt 50])) ].

Definition li_indicators : list string :=
  ["LIPF6"; "LIFSI"; "LITFSI"; "LIBF4"; "LIBOB"; "LI"; "LITHIUM"].
Definition zn_indicators : list string :=
  ["ZN"; "ZNSO4"; "ZNCL2"; "ZNTFSI"; "ZN(CF3SO3)2"; "ZINC"].
Definition na_indicators : list string :=
  ["NA"; "NAPF6"; "NATFSI"; "NAFSI"; "SODIUM"].
Definition mg_indicators : list string :=
  ["MG"; "MGCL2"; "MGTFSI"; "MAGNESIUM"].
Definition aqueous_indicators : list string :=
  ["H2O"; "WATER"; "AQUEOUS"].

(** [any(ind in comp for ind in indicators for comp in components_upper)] *)
Definition any_indicator (indicators components_upper : list string) : bool :=
  existsb (fun ind => existsb (fun comp => contains ind comp) components_upper)
          indicators.

Definition _detect_chemistry (formulation : dict) : string :=
  let components_upper := map upper (keys formulation) in
  if any_indicator li_indicators components_upper then "lithium-ion"
  else if any_indicator zn_indicators components_upper then "zinc"
  else if any_indicator na_indicators components_upper then "sodium-ion"
  else if any_indicator mg_indicators components_upper then "magnesium"
  else if any_indicator aqueous_indicators components_upper then "aqueous"
  else "unknown".

Definition _get_base_values_for_chemistry (chemistry : string) : res dict :=
  default <- getitem baselines "unknown" ;;
  as_dict (get baselines chemistry default).

(** [base_values[key]] where it is used as a number. *)
Definition base_value (base_values : dict) (key : string) : res Q :=
  v <- getitem base_values key ;; as_num v.

Section Predictor.

Variable rt : runtime.
Variable llm_service : option LLMService.

Definition _basic_estimation (formulation operating_conditions : value)
  : res dict :=
  f <- as_dict formulation ;;
  let chemistry := _detect_chemistry f in
  base_values <- _get_base_values_for_chemistry chemistry ;;
  let variation := random_uniform rt (-5) 5 in
  capacity <- base_value base_values "capacity" ;;
  cycles <- base_value base_values "cycles" ;;
  rate <- base_value base_values "rate" ;;
  conductivity <- base_value base_values "conductivity" ;;
  temp_range <- getitem base_values "temp_range" ;;
  Ok [ ("status", VStr "success");
       ("predictions", VDict
          [ ("capacity_retention_percent",
             VFloat (round (capacity + variation)%Q 1));
            ("cycle_stability_cycles",
             VInt (int (cycles + variation * 10)%Q));
            ("rate_capability_2C_percent",
             VFloat (round (rate + variation)%Q 1));
            ("ionic_conductivity_mS_cm",
             VFloat (round (conductivity + variation * 0.1)%Q 2));
            ("temperature_range_C", temp_range) ]);
       ("confidence_score", VFloat 0.5);
       ("model_notes",
        VStr ("Basic estimation for " ++ chemistry
              ++ " chemistry. LLM service not available for detailed analysis."));
       ("battery_chemistry", VStr chemistry);
       ("formulation_analyzed", formulation);
       ("prediction_method", VStr "basic_estimation") ].

Definition _parse_llm_response (response : string) : value :=
  match
    (direct <-
       match json_loads rt response with
       | Ok data => Ok (Some data)
       | Raise JSONDecodeError => Ok None
       | Raise e => Raise e
       end ;;
     match direct with
     | Some data => Ok data
     | None =>
         match re_search rt CodeBlock response with
         | Some group1 => json_loads rt group1
         | None =>
             match re_search rt PredictionsObject response with
             | Some group0 => json_loads rt group0
             | None =>
                 let start := find response "{"%char in
                 let end_ := (rfind response "}"%char + 1)%Z in
                 if (0 <=? start)%Z && (start <? end_)%Z
                 then json_loads rt (slice response start end_)
                 else Ok VNone
             end
         end
     end)
  with
  | Ok data => data
  | Raise _ => VNone
  end.

Definition _predict_with_llm (llm : LLMService)
    (formulation operating_conditions electrode_materials battery_type
     query_context : value) : res dict :=
  prompts <-
    render_prompt rt PredictionPrompt
      [ formulation; operating_conditions; electrode_materials; battery_type;
        query_context ] ;;
  try_except
    (response <- generate llm (fst prompts) (snd prompts) 0.3 800 ;;
     let predictions := _parse_llm_response response in
     if truthy predictions then
       predictions <- as_dict predictions ;;
       Ok [ ("status", VStr "success");
            ("predictions", get predictions "predictions" (VDict []));
            ("confidence_score", get predictions "confidence_score" (VFloat 0.7));
            ("model_notes", get predictions "model_notes" (VStr ""));
            ("battery_chemistry",
             get predictions "battery_chemistry_detected"
                 (if truthy battery_type then battery_type else VStr "unknown"));
            ("key_factors", get predictions "key_performance_factors" (VList []));
            ("formulation_analyzed", formulation);
            ("prediction_method", VStr "llm_based") ]
     else _basic_estimation formulation operating_conditions)
    (fun _ => _basic_estimation formulation operating_conditions).

Definition process (input_data : dict) : res dict :=
  let formulation := get input_data "formulation" (VDict []) in
  let operating_conditions := get input_data "operating_conditions" (VDict []) in
  let electrode_materials := get input_data "electrode_materials" (VDict []) in
  let battery_type := get input_data "battery_type" (VStr "") in
  let query_context := get input_data "query_context" (VStr "") in
  match llm_service with
  | Some llm =>
      _predict_with_llm llm formulation operating_conditions
                        electrode_materials battery_type query_context
  | None => _basic_estimation formulation operating_conditions
  end.

End Predictor.

End PerformancePredictionAgent.

(* ================================================================== *)
(** ** Literature responder ([agents/literature_rag_agent.py]) *)
(* ================================================================== *)

Module LiteratureRAGAgent.

(** The external similarity search and the documents it returns. *)
Record document : Type := {
  page_content : string;
  metadata : dict
}.

Record VectorStore : Type := {
  similarity_search_with_score : string -> nat -> res (list (document * Q));
  similarity_search : string -> nat -> res (list document)
}.

Definition entry (name properties use_case : string) : value :=
  VDict [ ("name", VStr name); ("properties", VStr properties);
          ("use_case", VStr use_case) ].

Definition _initialize_knowledge_base : dict :=
[
  ("common_solvents", VDict [
      ("EC", entry "Ethylene Carbonate"
         "High dielectric constant (~90), high melting point (36°C)"
         "Primary solvent for lithium-ion batteries, excellent SEI former");
      ("DMC", entry "Dimethyl Carbonate"
         "Low viscosity, low dielectric constant"
         "Co-solvent to reduce viscosity, improves ion mobility");
      ("EMC", entry "Ethyl Methyl Carbonate"
         "Low viscosity, good low-temperature performance"
         "Co-solvent for improved rate capability");
      ("DEC", entry "Diethyl Carbonate"
         "Very low viscosity, wide liquid range"
         "Co-solvent for high-rate applications");
      ("PC", entry "Propylene Carbonate"
         "High dielectric constant, low melting point (-49°C)"
         "Single solvent for some applications, graphite incompatible") ]);
  ("common_salts", VDict [
      ("LiPF6", entry "Lithium Hexafluorophosphate"
         "High ionic conductivity, thermally unstable above 60°C"
         "Most common commercial lithium salt");
      ("LiTFSI", entry "Lithium bis(trifluoromethanesulfonyl)imide"
         "Thermally stable, corrosive to aluminum at high voltage"
         "Solid-state and high-temperature applications");
      ("LiFSI", entry "Lithium bis(fluorosulfonyl)imide"
         "High ionic conductivity, better thermal stability than LiPF6"
         "High-performance liquid electrolytes");
      ("LiBF4", entry "Lithium Tetrafluoroborate"
         "Lower conductivity, better thermal stability"
         "High-temperature applications") ]);
  ("common_additives", VDict [
      ("VC", entry "Vinylene Carbonate"
         "Polymerizes on anode surface"
         "SEI stabilizer, improves cycle life (1-2 wt%)");
      ("FEC", entry "Fluoroethylene Carbonate"
         "Forms fluorinated SEI components"
         "Silicon anode stabilizer, high-voltage stabilizer (5-10 wt%)");
      ("PS", entry "Propane Sultone"
         "Forms sulfur-containing SEI"
         "Anode passivation, reduces gas generation (1-3 wt%)");
      ("LiBOB", entry "Lithium bis(oxalato)borate"
         "Forms protective cathode film"
         "High-voltage cathode stabilizer (0.5-1 wt%)");
      ("DTD", entry "1,3,2-Dioxathiolane 2,2-dioxide"
         "Sulfur-containing additive"
         "SEI former, capacity retention improvement (1-2 wt%)") ]);
  ("recent_trends", VList [
      VStr "High-concentration electrolytes (>3M) for extended voltage windows";
      VStr "Localized high-concentration electrolytes with diluents";
      VStr "Fluorinated solvents for high-voltage stability";
      VStr "Ionic liquid electrolytes for safety";
      VStr "Solid-state electrolytes: sulfides, oxides, polymers";
      VStr "Dual-salt electrolytes for synergistic effects";
      VStr "Weakly-coordinating anions for improved kinetics" ]) ].

Definition knowledge_base : dict := _initialize_knowledge_base.

Section Literature.

Variable rt : runtime.
Variable vector_store : option VectorStore.

(** [max(0, min(1, 1 - score / 2))], then [round(similarity, 2)]: the
    integer bounds are returned as they are. *)
Definition similarity_of (score : Q) : value :=
  let x := (1 - score / 2)%Q in
  let m := if Qgtb 1 x then VFloat x else VInt 1 in
  let similarity :=
    match m with
    | VFloat y => if Qgtb y 0 then VFloat y else VInt 0
    | _ => m
    end in
  match similarity with
  | VFloat y => VFloat (round y 2)
  | _ => similarity
  end.

Definition scored_result (ds : document * Q) : value :=
  let (doc, score) := ds in
  VDict [ ("title", get (metadata doc) "source" (VStr "Uploaded Document"));
          ("content", VStr (page_content doc));
          ("relevance_score", similarity_of score);
          ("source", VStr "uploaded_document");
          ("page", get (metadata doc) "page" VNone);
          ("chunk_id", get (metadata doc) "chunk_id" VNone);
          ("metadata",
           VDict (filter (fun kv => negb (str_in (fst kv) ["source"]))
                         (metadata doc))) ].

Definition unscored_result (doc : document) : value :=
  VDict [ ("title", get (metadata doc) "source" (VStr "Uploaded Document"));
          ("content", VStr (page_content doc));
          ("relevance_score", VFloat 0.85);
          ("source", VStr "uploaded_document");
          ("page", get (metadata doc) "page" VNone);
          ("metadata", VDict (metadata doc)) ].

Definition _search_vector_store (query : string) (k : nat) : list value :=
  match vector_store with
  | None => []
  | Some store =>
      match
        try_except
          (docs_with_scores <- similarity_search_with_score store query k ;;
           Ok (map scored_result docs_with_scores))
          (fun _ =>
             docs <- similarity_search store query k ;;
             Ok (map unscored_result docs))
      with
      | Ok results => results
      | Raise _ => []
      end
  end.

(** One of the three loops over a section of the knowledge base. *)
Definition search_section (label section : string) (query_lower : string)
    (results : list value) : res (list value) :=
  items <- (v <- getitem knowledge_base section ;; as_dict v) ;;
  foldM (fun results kv =>
           let abbr := fst kv in
           info <- as_dict (snd kv) ;;
           name <- (v <- getitem info "name" ;; as_str v) ;;
           if contains (lower abbr) query_lower
              || contains (lower name) query_lower
           then
             properties <- getitem info "properties" ;;
             use_case <- getitem info "use_case" ;;
             Ok (app results
                   [VDict [ ("title",
                             VStr (label ++ ": " ++ name ++ " (" ++ abbr ++ ")"));
                            ("content",
                             VStr ("Properties: " ++ fstr rt properties
                                   ++ ". Use case: " ++ fstr rt use_case));
                            ("relevance_score", VFloat 0.9);
                            ("source", VStr "knowledge_base") ]])
           else Ok results)
        items results.

Definition trend_keywords : list string :=
  ["high-voltage"; "safety"; "solid-state"; "silicon"; "fast-charging";
   "concentration"].

Definition _search_knowledge_base (query : string) : res (list value) :=
  let results := [] in
  let query_lower := lower query in
  results <- search_section "Solvent" "common_solvents" query_lower results ;;
  results <- search_section "Salt" "common_salts" query_lower results ;;
  results <- search_section "Additive" "common_additives" query_lower results ;;
  foldM (fun results keyword =>
           if contains keyword query_lower then
             trends <- (v <- getitem knowledge_base "recent_trends" ;; as_list v) ;;
             foldM (fun results trend =>
                      t <- as_str trend ;;
                      if contains keyword (lower t)
                      then Ok (app results
                                 [VDict [ ("title", VStr "Recent Research Trend");
                                          ("content", trend);
                                          ("relevance_score", VFloat 0.75);
                                          ("source", VStr "knowledge_base") ]])
                      else Ok results)
                   trends results
           else Ok results)
        trend_keywords results.

(** A line of the summary: [f"{i}. {result['title']}: {result['content'][:200]}..."] *)
Definition summary_line (i : nat) (result : value) : res string :=
  title <- subscript result "title" ;;
  content <- (v <- subscript result "content" ;; as_str v) ;;
  Ok (fstr rt (VInt (Z.of_nat i)) ++ ". " ++ fstr rt title ++ ": "
      ++ substring 0 200 content ++ "...").

Fixpoint summary_lines (i : nat) (results : list value) : res (list string) :=
  match results with
  | [] => Ok []
  | r :: rest =>
      line <- summary_line i r ;;
      lines <- summary_lines (S i) rest ;;
      Ok (line :: lines)
  end.

Definition _generate_summary (query : string) (results : list value)
  : res string :=
  match results with
  | [] =>
      Ok ("No specific literature found for query: '" ++ query
          ++ "'. Consider refining your search or uploading relevant documents.")
  | _ =>
      let head :=
        "Found " ++ fstr rt (VInt (Z.of_nat (List.length results)))
        ++ " relevant sources for '" ++ query ++ "':" ++ nl in
      lines <- summary_lines 1 (firstn 5 results) ;;
      Ok (join nl (head :: lines))
  end.

Definition process (input_data : dict) : res dict :=
  query <- as_str (get input_data "query" (VStr "")) ;;
  let results := [] in
  let results :=
    match vector_store with
    | Some _ => app results (_search_vector_store query 5)
    | None => results
    end in
  kb_results <- _search_knowledge_base query ;;
  let results := app results kb_results in
  summary <- _generate_summary query results ;;
  Ok [ ("status", VStr "success");
       ("query", VStr query);
       ("results", VList results);
       ("summary", VStr summary);
       ("sources_count", VInt (Z.of_nat (List.length results))) ].

End Literature.

End LiteratureRAGAgent.

(* ================================================================== *)
(** ** Language-model service ([services/llm_service.py]) *)
(* ================================================================== *)

Module LLMServiceMethods.

Section Methods.

Variable rt : runtime.
Variable llm : LLMService.

Definition analysis_reply (prompts : string * string) : res dict :=
  try_except
    (response <- generate llm (fst prompts) (snd prompts) 0.3 2000 ;;
     Ok [("analysis", VStr response); ("status", VStr "success")])
    (fun e =>
       Ok [ ("analysis", VNone); ("status", VStr "error");
            ("error", VStr (exn_message rt e)) ]).

Definition analyze_electrolyte_query (query : string) : res dict :=
  prompts <- render_prompt rt AnalyzePrompt [VStr query] ;;
  analysis_reply prompts.

Definition generate_formulation_rationale (formulation : value)
    (requirements : dict) : res string :=
  prompts <- render_prompt rt RationalePrompt [formulation; VDict requirements] ;;
  try_except
    (generate llm (fst prompts) (snd prompts) 0.5 500)
    (fun _ =>
       Ok "Rationale generation failed. Please review formulation manually.").

Definition summarize_literature (documents : value) (query : string)
  : res string :=
  prompts <- render_prompt rt SummarizePrompt [documents; VStr query] ;;
  try_except
    (generate llm (fst prompts) (snd prompts) 0.3 800)
    (fun _ =>
       Ok "Unable to summarize literature. Please review documents manually.").

Definition predict_compatibility (components conditions : value) : res dict :=
  prompts <- render_prompt rt CompatibilityPrompt [components; conditions] ;;
  analysis_reply prompts.

End Methods.

End LLMServiceMethods.

(* ================================================================== *)
(** ** Coordinator ([agents/orchestrator_agent.py]) *)
(* ================================================================== *)

Module OrchestratorAgent.

Definition QUERY_TYPE_GREETING : string := "greeting".
Definition QUERY_TYPE_HELP : string := "help".
Definition QUERY_TYPE_OFF_TOPIC : string := "off_topic".
Definition QUERY_TYPE_ELECTROLYTE_DESIGN : string := "electrolyte_design".
Definition QUERY_TYPE_LITERATURE_ONLY : string := "literature_search".
Definition QUERY_TYPE_PROPERTY_CHECK : string := "property_check".

(** The four sub-agents, and the record of one [process] call on one. *)
Inductive agent : Type := Literature | Property | Planning | Prediction.

Record call : Type := {
  callee : agent;
  call_input : dict;
  call_output : res dict
}.

(** Coordinator code runs against the log of the sub-agent calls made
    so far and may raise. *)
Definition M (A : Type) : Type := list call -> res A * list call.

Definition ret {A : Type} (a : A) : M A := fun log => (Ok a, log).

Definition lift {A : Type} (r : res A) : M A := fun log => (r, log).

Definition bindM {A B : Type} (m : M A) (k : A -> M B) : M B :=
  fun log =>
    match m log with
    | (Ok a, log') => k a log'
    | (Raise e, log') => (Raise e, log')
    end.

Notation "x <~ m ;; k" := (bindM m (fun x => k))
  (at level 61, m at next level, right associativity) : py_scope.

Definition help_text : string :=
  "## Electrolyte Design System - Help

### What I Can Do:
I'm an AI-powered multi-agent system for lithium-ion battery electrolyte design. Here's how I can help:

**ðŸ”¬ Design Electrolytes**
- Describe your requirements (high voltage, fast charging, long cycle life, etc.)
- Specify electrode materials (NMC, LFP, silicon anode, etc.)
- I'll generate optimized formulations with scientific rationale

**ðŸ“š Search Literature**
- Upload research papers (PDF) for me to index
- I'll search both uploaded documents and my knowledge base
- Get summaries of relevant electrolyte research

**âš—ï¸ Check Compatibility**
- Ask about specific components (EC, DMC, LiPF6, VC, FEC, etc.)
- I'll identify compatibility issues and constraints
- Get recommendations for safe formulations

**ðŸ“Š Predict Performance**
- Get predictions for capacity retention, cycle life, rate capability
- Understand temperature operating ranges
- Compare different formulation options

### Example Queries:
- "
  ++ dq ++ "Design a high-voltage electrolyte for NMC cathode with silicon anode"
  ++ dq ++ "
- "
  ++ dq ++ "What additives improve cycle life for fast-charging applications?"
  ++ dq ++ "
- "
  ++ dq ++ "Check compatibility of LiPF6 with FEC at high temperatures"
  ++ dq ++ "
- "
  ++ dq ++ "Compare EC/DMC vs EC/EMC solvent systems"
  ++ dq ++ "

### Getting Started:
Simply describe your electrolyte design requirements, and I'll coordinate multiple specialized agents to deliver three optimized experiment plans!

---
*Powered by GPT-4.1 and multi-agent AI*".

Definition greetings : list string :=
  ["hello"; "hi"; "hey"; "good morning"; "good afternoon"; "good evening";
   "howdy"; "greetings"; "what's up"; "sup"; "yo"].

Definition help_patterns : list string :=
  ["help"; "what can you do"; "how do i use"; "what is this";
   "how does this work"; "capabilities"; "features"].

(** The table [known_materials] of [_extract_user_materials]: what is
    looked for in the lower-cased query, and the name recorded for it. *)
Definition known_materials : list (string * string) :=
  [ ("dmso", "DMSO"); ("acetonitrile", "ACN"); ("acn", "ACN");
    ("propylene carbonate", "PC"); ("ethylene carbonate", "EC");
    ("dimethyl carbonate", "DMC"); ("diethyl carbonate", "DEC");
    ("ethyl methyl carbonate", "EMC"); ("gamma-butyrolactone", "GBL");
    ("gbl", "GBL"); ("sulfolane", "Sulfolane"); ("dmf", "DMF");
    ("dimethylformamide", "DMF"); ("nmp", "NMP"); ("thf", "THF");
    ("tetrahydrofuran", "THF"); ("dme", "DME"); ("dimethoxyethane", "DME");
    ("diglyme", "Diglyme"); ("triglyme", "Triglyme");
    ("tetraglyme", "Tetraglyme"); ("tegdme", "TEGDME"); ("dol", "DOL");
    ("dioxolane", "DOL"); ("water", "H2O"); ("h2o", "H2O");
    ("ionic liquid", "IL"); ("lipf6", "LiPF6"); ("lifsi", "LiFSI");
    ("litfsi", "LiTFSI"); ("libf4", "LiBF4"); ("libob", "LiBOB");
    ("lidfob", "LiDFOB"); ("liclo4", "LiClO4"); ("lino3", "LiNO3");
    ("liasf6", "LiAsF6"); ("napf6", "NaPF6"); ("natfsi", "NaTFSI");
    ("nafsi", "NaFSI"); ("naclo4", "NaClO4"); ("nabf4", "NaBF4");
    ("znso4", "ZnSO4"); ("zinc sulfate", "ZnSO4"); ("zncl2", "ZnCl2");
    ("zinc chloride", "ZnCl2"); ("zn(cf3so3)2", "Zn(CF3SO3)2");
    ("zinc triflate", "Zn(CF3SO3)2"); ("zn(tfsi)2", "Zn(TFSI)2");
    ("zn(otf)2", "Zn(OTf)2"); ("znf2", "ZnF2"); ("mgcl2", "MgCl2");
    ("mg(tfsi)2", "Mg(TFSI)2"); ("mgtfsi2", "Mg(TFSI)2");
    ("mg(cb11h12)2", "Mg(CB11H12)2"); ("vc", "VC");
    ("vinylene carbonate", "VC"); ("fec", "FEC");
    ("fluoroethylene carbonate", "FEC"); ("ps", "PS");
    ("propane sultone", "PS"); ("dtd", "DTD"); ("es", "ES");
    ("ethylene sulfite", "ES"); ("peg", "PEG");
    ("polyethylene glycol", "PEG"); ("pvdf", "PVDF"); ("tte", "TTE");
    ("btfe", "BTFE"); ("llzo", "LLZO"); ("lgps", "LGPS"); ("lipon", "LiPON");
    ("nasicon", "NASICON"); ("lisicon", "LISICON"); ("peo", "PEO");
    ("polyethylene oxide", "PEO") ].

(** Two-letter words the formula pattern matches but that name nothing. *)
Definition stop_words : list string :=
  ["In"; "If"; "Is"; "It"; "An"; "As"; "At"; "Be"; "By"; "Do"; "Go"; "He";
   "Me"; "My"; "No"; "Of"; "On"; "Or"; "So"; "To"; "Up"; "Us"; "We"].

Section Orchestrator.

Variable rt : runtime.
Variable llm_service : option LLMService.

(** The sub-agents are collaborators: what [process] of each returns may
    depend on its input and on the calls made before. *)
Variable agents : agent -> list call -> dict -> res dict.

Definition invoke (a : agent) (input_data : dict) : M dict :=
  fun log =>
    let output := agents a log input_data in
    (output,
     app log [{| callee := a; call_input := input_data; call_output := output |}]).

Definition _extract_user_materials (query : string) : list string :=
  let materials : list string := [] in
  let query_lower := lower query in
  let add (x : string) (materials : list string) :=
    if negb (str_in x materials) then app materials [x] else materials in
  let materials :=
    fold_left (fun materials (entry : string * string) =>
                 let (pattern, canonical) := entry in
                 if contains pattern query_lower then add canonical materials
                 else materials)
              known_materials materials in
  let matches := re_findall rt FormulaPattern query in
  let materials :=
    fold_left (fun materials groups =>
                 let match_ := nth 0 groups "" in
                 if (2 <=? String.length match_)%nat
                    && negb (str_in match_ stop_words)
                 then add match_ materials
                 else materials)
              matches materials in
  let conc_matches := re_findall rt ConcentrationPattern query in
  fold_left (fun materials groups =>
               let material := nth 2 groups "" in
               if negb (str_in material materials)
                  && (2 <=? String.length material)%nat
               then app materials [material]
               else materials)
            conc_matches materials.

(** [_parse_query]; [user_materials_input] is the stored
    [self._user_materials_input].  The fields of [requirements] are
    filled in place; here each is built and then stored under its key. *)
Definition _parse_query (user_materials_input : value) (query : string)
  : res dict :=
  let query_lower := lower query in
  let mentions kws := existsb (fun kw => contains kw query_lower) kws in
  let requirements : dict :=
    [ ("components", VList []); ("operating_conditions", VDict []);
      ("electrode_materials", VDict []); ("application", VStr "general");
      ("battery_type", VStr "") ] in
  let detected_battery :=
    if mentions ["zinc"; "zn-ion"; "zn ion"; "zinc-ion"; "aqueous zinc";
                 "zn metal"; "zn anode"; "zinc metal"; "zinc anode"]
    then "zinc"
    else if mentions ["sodium"; "na-ion"; "na ion"; "sodium-ion"; "na metal"]
    then "sodium-ion"
    else if mentions ["magnesium"; "mg-ion"; "mg ion"; "magnesium-ion";
                      "mg metal"]
    then "magnesium"
    else if mentions ["solid-state"; "solid state"; "all-solid";
                      "solid electrolyte"; "polymer electrolyte"]
    then "solid-state"
    else if mentions ["lithium"; "li-ion"; "li ion"; "lithium-ion"; "lipf6";
                      "lifsi"]
    then "lithium-ion"
    else if mentions ["aqueous"; "water-based"; "water based"]
    then "aqueous"
    else "" in
  let requirements := dset "battery_type" (VStr detected_battery) requirements in
  (* components named in the query *)
  let upper_of names :=
    map upper (filter (fun n => contains n query_lower) names) in
  let named names :=
    filter (fun n => contains (lower n) query_lower) names in
  let components : list string :=
    if String.eqb detected_battery "zinc" then
      app (upper_of ["znso4"; "zn(cf3so3)2"; "zncl2"; "zn triflate";
                     "zinc triflate"; "zinc sulfate"])
          (upper_of ["litfsi"; "mno2"; "mnso4"])
    else if String.eqb detected_battery "sodium-ion" then
      app (upper_of ["napf6"; "natfsi"; "nafsi"; "naclo4"])
          (upper_of ["ec"; "pc"; "dme"; "diglyme"; "tetraglyme"])
    else if String.eqb detected_battery "magnesium" then
      app (upper_of ["mgcl2"; "mg(tfsi)2"; "mgtfsi2"])
          (upper_of ["thf"; "dme"; "diglyme"; "tetraglyme"; "tegdme"])
    else
      app (named ["EC"; "DMC"; "EMC"; "DEC"; "PC"])
          (app (named ["LiPF6"; "LiFSI"; "LiTFSI"; "LiBF4"])
               (named ["VC"; "FEC"; "PS"; "LiBOB"; "DTD"])) in
  (* materials the user names *)
  let user_specified_materials := _extract_user_materials query in
  from_input <-
    (if truthy user_materials_input then
       text <- as_str user_materials_input ;;
       Ok (_extract_user_materials text,
           dset "user_materials_raw_input" (VStr (strip text)) requirements)
     else Ok ([], requirements)) ;;
  let user_input_materials := fst from_input in
  let requirements := snd from_input in
  let all_user_materials :=
    list_of_set rt (app user_specified_materials user_input_materials) in
  let requirements :=
    match all_user_materials with
    | [] => requirements
    | _ => dset "user_specified_materials"
                (VList (map VStr all_user_materials)) requirements
    end in
  let components :=
    fold_left (fun components material =>
                 if negb (str_in (upper material) (map upper components))
                 then app components [material]
                 else components)
              all_user_materials components in
  let components :=
    match components, all_user_materials with
    | [], [] =>
        if str_in detected_battery ["lithium-ion"; ""]
        then ["EC"; "EMC"; "LiPF6"]
        else components
    | _, _ => components
    end in
  (* operating conditions *)
  let operating_conditions : dict :=
    if String.eqb detected_battery "zinc" then
      [("max_voltage", VFloat 1.8); ("max_temperature", VInt 50)]
    else if String.eqb detected_battery "sodium-ion" then
      [("max_voltage", VFloat 4.0); ("max_temperature", VInt 55)]
    else if String.eqb detected_battery "magnesium" then
      [("max_voltage", VFloat 3.0); ("max_temperature", VInt 50)]
    else
      let max_voltage :=
        if mentions ["high voltage"; "high-voltage"] then VFloat 4.5
        else if mentions ["4.5"; "4.6"] then VFloat 4.5
        else if mentions ["4.3"; "4.4"] then VFloat 4.35
        else VFloat 4.2 in
      let conditions : dict := [("max_voltage", max_voltage)] in
      if mentions ["high temp"; "high-temp"; "thermal"]
      then dset "max_temperature" (VInt 60) conditions
      else if mentions ["low temp"; "cold"]
      then dset "min_temperature" (VInt (-30)) conditions
      else dset "max_temperature" (VInt 45) conditions in
  (* electrode materials *)
  let electrodes : dict * list string :=
    if String.eqb detected_battery "zinc" then
      ([ ("anode", VStr "zinc metal");
         ("cathode",
          VStr (if mentions ["mno2"; "manganese"] then "MnO2"
                else if mentions ["v2o5"; "vanadium"] then "V2O5"
                else "MnO2")) ],
       components)
    else if String.eqb detected_battery "sodium-ion" then
      ([ ("anode", VStr "hard carbon"); ("cathode", VStr "Na layered oxide") ],
       components)
    else if String.eqb detected_battery "magnesium" then
      ([ ("anode", VStr "magnesium metal");
         ("cathode", VStr "Mo6S8 (Chevrel)") ],
       components)
    else
      let anode_and_components :=
        if mentions ["silicon"; "si anode"] then
          ("silicon-graphite",
           if negb (str_in "FEC" components) then app components ["FEC"]
           else components)
        else if mentions ["graphite"] then ("graphite", components)
        else ("graphite", components) in
      let cathode :=
        if mentions ["nmc"; "ncm"] then "NMC"
        else if mentions ["lco"; "licoo2"] then "LCO"
        else if mentions ["lfp"; "lifepo4"] then "LFP"
        else "NMC" in
      ([ ("anode", VStr (fst anode_and_components));
         ("cathode", VStr cathode) ],
       snd anode_and_components) in
  let electrode_materials := fst electrodes in
  let components := snd electrodes in
  (* application *)
  let application :=
    if mentions ["ev"; "electric vehicle"] then "electric_vehicle"
    else if mentions ["grid"; "storage"] then "grid_storage"
    else if mentions ["consumer"; "phone"; "laptop"] then "consumer_electronics"
    else if mentions ["fast charg"] then "fast_charging"
    else "general" in
  let requirements := dset "components" (VList (map VStr components)) requirements in
  let requirements :=
    dset "operating_conditions" (VDict operating_conditions) requirements in
  let requirements :=
    dset "electrode_materials" (VDict electrode_materials) requirements in
  let requirements := dset "application" (VStr application) requirements in
  Ok requirements.

Definition classification (query_type : string) (confidence : Q)
    (should_delegate : bool) (reason : string) : value :=
  VDict [ ("query_type", VStr query_type); ("confidence", VFloat confidence);
          ("should_delegate", VBool should_delegate); ("reason", VStr reason) ].

(** The text handed to [json.loads]: the stripped response, without its
    code fence when it starts with one. *)
Definition strip_code_fence (response : string) : string :=
  let response := strip response in
  if startswith response "```" then
    let response := nth 1 (split response "```") "" in
    if startswith response "json" then drop 4 response else response
  else response.

Definition _llm_classify_query (llm : LLMService) (query : string) : res value :=
  prompts <- render_prompt rt ClassifyPrompt [VStr query] ;;
  response <- generate llm (fst prompts) (snd prompts) 0.1 200 ;;
  match json_loads rt (strip_code_fence response) with
  | Ok result => Ok result
  | Raise JSONDecodeError =>
      Ok (classification QUERY_TYPE_ELECTROLYTE_DESIGN 0.6 true
            "Classification parsing failed, defaulting to design workflow")
  | Raise e => Raise e
  end.

Definition _classify_query (query : string) : value :=
  let query_lower := strip (lower query) in
  if str_in query_lower greetings
     || existsb (fun g => startswith query_lower g) greetings
  then classification QUERY_TYPE_GREETING 0.95 false "Simple greeting detected"
  else if existsb (fun p => contains p query_lower) help_patterns
  then classification QUERY_TYPE_HELP 0.9 false "Help request detected"
  else
    let default :=
      classification QUERY_TYPE_ELECTROLYTE_DESIGN 0.7 true
        "Defaulting to electrolyte design workflow" in
    match llm_service with
    | Some llm =>
        match _llm_classify_query llm query with
        | Ok result => result
        | Raise _ => default
        end
    | None => default
    end.

Definition simple_response (query : string) (message response_type : string)
    (summary : string) (processing_time : Q) : dict :=
  [ ("query", VStr query);
    ("agent_responses", VList
       [VDict [ ("agent_type", VStr "orchestrator");
                ("status", VStr "success");
                ("message", VStr message);
                ("data", VDict [("response_type", VStr response_type)]) ]]);
    ("experiment_plans", VList []);
    ("summary", VStr summary);
    ("processing_time", VFloat processing_time);
    ("requirements_parsed", VDict []) ].

(** [_handle_simple_query]; it takes the second and third clock readings
    of the request. *)
Definition _handle_simple_query (query : string) (query_type : value)
  : res (option dict) :=
  let start_time := clock rt 1 in
  if eq_str query_type QUERY_TYPE_GREETING then
    response <-
      match llm_service with
      | Some llm =>
          prompts <- render_prompt rt GreetingPrompt [VStr query] ;;
          generate llm (fst prompts) (snd prompts) 0.7 150
      | None =>
          Ok "Hello! I'm the Electrolyte Design Assistant. I can help you design battery electrolytes, analyze component compatibility, predict performance, and generate detailed experiment plans. What would you like to work on today?"
      end ;;
    Ok (Some (simple_response query "Direct response - greeting" "greeting"
                response (round (clock rt 2 - start_time)%Q 2)))
  else if eq_str query_type QUERY_TYPE_HELP then
    Ok (Some (simple_response query "Direct response - help information" "help"
                help_text (round (clock rt 2 - start_time)%Q 2)))
  else if eq_str query_type QUERY_TYPE_OFF_TOPIC then
    response <-
      match llm_service with
      | Some llm =>
          prompts <- render_prompt rt OffTopicPrompt [VStr query] ;;
          generate llm (fst prompts) (snd prompts) 0.7 150
      | None =>
          Ok "I'm specialized in lithium-ion battery electrolyte design. I can help you design electrolyte formulations, check component compatibility, predict performance, and generate experiment plans. Would you like to explore any of these capabilities?"
      end ;;
    Ok (Some (simple_response query
                "Direct response - redirected off-topic query"
                "off_topic_redirect" response
                (round (clock rt 2 - start_time)%Q 2)))
  else Ok None.

(** The literature step shared by the literature and design routes:
    the agent call, then the optional summary by the backend. *)
Definition literature_step (query : string) : M dict :=
  literature_result <~ invoke Literature [("query", VStr query)] ;;
  ret (match llm_service with
       | Some llm =>
           if truthy (get literature_result "results" VNone) then
             match LLMServiceMethods.summarize_literature rt llm
                     (get literature_result "results" (VList [])) query with
             | Ok summary => dset "llm_summary" (VStr summary) literature_result
             | Raise _ => literature_result
             end
           else literature_result
       | None => literature_result
       end).

Definition literature_response (literature_result : dict) : value :=
  VDict [ ("agent_type", VStr "literature_rag");
          ("status", get literature_result "status" (VStr "success"));
          ("message",
           VStr ("Found " ++ fstr rt (get literature_result "sources_count" (VInt 0))
                 ++ " relevant sources"));
          ("data", VDict literature_result) ].

Definition _handle_literature_query (query : string) (start_time : Q) : M dict :=
  literature_result <~ literature_step query ;;
  let response_summary :=
    get literature_result "llm_summary"
        (get literature_result "summary" (VStr "")) in
  ret [ ("query", VStr query);
        ("agent_responses", VList [literature_response literature_result]);
        ("experiment_plans", VList []);
        ("summary",
         VStr ("## Literature Search Results" ++ nl ++ nl
               ++ fstr rt response_summary));
        ("processing_time", VFloat (round (clock rt 1 - start_time)%Q 2));
        ("requirements_parsed", VDict []) ].

(** The property step shared by the property and design routes. *)
Definition property_step (components : value) (requirements : dict) : M dict :=
  property_result <~
    invoke Property
      [ ("components", components);
        ("operating_conditions",
         get requirements "operating_conditions" (VDict []));
        ("electrode_materials",
         get requirements "electrode_materials" (VDict [])) ] ;;
  ret (match llm_service with
       | Some llm =>
           match LLMServiceMethods.predict_compatibility rt llm components
                   (get requirements "operating_conditions" (VDict [])) with
           | Ok llm_analysis =>
               dset "llm_analysis" (get llm_analysis "analysis" (VStr ""))
                    property_result
           | Raise _ => property_result
           end
       | None => property_result
       end).

Definition property_summary (components : list string) (property_result : dict)
  : res string :=
  let summary_parts :=
    [ "## Property & Compatibility Analysis" ++ nl;
      "**Components analyzed**: " ++ join ", " components ++ nl ] in
  summary_parts <-
    (if truthy (get property_result "compatibility_issues" VNone) then
       issues <- (v <- getitem property_result "compatibility_issues" ;;
                  as_list v) ;;
       foldM (fun parts issue =>
                issue <- as_dict issue ;;
                severity <- as_str (get issue "severity" (VStr "unknown")) ;;
                Ok (app parts
                      [ "- **" ++ upper severity ++ "**: "
                        ++ fstr rt (get issue "issue" (VStr ""));
                        "  - Solution: "
                        ++ fstr rt (get issue "solution" (VStr "N/A")) ]))
             issues (app summary_parts ["### Compatibility Issues:"])
     else Ok summary_parts) ;;
  summary_parts <-
    (if truthy (get property_result "recommendations" VNone) then
       recs <- (v <- getitem property_result "recommendations" ;; as_list v) ;;
       Ok (app (app summary_parts [nl ++ "### Recommendations:"])
               (map (fun rec => "- " ++ fstr rt rec) recs))
     else Ok summary_parts) ;;
  let summary_parts :=
    if truthy (get property_result "llm_analysis" VNone)
    then app summary_parts
           [ nl ++ "### GPT-4.1 Analysis:" ++ nl
             ++ fstr rt (get property_result "llm_analysis" VNone) ]
    else summary_parts in
  Ok (join nl summary_parts).

Definition _handle_property_query (user_materials_input : value)
    (query : string) (start_time : Q) : M dict :=
  requirements <~ lift (_parse_query user_materials_input query) ;;
  let components := get requirements "components" (VList []) in
  property_result <~ property_step components requirements ;;
  component_names <~ lift (as_str_list components) ;;
  summary <~ lift (property_summary component_names property_result) ;;
  ret [ ("query", VStr query);
        ("agent_responses", VList
           [VDict [ ("agent_type", VStr "property_compatibility");
                    ("status", get property_result "status" (VStr "success"));
                    ("message",
                     VStr ("Analyzed "
                           ++ fstr rt (VInt (Z.of_nat (List.length component_names)))
                           ++ " components"));
                    ("data", VDict property_result) ]]);
        ("experiment_plans", VList []);
        ("summary", VStr summary);
        ("processing_time", VFloat (round (clock rt 1 - start_time)%Q 2));
        ("requirements_parsed", VDict requirements) ].

Definition _analyze_query_with_llm (user_materials_input : value)
    (query : string) : res dict :=
  requirements <- _parse_query user_materials_input query ;;
  Ok (match llm_service with
      | Some llm =>
          match LLMServiceMethods.analyze_electrolyte_query rt llm query with
          | Ok llm_analysis =>
              if eq_str (get llm_analysis "status" VNone) "success"
              then dset "llm_analysis" (get llm_analysis "analysis" (VStr ""))
                        requirements
              else requirements
          | Raise _ => requirements
          end
      | None => requirements
      end).

Definition _convert_formulation_to_dict (formulation_list : value) : res dict :=
  components <- as_list formulation_list ;;
  foldM (fun formulation_dict component =>
           component <- as_dict component ;;
           let abbrev := get component "abbreviation" (VStr "") in
           let concentration := get component "concentration" (VInt 0) in
           if truthy abbrev then
             abbrev <- as_str abbrev ;;
             Ok (dset abbrev concentration formulation_dict)
           else Ok formulation_dict)
        components [].

(** [f"plan_{i+1}"] and [f"Plan {i+1}"] for the loop index [i]. *)
Definition numbered (prefix : string) (i : nat) : value :=
  VStr (prefix ++ fstr rt (VInt (Z.of_nat (i + 1)))).

(** Step 4, [for i, plan in enumerate(experiment_plans)]: the plans with
    their predictions attached, and [all_predictions]. *)
Fixpoint predict_plans (query : string) (requirements : dict) (i : nat)
    (experiment_plans : list value) : M (list dict * list value) :=
  match experiment_plans with
  | [] => ret ([], [])
  | plan :: rest =>
      plan <~ lift (as_dict plan) ;;
      formulation_dict <~
        lift (_convert_formulation_to_dict (get plan "formulation" (VList []))) ;;
      prediction_result <~
        invoke Prediction
          [ ("formulation", VDict formulation_dict);
            ("operating_conditions",
             get requirements "operating_conditions" (VDict []));
            ("electrode_materials",
             get requirements "electrode_materials" (VDict []));
            ("battery_type", get requirements "battery_type" (VStr ""));
            ("query_context", VStr query) ] ;;
      let plan :=
        dset "predicted_performance"
             (get prediction_result "predictions" (VDict [])) plan in
      let plan :=
        dset "prediction_confidence"
             (get prediction_result "confidence_score" (VFloat 0.0)) plan in
      let plan :=
        dset "prediction_notes"
             (get prediction_result "model_notes" (VList [])) plan in
      let prediction :=
        VDict [ ("plan_id", get plan "plan_id" (numbered "plan_" i));
                ("plan_title", get plan "title" (numbered "Plan " i));
                ("predictions", get prediction_result "predictions" (VDict []));
                ("confidence_score",
                 get prediction_result "confidence_score" (VFloat 0.0)) ] in
      r <~ predict_plans query requirements (S i) rest ;;
      ret (plan :: fst r, prediction :: snd r)
  end.

(** [sum(p.get("confidence_score", 0) for p in all_predictions)
     / len(all_predictions) if all_predictions else 0] *)
Definition average_confidence (all_predictions : list value) : res value :=
  match all_predictions with
  | [] => Ok (VInt 0)
  | _ =>
      scores <-
        mapM (fun p => p <- as_dict p ;;
                       as_num (get p "confidence_score" (VInt 0)))
             all_predictions ;;
      Ok (VFloat (float_truediv rt (float_sum rt scores)
                    (inject_Z (Z.of_nat (List.length all_predictions)))))
  end.

(** [round(v, 2)]: an integer is returned as it is. *)
Definition round2 (v : value) : value :=
  match v with
  | VFloat q => VFloat (float_round rt q 2)
  | _ => v
  end.

Definition add_rationales (requirements : dict) (experiment_plans : list dict)
  : list dict :=
  match llm_service with
  | Some llm =>
      map (fun plan =>
             match LLMServiceMethods.generate_formulation_rationale rt llm
                     (get plan "formulation" (VList [])) requirements with
             | Ok rationale => dset "llm_rationale" (VStr rationale) plan
             | Raise _ => plan
             end)
          experiment_plans
  | None => experiment_plans
  end.

(** One entry of the recommended experiments, numbered [i] from 1. *)
Definition plan_summary (i : nat) (plan : dict) : res (list string) :=
  let predictions := get plan "predicted_performance" (VDict []) in
  let confidence := get plan "prediction_confidence" (VInt 0) in
  title <- getitem plan "title" ;;
  priority <- (v <- getitem plan "priority_score" ;; format rt v ".2f") ;;
  confidence <- format rt confidence ".0%" ;;
  cost <- getitem plan "estimated_cost" ;;
  time <- getitem plan "estimated_time" ;;
  let parts :=
    [ nl ++ fstr rt (VInt (Z.of_nat i)) ++ ". **" ++ fstr rt title
      ++ "** (Priority: " ++ priority ++ ", Prediction Confidence: "
      ++ confidence ++ ")" ++ nl
      ++ "   - Cost: " ++ fstr rt cost ++ ", Time: " ++ fstr rt time ] in
  if truthy predictions then
    let parts := app parts ["   - **Predicted Performance:**"] in
    let metric key label suffix (parts : list string) : res (list string) :=
      has <- str_in_value key predictions ;;
      if has then
        v <- subscript predictions key ;;
        Ok (app parts [label ++ fstr rt v ++ suffix])
      else Ok parts in
    parts <- metric "capacity_retention_percent"
               "     - Capacity Retention: " "%" parts ;;
    parts <- metric "cycle_stability_cycles"
               "     - Cycle Life: " " cycles" parts ;;
    parts <- metric "rate_capability_2C_percent"
               "     - Rate Capability (2C): " "%" parts ;;
    metric "ionic_conductivity_mS_cm"
           "     - Ionic Conductivity: " " mS/cm" parts
  else Ok parts.

Fixpoint plan_summaries (i : nat) (plans : list dict) : res (list string) :=
  match plans with
  | [] => Ok []
  | plan :: rest =>
      parts <- plan_summary i plan ;;
      more <- plan_summaries (S i) rest ;;
      Ok (app parts more)
  end.

Definition _generate_summary_with_llm (query : string)
    (agent_responses : list value) (experiment_plans : list dict)
    (requirements : dict) : res string :=
  operating_conditions <-
    (v <- getitem requirements "operating_conditions" ;; as_dict v) ;;
  electrode_materials <-
    (v <- getitem requirements "electrode_materials" ;; as_dict v) ;;
  application <- as_str (get requirements "application" (VStr "general")) ;;
  components <- (v <- getitem requirements "components" ;; as_str_list v) ;;
  let summary_parts :=
    [ "## Analysis Summary for Query: " ++ dq ++ query ++ dq ++ nl;
      "### Interpreted Requirements:";
      "- **Target voltage**: "
      ++ fstr rt (get operating_conditions "max_voltage" (VFloat 4.2)) ++ "V";
      "- **Electrode system**: "
      ++ fstr rt (get electrode_materials "cathode" (VStr "NMC")) ++ " / "
      ++ fstr rt (get electrode_materials "anode" (VStr "graphite"));
      "- **Application**: " ++ title (replace_char "_" " " application);
      "- **Key components identified**: " ++ join ", " components;
      nl ++ "### Agent Analysis:" ] in
  summary_parts <-
    foldM (fun parts response =>
             agent_type <- (v <- subscript response "agent_type" ;; as_str v) ;;
             let agent_name := title (replace_char "_" " " agent_type) in
             message <- subscript response "message" ;;
             Ok (app parts ["- **" ++ agent_name ++ "**: " ++ fstr rt message]))
          agent_responses summary_parts ;;
  let summary_parts :=
    app summary_parts
      [nl ++ "### Recommended Experiments with Predicted Performance:"] in
  plans <- plan_summaries 1 (firstn 3 experiment_plans) ;;
  let summary_parts := app summary_parts plans in
  let summary_parts :=
    app summary_parts
      [ nl ++ "---" ++ nl
        ++ "*Analysis powered by GPT-4.1 and multi-agent coordination*" ] in
  Ok (join nl summary_parts).

Definition agent_response (agent_type : string) (status : value)
    (message : string) (data : dict) : value :=
  VDict [ ("agent_type", VStr agent_type); ("status", status);
          ("message", VStr message); ("data", VDict data) ].

(** [_handle_design_query].  The plans are updated in place by steps 4
    and 5 while the planner's result, already stored in the third agent
    response, holds the same objects: that response shows the updated
    plans. *)
Definition _handle_design_query (user_materials_input : value)
    (query : string) (start_time : Q) : M dict :=
  requirements <~ lift (_analyze_query_with_llm user_materials_input query) ;;
  (* Step 1 *)
  literature_result <~ literature_step query ;;
  (* Step 2 *)
  let components :=
    get requirements "components"
        (VList [VStr "EC"; VStr "EMC"; VStr "LiPF6"; VStr "VC"]) in
  property_result <~ property_step components requirements ;;
  n_components <~ lift (l <- as_list components ;; Ok (List.length l)) ;;
  n_issues <~
    lift (l <- as_list (get property_result "compatibility_issues" (VList [])) ;;
          Ok (List.length l)) ;;
  (* Step 3 *)
  planning_result <~
    invoke Planning
      [ ("query", VStr query);
        ("literature_data", VDict literature_result);
        ("property_data", VDict property_result);
        ("target_application", get requirements "application" (VStr "general"));
        ("battery_type", get requirements "battery_type" (VStr ""));
        ("operating_conditions",
         get requirements "operating_conditions" (VDict []));
        ("electrode_materials",
         get requirements "electrode_materials" (VDict []));
        ("user_specified_materials",
         get requirements "user_specified_materials" (VList []));
        ("detected_components", get requirements "components" (VList [])) ] ;;
  experiment_plans <~
    lift (as_list (get planning_result "experiment_plans" (VList []))) ;;
  (* Step 4 *)
  predicted <~ predict_plans query requirements 0 experiment_plans ;;
  let experiment_plans := fst predicted in
  let all_predictions := snd predicted in
  avg_confidence <~ lift (average_confidence all_predictions) ;;
  avg_text <~ lift (format rt avg_confidence ".0%") ;;
  let n_plans := fstr rt (VInt (Z.of_nat (List.length experiment_plans))) in
  (* Step 5 *)
  let experiment_plans := add_rationales requirements experiment_plans in
  let processing_time := (clock rt 1 - start_time)%Q in
  let planning_result :=
    if has_key "experiment_plans" planning_result
    then dset "experiment_plans" (VList (map VDict experiment_plans))
              planning_result
    else planning_result in
  let agent_responses :=
    [ literature_response literature_result;
      agent_response "property_compatibility"
        (get property_result "status" (VStr "success"))
        ("Analyzed " ++ fstr rt (VInt (Z.of_nat n_components))
         ++ " components, found " ++ fstr rt (VInt (Z.of_nat n_issues))
         ++ " issues")
        property_result;
      agent_response "experiment_planning"
        (get planning_result "status" (VStr "success"))
        ("Generated " ++ fstr rt (get planning_result "total_plans" (VInt 0))
         ++ " experiment plans with formulations")
        planning_result;
      agent_response "performance_prediction" (VStr "success")
        ("Evaluated " ++ n_plans ++ " formulations with " ++ avg_text
         ++ " average confidence")
        [ ("predictions_per_plan", VList all_predictions);
          ("average_confidence", round2 avg_confidence);
          ("total_plans_evaluated",
           VInt (Z.of_nat (List.length experiment_plans))) ] ] in
  summary <~
    lift (_generate_summary_with_llm query agent_responses experiment_plans
                                     requirements) ;;
  ret [ ("query", VStr query);
        ("agent_responses", VList agent_responses);
        ("experiment_plans", VList (map VDict experiment_plans));
        ("summary", VStr summary);
        ("processing_time", VFloat (round processing_time 2));
        ("requirements_parsed", VDict requirements) ].

(** [process]: classification, then one of the routes. *)
Definition process (input_data : dict) : M dict :=
  let start_time := clock rt 0 in
  query <~ lift (as_str (get input_data "query" (VStr ""))) ;;
  let user_materials_input := get input_data "user_materials_input" (VStr "") in
  let classification := _classify_query query in
  query_type <~ lift (subscript classification "query_type") ;;
  confidence <~ lift (subscript classification "confidence") ;;
  _ <~ lift (format rt confidence ".2f") ;;
  classification <~ lift (as_dict classification) ;;
  simple_response <~
    (if negb (truthy (get classification "should_delegate" (VBool true)))
     then lift (_handle_simple_query query query_type)
     else ret None) ;;
  match simple_response with
  | Some response => ret response
  | None =>
      if eq_str query_type QUERY_TYPE_LITERATURE_ONLY
      then _handle_literature_query query start_time
      else if eq_str query_type QUERY_TYPE_PROPERTY_CHECK
      then _handle_property_query user_materials_input query start_time
      else _handle_design_query user_materials_input query start_time
  end.

End Orchestrator.

End OrchestratorAgent.
(* ================================================================== *)
(** ** Vocabulary of the properties *)
(* ================================================================== *)

Module PropertyCompatibilitySpec.
Import PropertyCompatibilityAgent.

(** An issue whose severity is 'critical'. *)
Definition is_critical (issue : value) : Prop :=
  exists d, issue = VDict d /\ dget "severity" d = Some (VStr "critical").

(** The issue of the rule with the given identifier is among [issues]. *)
Definition reports (rule : string) (issues : list value) : Prop :=
  exists d, In (VDict d) issues /\ dget "rule_id" d = Some (VStr rule).

(** Input of the shape the annotations of [process] describe: a list of
    component names, numeric operating limits, a textual anode. *)
Definition well_typed (input_data : dict) : Prop :=
  exists components operating_conditions electrode_materials voltage temperature anode,
    as_str_list (get input_data "components" (VList [])) = Ok components /\
    as_dict (get input_data "operating_conditions" (VDict []))
      = Ok operating_conditions /\
    as_dict (get input_data "electrode_materials" (VDict []))
      = Ok electrode_materials /\
    as_num (get operating_conditions "max_voltage" (VFloat 4.2)) = Ok voltage /\
    as_num (get operating_conditions "max_temperature" (VInt 45))
      = Ok temperature /\
    as_str (get electrode_materials "anode" (VStr "graphite")) = Ok anode.

(** The issue a rule adds when it fires. *)
Definition issue_of (r : rule) : value :=
  VDict [ ("rule_id", VStr (rule_id r)); ("issue", VStr (issue r));
          ("severity", VStr (severity r)); ("solution", VStr (solution r)) ].

(** The issues a rule can add: only two of the six rules ever add one. *)
Definition fired (i : value) : Prop :=
  exists r, In r compatibility_rules /\ i = issue_of r /\
            (rule_id r = "PC_graphite" \/ rule_id r = "high_voltage_cathode").

Definition numericb (v : value) : bool :=
  match as_num v with Ok _ => true | Raise _ => false end.

(** An entry all of whose fields read by the aggregate are numbers. *)
Definition aggregable (v : value) : bool :=
  match v with
  | VDict d =>
      numericb (get d "viscosity" (VFloat 1.0))
      && numericb (get d "dielectric_constant" (VInt 10))
      && numericb (get d "oxidation_potential" (VFloat 6.0))
      && numericb (get d "reduction_potential" (VFloat 0.5))
  | _ => false
  end.

(** A request with propylene carbonate on a graphite anode at 4.6 V. *)
Definition sample_input : dict :=
  [ ("components", VList [VStr "PC"; VStr "EC"]);
    ("operating_conditions", VDict [("max_voltage", VFloat 4.6)]) ].

End PropertyCompatibilitySpec.
Module Samples.

(** Decimal digits of a natural number. *)
Definition digits (n : N) : string :=
  NilEmpty.string_of_uint (N.to_uint n).

(** [x] with [d] decimals, rounded half to even. *)
Definition fixed (d : nat) (x : Q) : string :=
  let scale := (10 ^ Z.of_nat d)%Z in
  let n := round_half_even (x * inject_Z scale)%Q in
  let a := Z.abs n in
  let frac := digits (Z.to_N (a mod scale)) in
  let pad := Nat.sub d (String.length frac) in
  (if (n <? 0)%Z then "-" else "")
  ++ (if (a / scale =? 0)%Z then "0" else digits (Z.to_N (a / scale)))
  ++ (match d with
      | O => ""
      | _ => "." ++ String.concat "" (repeat "0" pad) ++ frac
      end).

(** A runtime for the examples: numbers are printed with two decimals,
    no text parses as JSON, no pattern matches, a set lists its strings
    in the order of the list, every draw of
    [random.uniform(a, b)] is three quarters of the way from [a] to [b],
    the clock advances a quarter of a second per reading, and the
    arithmetic on floats is exact. *)
Definition sample_runtime : runtime := {|
  repr := fun v =>
    match v with
    | VNone => "None"
    | VBool true => "True"
    | VBool false => "False"
    | VInt z => (if (z <? 0)%Z then "-" else "") ++ digits (Z.to_N (Z.abs z))
    | VFloat q => fixed 2 q
    | _ => "..."
    end;
  format_num := fun x spec =>
    if String.eqb spec ".0%" then fixed 0 (x * 100)%Q ++ "%" else fixed 2 x;
  json_loads := fun _ => Raise JSONDecodeError;
  re_search := fun _ _ => None;
  re_findall := fun _ _ => [];
  list_of_set := nodup string_dec;
  uuid4 := fun n => "0000000" ++ digits (N.of_nat n) ++ "-0000-4000-8000-000000000000";
  random_uniform := fun a b => Qred (a + (b - a) * (3 # 4))%Q;
  clock := fun n => (inject_Z (Z.of_nat n) * (1 # 4))%Q;
  float_sum := sum;
  float_truediv := Qdiv;
  float_round := round;
  exn_message := fun _ => "error";
  render_prompt := fun _ _ => Ok ("prompt", "system prompt")
|}.

End Samples.

Module PerformancePredictionSpec.

(** [x] lies within [delta] of [base]. *)
Definition within (x base delta : Q) : Prop :=
  (base - delta <= x /\ x <= base + delta)%Q.

(** A row of the baseline table: capacity retention (%), cycles, rate
    capability (%), ionic conductivity (mS/cm) and the temperature
    range (°C). *)
Record baseline_row : Type := {
  base_capacity : Z;
  base_cycles : Z;
  base_rate : Z;
  base_conductivity : Z;
  base_temp_low : Z;
  base_temp_high : Z
}.

Definition row (capacity cycles rate conductivity low high : Z)
  : baseline_row :=
  {| base_capacity := capacity; base_cycles := cycles; base_rate := rate;
     base_conductivity := conductivity;
     base_temp_low := low; base_temp_high := high |}.

(** The baseline table, by chemistry. *)
Definition baseline_table : list (string * baseline_row) :=
  [ ("lithium-ion", row 85 500 70 10 (-20) 60);
    ("zinc", row 80 300 65 50 0 50);
    ("sodium-ion", row 80 400 65 8 (-20) 55);
    ("magnesium", row 75 200 50 5 0 50);
    ("aqueous", row 80 500 80 100 0 40);
    ("unknown", row 75 300 60 5 (-10) 50) ].

Fixpoint table_row (chemistry : string)
    (table : list (string * baseline_row)) : option baseline_row :=
  match table with
  | [] => None
  | (name, r) :: rest =>
      if String.eqb chemistry name then Some r else table_row chemistry rest
  end.

(** The row of a chemistry: the row of 'unknown' when the table has
    none for it. *)
Definition baseline_of (chemistry : string) : baseline_row :=
  match table_row chemistry baseline_table with
  | Some r => r
  | None => row 75 300 60 5 (-10) 50
  end.

(** The optimized zinc template as the coordinator hands it to the
    predictor (abbreviation to concentration). *)
Definition zinc_optimized : dict :=
  [ ("Zn(CF3SO3)2", VFloat 3.0); ("H2O", VInt 100); ("LiTFSI", VFloat 0.5) ].

End PerformancePredictionSpec.

Module Ranking.

(** A list of scores in which no score is followed by a greater one. *)
Fixpoint non_increasing (scores : list Q) : bool :=
  match scores with
  | [] => true
  | x :: rest =>
      match rest with
      | [] => true
      | y :: _ => Qle_bool y x && non_increasing rest
      end
  end.

(** The number stored under [key] in an entry. *)
Definition score (key : string) (entry : value) : option Q :=
  match entry with
  | VDict d =>
      match dget key d with
      | Some (VInt z) => Some (inject_Z z)
      | Some (VFloat q) => Some q
      | _ => None
      end
  | _ => None
  end.

Fixpoint all_some {A : Type} (l : list (option A)) : option (list A) :=
  match l with
  | [] => Some []
  | Some x :: rest =>
      match all_some rest with
      | Some xs => Some (x :: xs)
      | None => None
      end
  | None :: _ => None
  end.

(** The entries carry a score under [key] each, in non-increasing order. *)
Definition ranked_by (key : string) (entries : list value) : bool :=
  match all_some (map (score key) entries) with
  | Some scores => non_increasing scores
  | None => false
  end.

End Ranking.

Module ExperimentPlanningSpec.
Import ExperimentPlanningAgent.

(** A formulation component with its five fields. *)
Definition is_component (v : value) : bool :=
  match v with
  | VDict d =>
      has_key "name" d && has_key "abbreviation" d
      && has_key "concentration" d && has_key "unit" d && has_key "role" d
  | _ => false
  end.

(** A plan whose formulation is a list of components and which has a
    non-empty list of protocols attached. *)
Definition well_formed_plan (plan : value) : bool :=
  match plan with
  | VDict d =>
      match dget "formulation" d, dget "protocols" d with
      | Some (VList formulation), Some (VList (_ :: _)) =>
          forallb is_component formulation
      | _, _ => false
      end
  | _ => false
  end.

(** The template of [plan_type] in the table entry of [battery_type],
    the lithium-ion entry when the table has none for it. *)
Definition template_entry (battery_type plan_type : string) : option dict :=
  match get templates battery_type (get templates "lithium-ion" VNone) with
  | VDict chem_templates =>
      match dget plan_type chem_templates with
      | Some (VDict t) => Some t
      | _ => None
      end
  | _ => None
  end.

(** [plan] carries the title, formulation, rationale and priority score
    of that template. *)
Definition drawn_from (battery_type plan_type : string) (plan : value) : Prop :=
  exists d t,
    plan = VDict d /\ template_entry battery_type plan_type = Some t /\
    dget "title" d = dget "title" t /\
    dget "formulation" d = dget "formulation" t /\
    dget "rationale" d = dget "rationale" t /\
    dget "priority_score" d = dget "priority_score" t.

(** The chemistry the planner works with. *)
Definition chemistry_of (battery_type query : string) : string :=
  if String.eqb battery_type "" then _detect_battery_type query
  else battery_type.

(** The priority scores of the advanced, optimized and baseline
    templates of a chemistry. *)
Definition template_scores (battery_type : string) : list (option Q) :=
  if String.eqb battery_type "magnesium"
  then [Some 0.82; Some 0.88; Some 0.85]%Q
  else [Some 0.88; Some 0.90; Some 0.85]%Q.






(** A backend that replies with the same text to every call. *)
Definition fixed_reply_llm (reply : string) : LLMService := {|
  generate := fun _ _ _ _ => Ok reply
|}.

(** Two plans as a backend may reply them, the second with the greater
    priority score. *)
Definition first_reply_plan : dict :=
  [ ("title", VStr "Dilute triflate"); ("priority_score", VFloat 0.6) ].
Definition second_reply_plan : dict :=
  [ ("title", VStr "Concentrated triflate"); ("priority_score", VFloat 0.9) ].

(** A runtime that reads every text as the JSON object with these two
    plans. *)
Definition two_plans_runtime : runtime := {|
  repr := repr Samples.sample_runtime;
  format_num := format_num Samples.sample_runtime;
  json_loads := fun _ =>
    Ok (VDict [("plans", VList [VDict first_reply_plan;
                                VDict second_reply_plan])]);
  re_search := re_search Samples.sample_runtime;
  re_findall := re_findall Samples.sample_runtime;
  list_of_set := list_of_set Samples.sample_runtime;
  uuid4 := uuid4 Samples.sample_runtime;
  random_uniform := random_uniform Samples.sample_runtime;
  clock := clock Samples.sample_runtime;
  float_sum := float_sum Samples.sample_runtime;
  float_truediv := float_truediv Samples.sample_runtime;
  float_round := float_round Samples.sample_runtime;
  exn_message := exn_message Samples.sample_runtime;
  render_prompt := render_prompt Samples.sample_runtime
|}.

(** [recommendation] names the plan [top] of a [battery_type] battery. *)
Definition names_plan (rt : runtime) (battery_type : string)
    (recommendation : string) (top : value) : Prop :=
  exists d title tail,
    top = VDict d /\ dget "title" d = Some title /\
    recommendation
    = "Recommended for " ++ upper battery_type ++ " battery: '"
      ++ fstr rt title ++ "'" ++ tail.

Definition zinc_query : dict := [("query", VStr "zinc battery")].

End ExperimentPlanningSpec.

Module LiteratureRAGSpec.
Import LiteratureRAGAgent.

(** A knowledge-table result with relevance [q]. *)
Definition hit (q : Q) (v : value) : Prop :=
  exists t c,
    v = VDict [ ("title", VStr t); ("content", VStr c);
                ("relevance_score", VFloat q);
                ("source", VStr "knowledge_base") ].

(** The result [v] presents the document [doc] of the external search:
    its source as the title, its text as the content. *)
Definition presents (doc : document) (v : value) : Prop :=
  exists d,
    v = VDict d /\
    dget "title" d
    = Some (get (metadata doc) "source" (VStr "Uploaded Document")) /\
    dget "content" d = Some (VStr (page_content doc)) /\
    dget "source" d = Some (VStr "uploaded_document").

(** A result whose relevance is a number between 0 and 1. *)
Definition relevance_in_unit_interval (v : value) : Prop :=
  exists q,
    Ranking.score "relevance_score" v = Some q /\ (0 <= q)%Q /\ (q <= 1)%Q.

(** The results [external] are what the external search answered to the
    query: one result for each document of the search with scores, in
    the order of its answer, with a relevance between 0 and 1; when that
    search raises, one result for each document of the search without
    scores, in the order of its answer, with relevance 0.85; and none
    when both raise or when no search is configured. *)
Definition from_store (vector_store : option VectorStore) (query : string)
    (external : list value) : Prop :=
  match vector_store with
  | None => external = []
  | Some store =>
      match similarity_search_with_score store query 5 with
      | Ok docs_with_scores =>
          Forall2 (fun ds v => presents (fst ds) v /\
                               relevance_in_unit_interval v)
                  docs_with_scores external
      | Raise _ =>
          match similarity_search store query 5 with
          | Ok docs =>
              Forall2 (fun doc v =>
                         presents doc v /\
                         Ranking.score "relevance_score" v = Some 0.85%Q)
                      docs external
          | Raise _ => external = []
          end
      end
  end.

(** A result the summary can print. *)
Definition printable (v : value) : Prop :=
  exists d t c,
    v = VDict d /\ dget "title" d = Some t /\ dget "content" d = Some (VStr c).

(** An external search that returns one document at distance 1. *)
Definition sample_store : VectorStore := {|
  similarity_search_with_score := fun _ _ =>
    Ok [ ({| page_content := "Carbonate electrolytes for lithium cells.";
             metadata := [("source", VStr "review.pdf"); ("page", VInt 3)] |},
          1%Q) ];
  similarity_search := fun _ _ => Ok []
|}.

Definition ec_query : dict := [("query", VStr "EC")].

End LiteratureRAGSpec.

Module OrchestratorSpec.
Import OrchestratorAgent.

(** The keys of a coordinator response. *)
Definition response_keys : list string :=
  ["query"; "agent_responses"; "experiment_plans"; "summary";
   "processing_time"; "requirements_parsed"].

(** The handler a request is answered by. *)
Inductive route : Type := Direct | LiteratureOnly | PropertyCheck | FullDesign.

Section Routes.

Variable rt : runtime.
Variable llm_service : option LLMService.
Variable agents : agent -> list call -> dict -> res dict.

(** [response] and the final log [log'] come from the handler of the
    route, run on the request's query from the log [log]. *)
Definition answered_by (r : route) (input_data : dict) (log : list call)
    (response : dict) (log' : list call) : Prop :=
  exists query,
    as_str (get input_data "query" (VStr "")) = Ok query /\
    let user_materials_input :=
      get input_data "user_materials_input" (VStr "") in
    match r with
    | Direct =>
        (exists query_type,
            _handle_simple_query rt llm_service query query_type
            = Ok (Some response)) /\ log' = log
    | LiteratureOnly =>
        _handle_literature_query rt llm_service agents query (clock rt 0) log
        = (Ok response, log')
    | PropertyCheck =>
        _handle_property_query rt llm_service agents
          user_materials_input query (clock rt 0) log
        = (Ok response, log')
    | FullDesign =>
        _handle_design_query rt llm_service agents
          user_materials_input query (clock rt 0) log
        = (Ok response, log')
    end.

End Routes.

(** The ways the model-based classification can fail: there is no
    backend, its call raises, or its response, of ASCII characters, does
    not parse once stripped of white space and of its code fence. *)
Definition backend_fails (rt : runtime) (llm_service : option LLMService)
    (query : string) : Prop :=
  llm_service = None \/
  exists llm prompts,
    llm_service = Some llm /\
    render_prompt rt ClassifyPrompt [VStr query] = Ok prompts /\
    ((exists e, generate llm (fst prompts) (snd prompts) 0.1 200 = Raise e) \/
     (exists response e,
         generate llm (fst prompts) (snd prompts) 0.1 200 = Ok response /\
         isascii response = true /\
         json_loads rt (strip_code_fence response) = Raise e)).

(** A response with the six keys and no experiment plan. *)
Definition plain_response (response : dict) : Prop :=
  keys response = response_keys /\
  dget "experiment_plans" response = Some (VList []).









(** *** A worked request

    A zinc query without a model backend: the literature, property and
    planning agents are the fallback agents above; the predictor answers
    as a backend would, with confidence 0.7 for the first two plans and
    0.8 for the third. *)

Definition demo_prediction (n : nat) : dict :=
  [ ("status", VStr "success");
    ("predictions", VDict [("capacity_retention_percent", VInt 82)]);
    ("confidence_score", VFloat (if (n <? 2)%nat then 0.7 else 0.8));
    ("model_notes", VStr "");
    ("battery_chemistry", VStr "zinc");
    ("key_factors", VList []);
    ("prediction_method", VStr "llm_based") ].

Definition demo_agents (a : agent) (log : list call) (input_data : dict)
  : res dict :=
  match a with
  | Literature => LiteratureRAGAgent.process Samples.sample_runtime None input_data
  | Property => PropertyCompatibilityAgent.process input_data
  | Planning =>
      ExperimentPlanningAgent.process Samples.sample_runtime None input_data
  | Prediction =>
      Ok (demo_prediction
            (List.length
               (filter (fun c => match callee c with
                                 | Prediction => true
                                 | _ => false
                                 end) log)))
  end.

(** The requirements [_parse_query] extracts from the query
    'zinc battery'; 'battery' contains 'tte', a key of the table of
    known materials. *)
Definition zinc_requirements : dict :=
  [ ("components", VList [VStr "TTE"]);
    ("operating_conditions",
     VDict [("max_voltage", VFloat 1.8); ("max_temperature", VInt 50)]);
    ("electrode_materials",
     VDict [("anode", VStr "zinc metal"); ("cathode", VStr "MnO2")]);
    ("application", VStr "general");
    ("battery_type", VStr "zinc");
    ("user_specified_materials", VList [VStr "TTE"]) ].


(** A query that names LiTFSI, for a lithium cell at 4.2 V. *)
Definition litfsi_query : string := "litfsi salt for a lithium cell at 4.2 v".

Definition greeting_request : dict := [("query", VStr "hello there")].

(** A backend whose answer to every prompt is prose, not JSON. *)
Definition sample_llm : LLMService := {|
  generate := fun _ _ _ _ => Ok "This looks like a design request."
|}.

End OrchestratorSpec.
(* ================================================================== *)
(** ** Property responder: the lookup methods
       ([agents/property_compatibility_agent.py]) *)
(* ================================================================== *)

Module PropertyCompatibilityLookup.
Import PropertyCompatibilityAgent.



(** The keys of the property table that are spelled in upper case. *)
Definition upper_case_keys : list string :=
  ["EC"; "DMC"; "EMC"; "DEC"; "PC"; "VC"; "FEC"; "PS"].

(** The record [_get_component_properties] stores under a name. *)
Definition stored (k : string) : value :=
  if has_key k property_database then get property_database k VNone
  else unknown_component.

(** An issue whose solution is listed with priority. *)
Definition urgent (issue : value) : res bool :=
  severity_in issue ["critical"; "high"].

(** The formulation names one of the additives the table is searched
    for. *)
Definition names_additive (components : list string) : bool :=
  existsb (fun c => str_in (upper c) ["VC"; "FEC"; "PS"]) components.

Definition all_clear : string :=
  "Formulation appears compatible for intended use".

End PropertyCompatibilityLookup.

(* ================================================================== *)
(** ** Planner with a backend: vocabulary *)
(* ================================================================== *)

Module PlannerBackendSpec.
Import ExperimentPlanningAgent.

(** The protocols [_select_protocols] attaches to a plan. *)
Definition all_protocols : list value := values base_protocols.

(** A plan object that carries the chemistry the planner worked with
    and an identifier of at most eight characters. *)
Definition identified (battery_type : string) (d : dict) : Prop :=
  dget "battery_type" d = Some (VStr battery_type) /\
  exists id, dget "plan_id" d = Some (VStr id) /\ (String.length id <= 8)%nat.

(** A plan as [process] returns it: identified, with the protocols. *)
Definition stamped (battery_type : string) (plan : value) : Prop :=
  exists d,
    plan = VDict d /\ identified battery_type d /\
    dget "protocols" d = Some (VList all_protocols).

(** The arguments of the plans prompt for a request. *)
Definition plans_prompt_arguments (input_data : dict)
    (query battery_type : string) : list value :=
  [ VStr query; VStr battery_type;
    get input_data "literature_data" (VDict []);
    get input_data "property_data" (VDict []);
    get input_data "target_application" (VStr "general");
    get input_data "operating_conditions" (VDict []);
    get input_data "electrode_materials" (VDict []);
    get input_data "user_specified_materials" (VList []);
    get input_data "detected_components" (VList []) ].

Definition is_object (v : value) : bool :=
  match v with VDict _ => true | _ => false end.



(** A backend that always replies with the same text. *)
Definition constant_llm (reply : string) : LLMService := {|
  generate := fun _ _ _ _ => Ok reply
|}.


(** A runtime that reads the text 'one plan' as a JSON object with one
    plan, which has a rationale and no title. *)
Definition one_plan_runtime : runtime := {|
  repr := repr Samples.sample_runtime;
  format_num := format_num Samples.sample_runtime;
  json_loads := fun s =>
    if String.eqb s "one plan"
    then Ok (VDict [("plans", VList [VDict [("rationale", VStr "none")]])])
    else Raise JSONDecodeError;
  re_search := re_search Samples.sample_runtime;
  re_findall := re_findall Samples.sample_runtime;
  list_of_set := list_of_set Samples.sample_runtime;
  uuid4 := uuid4 Samples.sample_runtime;
  random_uniform := random_uniform Samples.sample_runtime;
  clock := clock Samples.sample_runtime;
  float_sum := float_sum Samples.sample_runtime;
  float_truediv := float_truediv Samples.sample_runtime;
  float_round := float_round Samples.sample_runtime;
  exn_message := exn_message Samples.sample_runtime;
  render_prompt := render_prompt Samples.sample_runtime
|}.

End PlannerBackendSpec.

(* ================================================================== *)
(** ** Sorting ([list.sort(key=..., reverse=True)]) *)
(* ================================================================== *)

Module PySort.





End PySort.

(* ================================================================== *)
(** ** Performance predictor: comparison of formulations
       ([agents/performance_prediction_agent.py]) *)
(* ================================================================== *)

Module PerformanceComparison.
Import PerformancePredictionAgent PySort.

Section Comparison.

(** The successive draws of [random.uniform(-5, 5)] in one call. *)
Variable draw : nat -> Q.



End Comparison.

(** The indicators that decide the chemistry: every other indicator of
    a list contains one of these. *)
Definition mentions (indicator : string) (formulation : dict) : bool :=
  existsb (contains indicator) (map upper (keys formulation)).




End PerformanceComparison.

(* ================================================================== *)
(** ** Literature responder: further vocabulary *)
(* ================================================================== *)

Module RetrievalSpec.
Import LiteratureRAGAgent.

(** The knowledge-table result for ethylene carbonate. *)
Definition ethylene_carbonate_result : value :=
  VDict [ ("title", VStr "Solvent: Ethylene Carbonate (EC)");
          ("content",
           VStr "Properties: High dielectric constant (~90), high melting point (36°C). Use case: Primary solvent for lithium-ion batteries, excellent SEI former");
          ("relevance_score", VFloat 0.9);
          ("source", VStr "knowledge_base") ].

(** An external search that is out of service. *)
Definition failing_store : VectorStore := {|
  similarity_search_with_score := fun _ _ => Raise (OtherError "unavailable");
  similarity_search := fun _ _ => Raise (OtherError "unavailable")
|}.

End RetrievalSpec.

(* ================================================================== *)
(** ** Coordinator: further vocabulary *)
(* ================================================================== *)

Module CoordinatorSpec.
Import OrchestratorAgent.

(** The response [_handle_simple_query] gives to a greeting. *)
Definition greeting_response (query text : string) (time : Q) : dict :=
  simple_response query "Direct response - greeting" "greeting" text time.

(** A request that asks for a high-voltage electrolyte. *)
Definition high_voltage_request : dict :=
  [("query", VStr "High-voltage electrolyte for NMC cathodes")].

(** The operating conditions and the anode [_parse_query] gives the
    chemistries it does not read limits for. *)
Definition fixed_conditions (battery_type : string) : dict :=
  if String.eqb battery_type "zinc"
  then [("max_voltage", VFloat 1.8); ("max_temperature", VInt 50)]
  else if String.eqb battery_type "sodium-ion"
  then [("max_voltage", VFloat 4.0); ("max_temperature", VInt 55)]
  else [("max_voltage", VFloat 3.0); ("max_temperature", VInt 50)].

Definition fixed_anode (battery_type : string) : string :=
  if String.eqb battery_type "zinc" then "zinc metal"
  else if String.eqb battery_type "sodium-ion" then "hard carbon"
  else "magnesium metal".

(** The order in which the design workflow calls the sub-agents: the
    literature, property and planning agents once each, then the
    predictor. *)
Fixpoint in_pipeline_order (stage : nat) (callees : list agent) : bool :=
  match callees with
  | [] => true
  | a :: rest =>
      match stage, a with
      | 0%nat, Literature => in_pipeline_order 1 rest
      | 1%nat, Property => in_pipeline_order 2 rest
      | 2%nat, Planning => in_pipeline_order 3 rest
      | 3%nat, Prediction => in_pipeline_order 3 rest
      | _, _ => false
      end
  end.

(** A call that returned. *)
Definition returned (c : call) : Prop := exists out, call_output c = Ok out.

(** Every call but the last one returned. *)
Fixpoint only_last_may_fail (calls : list call) : Prop :=
  match calls with
  | [] => True
  | c :: rest =>
      match rest with
      | [] => True
      | _ :: _ => returned c /\ only_last_may_fail rest
      end
  end.

(** Sub-agents of which the property agent is out of service. *)
Definition agents_without_property (a : agent) (log : list call)
    (input_data : dict) : res dict :=
  match a with
  | Property => Raise (OtherError "unavailable")
  | _ => OrchestratorSpec.demo_agents a log input_data
  end.

End CoordinatorSpec.

(* ================================================================== *)
(** ** Facts about the Python primitives *)
(* ================================================================== *)

Module PyFacts.

Lemma bind_Ok {A B : Type} (m : res A) (k : A -> res B) (b : B) :
  bind m k = Ok b -> exists a, m = Ok a /\ k a = Ok b.
Proof.
  destruct m as [a|e]; simpl; intros H; [exists a; auto | discriminate].
Qed.

(** Inverts a chain of binds that is known to return. *)
Ltac inv_bind H :=
  let a := fresh "x" in
  let Ha := fresh "E" in
  apply bind_Ok in H; destruct H as (a & Ha & H).

Lemma dget_dset_same (k : string) (v : value) (d : dict) :
  dget k (dset k v d) = Some v.
Proof.
  induction d as [|[k' v'] d IH]; simpl.
  - now rewrite String.eqb_refl.
  - destruct (String.eqb k k') eqn:E; simpl.
    + now rewrite String.eqb_refl.
    + now rewrite E.
Qed.

Lemma dget_dset_other (k k' : string) (v : value) (d : dict) :
  k <> k' -> dget k (dset k' v d) = dget k d.
Proof.
  intros Hne. induction d as [|[k2 v2] d IH]; simpl.
  - destruct (String.eqb k k') eqn:E; [apply String.eqb_eq in E; contradiction | reflexivity].
  - destruct (String.eqb k' k2) eqn:E2; simpl.
    + apply String.eqb_eq in E2; subst k2.
      destruct (String.eqb k k') eqn:E; [apply String.eqb_eq in E; contradiction | reflexivity].
    + destruct (String.eqb k k2); [reflexivity | exact IH].
Qed.



Lemma values_dset (P : value -> Prop) (k : string) (v : value) (d : dict) :
  Forall P (values d) -> P v -> Forall P (values (dset k v d)).
Proof.
  unfold values. induction d as [|[k' v'] d IH]; simpl; intros Hd Hv.
  - constructor; auto.
  - inversion Hd; subst. destruct (String.eqb k k'); simpl; constructor; auto.
Qed.

Lemma get_in_values (k : string) (d : dict) (default : value) :
  has_key k d = true -> In (get d k default) (values d).
Proof.
  unfold get, values, has_key. induction d as [|[k' v'] d IH]; simpl; [discriminate|].
  destruct (String.eqb k k'); simpl; intros H; [now left | right; auto].
Qed.

Lemma mapM_total {A B : Type} (f : A -> res B) (l : list A) :
  (forall x, In x l -> exists y, f x = Ok y) -> exists ys, mapM f l = Ok ys.
Proof.
  induction l as [|x l IH]; simpl; intros H; [now exists []|].
  destruct (H x (or_introl eq_refl)) as (y & ->).
  destruct IH as (ys & ->); [intros; apply H; now right|].
  simpl. now exists (y :: ys).
Qed.


Lemma filterM_total {A : Type} (f : A -> res bool) (l : list A) :
  (forall x, In x l -> exists b, f x = Ok b) -> exists ys, filterM f l = Ok ys.
Proof.
  induction l as [|x l IH]; simpl; intros H; [now exists []|].
  destruct (H x (or_introl eq_refl)) as (b & ->).
  destruct IH as (ys & ->); [intros; apply H; now right|].
  simpl. eauto.
Qed.

Lemma filterM_defined {A : Type} (f : A -> res bool) (l ys : list A) :
  filterM f l = Ok ys -> forall x, In x l -> exists b, f x = Ok b.
Proof.
  revert ys. induction l as [|x l IH]; simpl; intros ys H y Hy; [contradiction|].
  inv_bind H. inv_bind H. destruct Hy as [<-|Hy]; eauto.
Qed.

(** The filtered list is empty exactly when the test fails everywhere. *)
Lemma filterM_nil {A : Type} (f : A -> res bool) (l ys : list A) :
  filterM f l = Ok ys ->
  (List.length ys = 0%nat <-> forall x, In x l -> f x = Ok false).
Proof.
  revert ys. induction l as [|x l IH]; simpl; intros ys H.
  - inversion H; subst. split; [intros _ x [] | intros _; reflexivity].
  - inv_bind H. inv_bind H. inversion H; subst; clear H.
    specialize (IH _ E0). destruct x0; simpl.
    + split; [discriminate|]. intros Hall.
      rewrite (Hall x (or_introl eq_refl)) in E. discriminate.
    + rewrite IH. split.
      * intros Hall y [<-|Hy]; auto.
      * intros Hall y Hy. apply Hall. now right.
Qed.

(** A loop whose every step returns stays within an invariant. *)
Lemma foldM_invariant {A B : Type} (P : B -> Prop) (f : B -> A -> res B)
    (l : list A) :
  (forall acc x, In x l -> P acc -> exists acc', f acc x = Ok acc' /\ P acc') ->
  forall acc, P acc -> exists acc', foldM f l acc = Ok acc' /\ P acc'.
Proof.
  induction l as [|x l IH]; simpl; intros Hstep acc Hacc; [eauto|].
  destruct (Hstep acc x (or_introl eq_refl) Hacc) as (acc1 & -> & H1). simpl.
  apply IH; [intros; apply Hstep; simpl; auto | exact H1].
Qed.

(** What a returning loop returns satisfies any invariant of its steps. *)
Lemma foldM_preserves {A B : Type} (P : B -> Prop) (f : B -> A -> res B)
    (l : list A) :
  (forall acc x acc', In x l -> P acc -> f acc x = Ok acc' -> P acc') ->
  forall acc acc', P acc -> foldM f l acc = Ok acc' -> P acc'.
Proof.
  induction l as [|x l IH]; simpl; intros Hstep acc acc' Hacc H.
  - now inversion H; subst.
  - inv_bind H. eapply IH; [| |exact H].
    + intros; eapply Hstep; eauto.
    + eapply Hstep; eauto.
Qed.

Lemma prefix_contains (needle hay : string) :
  String.prefix needle hay = true -> contains needle hay = true.
Proof. destruct hay; simpl; intros ->; reflexivity. Qed.

Lemma eq_str_true (v : value) (s : string) :
  eq_str v s = true <-> v = VStr s.
Proof.
  destruct v; simpl; split; try discriminate.
  - intros H. apply String.eqb_eq in H. now subst.
  - intros H. inversion H. apply String.eqb_refl.
Qed.

Lemma Forall_firstn {A : Type} (P : A -> Prop) (n : nat) (l : list A) :
  Forall P l -> Forall P (firstn n l).
Proof.
  revert l. induction n as [|n IH]; intros l H; simpl; [constructor|].
  destruct H; constructor; auto.
Qed.

(** *** Rounding *)

Lemma round_half_even_bounds (x : Q) (lo hi : Z) :
  (inject_Z lo <= x)%Q -> (x <= inject_Z hi)%Q ->
  (lo <= round_half_even x <= hi)%Z.
Proof.
  intros Hlo Hhi. unfold round_half_even.
  assert (Hf1 : (lo <= Qfloor x)%Z).
  { rewrite <- (Qfloor_Z lo). now apply Qfloor_resp_le. }
  assert (Hf2 : (Qfloor x <= hi)%Z).
  { rewrite <- (Qfloor_Z hi). now apply Qfloor_resp_le. }
  assert (Hup : (inject_Z (Qfloor x) < x)%Q -> (Qfloor x + 1 <= hi)%Z).
  { intros Hlt. assert (Hq : (inject_Z (Qfloor x) < inject_Z hi)%Q) by lra.
    rewrite <- Zlt_Qlt in Hq. lia. }
  destruct (Qcompare (x - inject_Z (Qfloor x)) (1 # 2)) eqn:E.
  - apply Qeq_alt in E.
    destruct (Z.even (Qfloor x)); [lia|]. split; [lia|]. apply Hup. lra.
  - lia.
  - apply Qgt_alt in E. split; [lia|]. apply Hup. lra.
Qed.

Lemma round_bounds (x : Q) (n : nat) (lo hi : Z) :
  (inject_Z lo <= x * inject_Z (10 ^ Z.of_nat n))%Q ->
  (x * inject_Z (10 ^ Z.of_nat n) <= inject_Z hi)%Q ->
  (inject_Z lo <= round x n * inject_Z (10 ^ Z.of_nat n))%Q /\
  (round x n * inject_Z (10 ^ Z.of_nat n) <= inject_Z hi)%Q.
Proof.
  intros Hlo Hhi. unfold round. rewrite Qred_correct.
  destruct (round_half_even_bounds _ _ _ Hlo Hhi) as [H1 H2].
  assert (Hp : ~ (inject_Z (10 ^ Z.of_nat n) == 0)%Q).
  { assert (0 < 10 ^ Z.of_nat n)%Z by (apply Z.pow_pos_nonneg; lia).
    unfold Qeq. simpl. lia. }
  rewrite Zle_Qle in H1, H2.
  assert (E : (inject_Z (round_half_even (x * inject_Z (10 ^ Z.of_nat n)))
               / inject_Z (10 ^ Z.of_nat n) * inject_Z (10 ^ Z.of_nat n)
               == inject_Z (round_half_even (x * inject_Z (10 ^ Z.of_nat n))))%Q)
    by (field; exact Hp).
  rewrite E. split; assumption.
Qed.

(** [int] of a non-negative number is its floor. *)
Lemma int_bounds (x : Q) (lo hi : Z) :
  (0 <= lo)%Z -> (inject_Z lo <= x)%Q -> (x <= inject_Z hi)%Q ->
  (lo <= int x <= hi)%Z.
Proof.
  intros H0 Hlo Hhi. unfold int.
  assert (Hn : (0 <= Qnum x)%Z).
  { assert (Hx : (0 <= x)%Q).
    { apply Qle_trans with (inject_Z lo); auto.
      replace 0%Q with (inject_Z 0) by reflexivity. now rewrite <- Zle_Qle. }
    unfold Qle in Hx. simpl in Hx. lia. }
  rewrite Z.quot_div_nonneg by lia.
  replace (Qnum x / Z.pos (Qden x))%Z with (Qfloor x)
    by (destruct x; reflexivity).
  split.
  - rewrite <- (Qfloor_Z lo). now apply Qfloor_resp_le.
  - rewrite <- (Qfloor_Z hi). now apply Qfloor_resp_le.
Qed.

End PyFacts.
(* ================================================================== *)
(** ** Property / compatibility responder: properties *)
(* ================================================================== *)

Module PropertyCompatibilityFacts.
Import PyFacts PropertyCompatibilityAgent PropertyCompatibilitySpec.

Ltac split_rule_checks H :=
  repeat match type of H with
         | context [bind ?m _] => destruct m eqn:?; simpl in H
         | context [if ?c then _ else _] => destruct c eqn:?; simpl in H
         end.

Lemma check_rule_adds cu v t a issues r issues' :
  In r compatibility_rules ->
  check_rule cu v t a issues r = Ok issues' ->
  issues' = issues \/
  (issues' = app issues [issue_of r] /\
   (rule_id r = "PC_graphite" \/ rule_id r = "high_voltage_cathode")).
Proof.
  intros Hin H. simpl in Hin.
  destruct Hin as [<-|[<-|[<-|[<-|[<-|[<-|[]]]]]]];
    unfold check_rule in H; simpl in H; split_rule_checks H;
    try discriminate; inversion H; subst; auto.
Qed.

Lemma check_rule_total cu v t a issues r x y z :
  In r compatibility_rules ->
  as_num v = Ok x -> as_num t = Ok y -> as_str a = Ok z ->
  exists issues', check_rule cu v t a issues r = Ok issues'.
Proof.
  intros Hin Hv Ht Ha. simpl in Hin.
  destruct Hin as [<-|[<-|[<-|[<-|[<-|[<-|[]]]]]]];
    unfold check_rule, gt; simpl; rewrite ?Hv, ?Ht, ?Ha; simpl;
    repeat match goal with
           | |- context [if ?c then _ else _] => destruct c; simpl
           end; rewrite ?Hv, ?Ht, ?Ha; simpl; eauto.
Qed.

Lemma check_compatibility_fired components oc em issues :
  _check_compatibility components oc em = Ok issues -> Forall fired issues.
Proof.
  unfold _check_compatibility.
  apply (foldM_preserves (Forall fired)); [|constructor].
  intros acc r acc' Hin Hacc H.
  destruct (check_rule_adds _ _ _ _ _ _ _ Hin H) as [->|(-> & Hid)]; auto.
  apply Forall_app; split; auto. repeat constructor. exists r; auto.
Qed.

Lemma check_compatibility_total components oc em x y z :
  as_num (get oc "max_voltage" (VFloat 4.2)) = Ok x ->
  as_num (get oc "max_temperature" (VInt 45)) = Ok y ->
  as_str (get em "anode" (VStr "graphite")) = Ok z ->
  exists issues, _check_compatibility components oc em = Ok issues.
Proof.
  intros Hv Ht Ha. unfold _check_compatibility.
  destruct (foldM_invariant (fun _ => True)
              (check_rule (map upper components)
                 (get oc "max_voltage" (VFloat 4.2))
                 (get oc "max_temperature" (VInt 45))
                 (get em "anode" (VStr "graphite")))
              compatibility_rules) with (acc := @nil value) as (r & Hr & _); auto.
  - intros acc r Hin _.
    destruct (check_rule_total (map upper components) _ _ _ acc r _ _ _ Hin Hv Ht Ha)
      as (i & Hi); eauto.
  - eauto.
Qed.

(** Neither the LiPF6 nor the LiTFSI rule is ever reported, whatever the
    components and the operating conditions are. *)
Lemma salt_rules_never_reported components oc em issues :
  _check_compatibility components oc em = Ok issues ->
  ~ reports "LiPF6_thermal" issues /\ ~ reports "LiTFSI_Al" issues.
Proof.
  intros H. apply check_compatibility_fired in H.
  rewrite Forall_forall in H.
  split; intros (d & Hin & Hid); destruct (H _ Hin) as (r & _ & Heq & Hr);
    inversion Heq; subst d; simpl in Hid; inversion Hid as [Hid'];
    rewrite Hid' in Hr; destruct Hr; discriminate.
Qed.

(** C1.  The claim asks that a components list with LiPF6 and a
    max_temperature above 60 yields the LiPF6 thermal-decomposition
    issue, and one with LiTFSI and a max_voltage above 3.8 the
    aluminum-corrosion issue.  On those inputs the responder reports no
    issue at all: the rule's component names are upper-cased before the
    mixed-case literals are looked up among them. *)
Theorem C1_salt_rules_report_nothing :
  process [ ("components", VList [VStr "LiPF6"]);
            ("operating_conditions", VDict [("max_temperature", VInt 70)]) ]
  = Ok [ ("status", VStr "success");
         ("component_properties", VDict [("LIPF6", unknown_component)]);
         ("aggregate_properties", VDict []);
         ("compatibility_issues", VList []);
         ("recommendations", VList
            [ VStr "Consider LiFSI or LiBF4 instead of LiPF6 for thermal stability";
              VStr "Consider adding VC (1-2 wt%) for improved cycle life" ]);
         ("is_compatible", VBool true) ]
  /\
  _check_compatibility ["LiTFSI"] [("max_voltage", VFloat 4.2)] [] = Ok [].
Proof. split; vm_compute; reflexivity. Qed.

Lemma severity_in_critical i b :
  severity_in i ["critical"] = Ok b -> (b = true <-> is_critical i).
Proof.
  unfold severity_in, is_critical. intros H.
  inv_bind H. inv_bind H. inversion H; subst; clear H.
  destruct i; try discriminate. simpl in E. inversion E; subst.
  unfold getitem in E0. destruct (dget "severity" x) as [sev|] eqn:Hs; [|discriminate].
  inversion E0; subst. simpl. rewrite orb_false_r, eq_str_true. split.
  - intros ->. eauto.
  - intros (d & Hd & Hsev). inversion Hd; subst. congruence.
Qed.

(** C8.  A result of [process] has an [is_compatible] field, and it is
    true exactly when no issue of the same result has severity
    'critical'. *)
Theorem C8_is_compatible_iff_no_critical_issue (input_data result : dict) :
  process input_data = Ok result ->
  exists (b : bool) (issues : list value),
    dget "is_compatible" result = Some (VBool b) /\
    dget "compatibility_issues" result = Some (VList issues) /\
    (b = true <-> forall i, In i issues -> ~ is_critical i).
Proof.
  intros H. unfold process in H.
  do 7 inv_bind H. inversion H; subst; clear H.
  exists (Nat.eqb (List.length x5) 0), x2. repeat split.
  - rewrite Nat.eqb_eq, (filterM_nil _ _ _ E5). intros Hall i Hi Hc.
    apply (severity_in_critical _ _ (Hall i Hi)) in Hc. discriminate.
  - rewrite Nat.eqb_eq, (filterM_nil _ _ _ E5). intros Hall i Hi.
    destruct (filterM_defined _ _ _ E5 i Hi) as ([|] & Hb); [|exact Hb].
    exfalso. apply (Hall i Hi). now apply (severity_in_critical _ _ Hb).
Qed.

Lemma C8_is_compatible_witness :
  exists result,
    process sample_input = Ok result /\
    exists (b : bool) (issues : list value),
      dget "is_compatible" result = Some (VBool b) /\
      dget "compatibility_issues" result = Some (VList issues) /\
      (b = true <-> forall i, In i issues -> ~ is_critical i).
Proof.
  eexists. split; [vm_compute; reflexivity|].
  apply (C8_is_compatible_iff_no_critical_issue sample_input).
  vm_compute; reflexivity.
Defined.

(** *** [process] returns on every well-typed input *)

Lemma database_aggregable :
  forall v, In v (values property_database) -> aggregable v = true.
Proof. apply forallb_forall. vm_compute. reflexivity. Qed.

Lemma component_properties_aggregable components :
  Forall (fun v => aggregable v = true)
         (values (_get_component_properties components)).
Proof.
  unfold _get_component_properties.
  assert (G : forall acc : dict,
             Forall (fun v => aggregable v = true) (values acc) ->
             Forall (fun v => aggregable v = true)
               (values (fold_left
                  (fun properties comp =>
                     let comp_upper := upper comp in
                     if has_key comp_upper property_database
                     then dset comp_upper
                            (get property_database comp_upper VNone) properties
                     else dset comp_upper unknown_component properties)
                  components acc))).
  { induction components as [|c cs IH]; intros acc Hacc; [exact Hacc|].
    cbn [fold_left]. apply IH. destruct (has_key (upper c) property_database) eqn:Hk.
    - apply values_dset; auto. apply database_aggregable.
      now apply get_in_values.
    - apply values_dset; auto. }
  apply G. constructor.
Qed.

Lemma numericb_Ok v : numericb v = true -> exists q, as_num v = Ok q.
Proof. unfold numericb. destruct (as_num v); [eauto | discriminate]. Qed.

Lemma aggregate_total (properties : dict) :
  Forall (fun v => aggregable v = true) (values properties) ->
  exists a, _calculate_aggregate_properties properties = Ok a.
Proof.
  intros Hp. unfold _calculate_aggregate_properties.
  match goal with
  | |- context [foldM ?f properties ?a] =>
      assert (Hfold : exists solvents,
                 foldM f properties a = Ok solvents /\
                 Forall (fun d => aggregable (VDict d) = true) solvents)
  end.
  { apply foldM_invariant; [|constructor].
    intros acc [k v] Hin Hacc. simpl.
    rewrite Forall_forall in Hp.
    assert (Hv : aggregable v = true).
    { apply Hp. unfold values. now apply (in_map snd _ _ Hin). }
    destruct v; try discriminate. simpl.
    destruct (eq_str (get d "category" VNone) "solvent"); eexists; split; eauto.
    apply Forall_app; split; auto. }
  destruct Hfold as (solvents & -> & Hs).
  simpl. destruct solvents as [|s0 rest]; [eauto|].
    rewrite Forall_forall in Hs.
    assert (T : forall key default,
               (forall d, aggregable (VDict d) = true ->
                          numericb (get d key default) = true) ->
               exists ys, mapM (fun s => as_num (get s key default)) (s0 :: rest)
                          = Ok ys).
    { intros key default Hk. apply mapM_total. intros d Hd.
      apply numericb_Ok, Hk, Hs, Hd. }
    destruct (T "viscosity" (VFloat 1.0)) as (v1 & ->).
    { intros d Hd; simpl in Hd. now repeat (apply andb_prop in Hd; destruct Hd as [Hd ?]). }
    destruct (T "dielectric_constant" (VInt 10)) as (v2 & ->).
    { intros d Hd; simpl in Hd. now repeat (apply andb_prop in Hd; destruct Hd as [Hd ?]). }
    destruct (T "oxidation_potential" (VFloat 6.0)) as (v3 & ->).
    { intros d Hd; simpl in Hd. now repeat (apply andb_prop in Hd; destruct Hd as [Hd ?]). }
    destruct (T "reduction_potential" (VFloat 0.5)) as (v4 & ->).
    { intros d Hd; simpl in Hd. now repeat (apply andb_prop in Hd; destruct Hd as [Hd ?]). }
    simpl. eauto.
Qed.

Lemma fired_severity i :
  fired i -> exists b1 b2, severity_in i ["critical"; "high"] = Ok b1 /\
                           severity_in i ["critical"] = Ok b2.
Proof. intros (r & _ & -> & _). unfold severity_in, issue_of. simpl. eauto. Qed.

Lemma recommendations_total components issues oc x y :
  Forall fired issues ->
  as_num (get oc "max_voltage" (VFloat 4.2)) = Ok x ->
  as_num (get oc "max_temperature" (VInt 45)) = Ok y ->
  exists recs, _generate_recommendations components issues oc = Ok recs.
Proof.
  intros Hf Hv Ht. unfold _generate_recommendations.
  match goal with
  | |- context [foldM ?f issues ?a] =>
      assert (Hfold : exists recs, foldM f issues a = Ok recs /\ True)
  end.
  { apply foldM_invariant; [|exact I].
    intros acc i Hin _. rewrite Forall_forall in Hf.
    destruct (Hf i Hin) as (r & _ & -> & _). unfold severity_in, issue_of. simpl.
    match goal with
    | |- context [if ?c then _ else _] => destruct c; simpl; eauto
    end. }
  destruct Hfold as (recs & -> & _).
  simpl. unfold gt. rewrite Hv, Ht. simpl. eauto.
Qed.

(** [process] returns a result on every well-typed input. *)
Lemma process_returns (input_data : dict) :
  well_typed input_data -> exists result, process input_data = Ok result.
Proof.
  intros (components & oc & em & x & y & z & Hc & Ho & He & Hv & Ht & Ha).
  unfold process. rewrite Hc, Ho, He. simpl.
  destruct (check_compatibility_total components oc em x y z Hv Ht Ha)
    as (issues & Hi). rewrite Hi. simpl.
  destruct (aggregate_total (_get_component_properties components)
              (component_properties_aggregable components)) as (a & ->). simpl.
  pose proof (check_compatibility_fired _ _ _ _ Hi) as Hf.
  destruct (recommendations_total components issues oc x y Hf Hv Ht) as (recs & ->).
  simpl.
  destruct (filterM_total (fun i => severity_in i ["critical"]) issues) as (c & ->).
  - intros i Hin. rewrite Forall_forall in Hf.
    destruct (fired_severity i (Hf i Hin)) as (b1 & b2 & _ & Hb). eauto.
  - simpl. eauto.
Qed.

End PropertyCompatibilityFacts.

(* ================================================================== *)
(** ** Performance predictor: properties *)
(* ================================================================== *)

Module PerformancePredictionFacts.
Import PyFacts PerformancePredictionAgent PerformancePredictionSpec.

(** *** Chemistry detection *)

(** C9.  Lithium indicators are tested first, by substring containment
    on the upper-cased component names: a formulation with a component
    whose upper-cased name contains LI is classified as lithium-ion,
    whatever else it contains. *)
Theorem C9_lithium_detected_first (formulation : dict) :
  (exists name, In name (keys formulation) /\
                contains "LI" (upper name) = true) ->
  _detect_chemistry formulation = "lithium-ion".
Proof.
  intros (name & Hin & Hc). unfold _detect_chemistry.
  assert (H : any_indicator li_indicators (map upper (keys formulation)) = true).
  { unfold any_indicator. apply existsb_exists. exists "LI". split.
    - unfold li_indicators. simpl. tauto.
    - apply existsb_exists. exists (upper name). split; [|exact Hc].
      now apply in_map. }
  now rewrite H.
Qed.

(** The optimized zinc template, with LiTFSI as an additive next to a
    zinc salt, is such a formulation. *)
Lemma C9_zinc_with_LiTFSI_witness :
  (exists name, In name (keys zinc_optimized) /\
                contains "LI" (upper name) = true) /\
  _detect_chemistry zinc_optimized = "lithium-ion".
Proof.
  assert (H : exists name, In name (keys zinc_optimized) /\
                           contains "LI" (upper name) = true).
  { exists "LiTFSI". split; [simpl; tauto | vm_compute; reflexivity]. }
  split; [exact H | exact (C9_lithium_detected_first zinc_optimized H)].
Defined.

(** *** The fallback estimate *)

Lemma pow10_1 : inject_Z (10 ^ Z.of_nat 1) = 10%Q.
Proof. reflexivity. Qed.

Lemma pow10_2 : inject_Z (10 ^ Z.of_nat 2) = 100%Q.
Proof. reflexivity. Qed.

Lemma jitter_round1 (b : Z) (v : Q) :
  (-5 <= v)%Q -> (v <= 5)%Q ->
  within (round (inject_Z b + v) 1) (inject_Z b) 5.
Proof.
  intros H1 H2.
  destruct (round_bounds (inject_Z b + v) 1 ((b + -5) * 10) ((b + 5) * 10))
    as [L U].
  - rewrite pow10_1, inject_Z_mult, inject_Z_plus.
    change (inject_Z (-5)) with (-5)%Q. change (inject_Z 10) with 10%Q. lra.
  - rewrite pow10_1, inject_Z_mult, inject_Z_plus.
    change (inject_Z 5) with 5%Q. change (inject_Z 10) with 10%Q. lra.
  - rewrite pow10_1, inject_Z_mult, inject_Z_plus in L, U.
    change (inject_Z (-5)) with (-5)%Q in L. change (inject_Z 5) with 5%Q in U.
    change (inject_Z 10) with 10%Q in L, U.
    unfold within. split; lra.
Qed.

Lemma jitter_round2 (b : Z) (v : Q) :
  (-5 <= v)%Q -> (v <= 5)%Q ->
  within (round (inject_Z b + v * 0.1) 2) (inject_Z b) 0.5.
Proof.
  intros H1 H2.
  destruct (round_bounds (inject_Z b + v * 0.1) 2
              (b * 100 + -50) (b * 100 + 50)) as [L U].
  - rewrite pow10_2, inject_Z_plus, inject_Z_mult.
    change (inject_Z (-50)) with (-50)%Q. change (inject_Z 100) with 100%Q. lra.
  - rewrite pow10_2, inject_Z_plus, inject_Z_mult.
    change (inject_Z 50) with 50%Q. change (inject_Z 100) with 100%Q. lra.
  - rewrite pow10_2, inject_Z_plus, inject_Z_mult in L, U.
    change (inject_Z (-50)) with (-50)%Q in L. change (inject_Z 50) with 50%Q in U.
    change (inject_Z 100) with 100%Q in L, U.
    unfold within. split; lra.
Qed.

Lemma jitter_int (b : Z) (v : Q) :
  (50 <= b)%Z -> (-5 <= v)%Q -> (v <= 5)%Q ->
  within (inject_Z (int (inject_Z b + v * 10))) (inject_Z b) 50.
Proof.
  intros Hb H1 H2.
  destruct (int_bounds (inject_Z b + v * 10) (b + -50) (b + 50)) as [L U].
  - lia.
  - rewrite inject_Z_plus. change (inject_Z (-50)) with (-50)%Q. lra.
  - rewrite inject_Z_plus. change (inject_Z 50) with 50%Q. lra.
  - rewrite Zle_Qle, inject_Z_plus in L, U.
    change (inject_Z (-50)) with (-50)%Q in L. change (inject_Z 50) with 50%Q in U.
    unfold within. split; lra.
Qed.


(** The values the code works from are those of the row of the
    chemistry in the baseline table. *)
Lemma base_values_of_table (chemistry : string) :
  _get_base_values_for_chemistry chemistry
  = Ok [ ("capacity", VInt (base_capacity (baseline_of chemistry)));
         ("cycles", VInt (base_cycles (baseline_of chemistry)));
         ("rate", VInt (base_rate (baseline_of chemistry)));
         ("conductivity", VInt (base_conductivity (baseline_of chemistry)));
         ("temp_range",
          VTuple [ VInt (base_temp_low (baseline_of chemistry));
                   VInt (base_temp_high (baseline_of chemistry)) ]) ] /\
  (50 <= base_cycles (baseline_of chemistry))%Z.
Proof.
  unfold _get_base_values_for_chemistry, get, baselines, baseline_of,
    baseline_table.
  simpl.
  repeat match goal with
         | |- context [String.eqb chemistry ?s] =>
             destruct (String.eqb chemistry s)
         end; simpl; split; (reflexivity || lia).
Qed.

(** C5.  Without a model backend the predictor returns the fallback
    estimate for the chemistry detected from the formulation, whose
    component names are ASCII texts: capacity retention and rate
    capability within 5 of the values of the chemistry's row of the
    baseline table, cycle stability within 50, ionic conductivity
    within 0.5, the temperature range of the row, confidence 0.5 and
    method basic_estimation.  The jitter is one draw of
    [random.uniform(-5, 5)]. *)
Theorem C5_fallback_estimate (rt : runtime) (input_data formulation : dict) :
  get input_data "formulation" (VDict []) = VDict formulation ->
  forallb isascii (keys formulation) = true ->
  (-5 <= random_uniform rt (-5) 5)%Q -> (random_uniform rt (-5) 5 <= 5)%Q ->
  exists result predictions capacity cycles rate conductivity,
    process rt None input_data = Ok result /\
    dget "battery_chemistry" result
    = Some (VStr (_detect_chemistry formulation)) /\
    dget "predictions" result = Some (VDict predictions) /\
    dget "capacity_retention_percent" predictions = Some (VFloat capacity) /\
    within capacity
      (inject_Z (base_capacity (baseline_of (_detect_chemistry formulation))))
      5 /\
    dget "cycle_stability_cycles" predictions = Some (VInt cycles) /\
    within (inject_Z cycles)
      (inject_Z (base_cycles (baseline_of (_detect_chemistry formulation))))
      50 /\
    dget "rate_capability_2C_percent" predictions = Some (VFloat rate) /\
    within rate
      (inject_Z (base_rate (baseline_of (_detect_chemistry formulation))))
      5 /\
    dget "ionic_conductivity_mS_cm" predictions = Some (VFloat conductivity) /\
    within conductivity
      (inject_Z
         (base_conductivity (baseline_of (_detect_chemistry formulation))))
      0.5 /\
    dget "temperature_range_C" predictions
    = Some (VTuple
              [ VInt (base_temp_low
                        (baseline_of (_detect_chemistry formulation)));
                VInt (base_temp_high
                        (baseline_of (_detect_chemistry formulation))) ]) /\
    dget "confidence_score" result = Some (VFloat 0.5) /\
    dget "prediction_method" result = Some (VStr "basic_estimation").
Proof.
  intros Hf _ H1 H2.
  destruct (base_values_of_table (_detect_chemistry formulation)) as [Hb Hc].
  unfold process. rewrite Hf. unfold _basic_estimation. simpl.
  rewrite Hb. unfold base_value. simpl.
  do 6 eexists.
  repeat match goal with |- _ /\ _ => split end; try reflexivity.
  - now apply jitter_round1.
  - now apply jitter_int.
  - now apply jitter_round1.
  - now apply jitter_round2.
Qed.

Lemma C5_fallback_estimate_witness :
  get [("formulation", VDict zinc_optimized)] "formulation" (VDict [])
  = VDict zinc_optimized /\
  forallb isascii (keys zinc_optimized) = true /\
  (-5 <= random_uniform Samples.sample_runtime (-5) 5)%Q /\
  (random_uniform Samples.sample_runtime (-5) 5 <= 5)%Q /\
  exists result,
    process Samples.sample_runtime None [("formulation", VDict zinc_optimized)]
    = Ok result /\
    dget "confidence_score" result = Some (VFloat 0.5) /\
    dget "prediction_method" result = Some (VStr "basic_estimation").
Proof.
  assert (Hf : get [("formulation", VDict zinc_optimized)] "formulation" (VDict [])
               = VDict zinc_optimized) by reflexivity.
  assert (Ha : forallb isascii (keys zinc_optimized) = true) by reflexivity.
  assert (H1 : (-5 <= random_uniform Samples.sample_runtime (-5) 5)%Q)
    by (vm_compute; discriminate).
  assert (H2 : (random_uniform Samples.sample_runtime (-5) 5 <= 5)%Q)
    by (vm_compute; discriminate).
  repeat split; auto.
  destruct (C5_fallback_estimate Samples.sample_runtime
              [("formulation", VDict zinc_optimized)] zinc_optimized
              Hf Ha H1 H2)
    as (result & preds & c & y & r & k & H).
  exists result. tauto.
Defined.

End PerformancePredictionFacts.

(* ================================================================== *)
(** ** Planner: properties *)
(* ================================================================== *)

Module ExperimentPlanningFacts.
Import PyFacts ExperimentPlanningAgent ExperimentPlanningSpec Ranking.

Lemma chem_templates_in_table (battery_type : string) :
  In (get templates battery_type (get templates "lithium-ion" VNone))
     (values templates).
Proof.
  destruct (has_key battery_type templates) eqn:Hk.
  - now apply get_in_values.
  - assert (Hd : dget battery_type templates = None).
    { revert Hk. unfold has_key. generalize templates.
      induction d as [|[k v] d IH]; simpl; [reflexivity|].
      destruct (String.eqb battery_type k); simpl; [discriminate | exact IH]. }
    unfold get at 1. rewrite Hd. vm_compute. tauto.
Qed.

Ltac solve_fallback :=
  cbn; do 5 eexists; repeat split; try reflexivity;
  [ unfold names_plan; do 3 eexists; repeat split; reflexivity
  | unfold drawn_from; do 2 eexists; repeat split; reflexivity .. ].

(** What the planner returns without a model backend. *)
Lemma fallback_process (rt : runtime) (input_data : dict)
    (query battery_type : string) :
  as_str (get input_data "query" (VStr "")) = Ok query ->
  as_str (get input_data "battery_type" (VStr "")) = Ok battery_type ->
  exists result p1 p2 p3 recommendation,
    process rt None input_data = Ok result /\
    dget "experiment_plans" result = Some (VList [p1; p2; p3]) /\
    dget "total_plans" result = Some (VInt 3) /\
    dget "battery_type" result
    = Some (VStr (chemistry_of battery_type query)) /\
    dget "recommendation" result = Some (VStr recommendation) /\
    names_plan rt (chemistry_of battery_type query) recommendation p1 /\
    drawn_from (chemistry_of battery_type query) "advanced" p1 /\
    drawn_from (chemistry_of battery_type query) "optimized" p2 /\
    drawn_from (chemistry_of battery_type query) "baseline" p3 /\
    well_formed_plan p1 = true /\ well_formed_plan p2 = true /\
    well_formed_plan p3 = true /\
    map (score "priority_score") [p1; p2; p3]
    = template_scores (chemistry_of battery_type query).
Proof.
  intros Hq Hb. unfold process. rewrite Hq, Hb. cbn [bind].
  change (if String.eqb battery_type "" then _detect_battery_type query
          else battery_type) with (chemistry_of battery_type query).
  generalize (chemistry_of battery_type query). intros c.
  destruct (String.eqb c "zinc") eqn:Ez;
    [apply String.eqb_eq in Ez; subst c; solve_fallback|].
  destruct (String.eqb c "sodium-ion") eqn:Es;
    [apply String.eqb_eq in Es; subst c; solve_fallback|].
  destruct (String.eqb c "lithium-ion") eqn:El;
    [apply String.eqb_eq in El; subst c; solve_fallback|].
  destruct (String.eqb c "magnesium") eqn:Em;
    [apply String.eqb_eq in Em; subst c; solve_fallback|].
  unfold _generate_fallback_plans, getitem, get, template_scores.
  simpl dget. rewrite Ez, Es, El, Em.
  cbn; do 5 eexists; repeat split; try reflexivity;
  [ unfold names_plan; do 3 eexists; repeat split; reflexivity
  | unfold drawn_from, template_entry, get; simpl dget; rewrite Ez, Es, El, Em;
    do 2 eexists; repeat split; reflexivity .. ].
Qed.

(** C4.  Without a model backend the planner returns exactly three
    plans, the advanced, optimized and baseline templates of the table
    entry of the chemistry (the lithium-ion entry when the table has
    none); every component of every formulation has a name, an
    abbreviation, a concentration, a unit and a role, every plan has a
    non-empty list of protocols, and total_plans is the number of plans,
    three. *)
Theorem C4_fallback_three_template_plans (rt : runtime) (input_data : dict)
    (query battery_type : string) :
  as_str (get input_data "query" (VStr "")) = Ok query ->
  as_str (get input_data "battery_type" (VStr "")) = Ok battery_type ->
  exists result p1 p2 p3,
    process rt None input_data = Ok result /\
    dget "experiment_plans" result = Some (VList [p1; p2; p3]) /\
    dget "total_plans" result
    = Some (VInt (Z.of_nat (List.length [p1; p2; p3]))) /\
    Z.of_nat (List.length [p1; p2; p3]) = 3%Z /\
    drawn_from (chemistry_of battery_type query) "advanced" p1 /\
    drawn_from (chemistry_of battery_type query) "optimized" p2 /\
    drawn_from (chemistry_of battery_type query) "baseline" p3 /\
    forallb well_formed_plan [p1; p2; p3] = true.
Proof.
  intros Hq Hb.
  destruct (fallback_process rt input_data query battery_type Hq Hb)
    as (result & p1 & p2 & p3 & rec & H & Hp & Ht & _ & _ & _ & D1 & D2 & D3
        & W1 & W2 & W3 & _).
  exists result, p1, p2, p3. repeat split; auto.
  simpl. now rewrite W1, W2, W3.
Qed.

Lemma C4_fallback_three_template_plans_witness :
  as_str (get zinc_query "query" (VStr "")) = Ok "zinc battery" /\
  as_str (get zinc_query "battery_type" (VStr "")) = Ok "" /\
  exists result p1 p2 p3,
    process Samples.sample_runtime None zinc_query = Ok result /\
    dget "experiment_plans" result = Some (VList [p1; p2; p3]) /\
    dget "total_plans" result = Some (VInt 3) /\
    forallb well_formed_plan [p1; p2; p3] = true.
Proof.
  assert (Hq : as_str (get zinc_query "query" (VStr "")) = Ok "zinc battery")
    by reflexivity.
  assert (Hb : as_str (get zinc_query "battery_type" (VStr "")) = Ok "")
    by reflexivity.
  repeat split; auto.
  destruct (C4_fallback_three_template_plans Samples.sample_runtime zinc_query
              "zinc battery" "" Hq Hb)
    as (result & p1 & p2 & p3 & H & Hp & Ht & _ & _ & _ & _ & W).
  exists result, p1, p2, p3. auto.
Defined.



(** *** Plans taken from the backend *)









(** With a backend whose reply holds two plans with scores 0.6 and 0.9,
    in that order, the planner returns them in that order, the lower
    score first. *)
Lemma backend_plans_keep_reply_order :
  exists result plans,
    process two_plans_runtime (Some (fixed_reply_llm "two plans")) zinc_query
    = Ok result /\
    dget "experiment_plans" result = Some (VList plans) /\
    map (score "priority_score") plans = [Some 0.6; Some 0.9]%Q /\
    ranked_by "priority_score" plans = false.
Proof.
  do 2 eexists. split; [vm_compute; reflexivity|].
  split; [reflexivity|]. split; vm_compute; reflexivity.
Qed.

End ExperimentPlanningFacts.

(* ================================================================== *)
(** ** Literature responder: properties *)
(* ================================================================== *)

Module LiteratureRAGFacts.
Import PyFacts LiteratureRAGAgent LiteratureRAGSpec Ranking.

Lemma hit_printable q v : hit q v -> printable v.
Proof. intros (t & c & ->). eexists. exists (VStr t), c. repeat split. Qed.

(** A loop that only appends: what it appends satisfies what each step's
    addition satisfies. *)
Lemma foldM_appends {A B : Type} (P : B -> Prop)
    (f : list B -> A -> res (list B)) (l : list A) :
  (forall x acc, In x l ->
     exists h, f acc x = Ok (app acc h) /\ Forall P h) ->
  forall acc, exists hits, foldM f l acc = Ok (app acc hits) /\ Forall P hits.
Proof.
  induction l as [|x l IH]; simpl; intros Hstep acc.
  - exists []. now rewrite app_nil_r.
  - destruct (Hstep x acc (or_introl eq_refl)) as (h & -> & Hh). simpl.
    destruct (IH (fun y a Hy => Hstep y a (or_intror Hy)) (app acc h))
      as (hits & -> & Hhits).
    exists (app h hits). rewrite app_assoc. split; auto.
    apply Forall_app; auto.
Qed.

Ltac step_hit :=
  match goal with
  | |- context [if ?c then _ else _] =>
      destruct c;
      [ eexists; split; [reflexivity | repeat constructor; unfold hit; eauto]
      | exists []; rewrite app_nil_r; split; [reflexivity | constructor] ]
  end.

Ltac each_item Hin :=
  simpl in Hin;
  repeat (destruct Hin as [<-|Hin];
          [cbn [bind as_str as_dict getitem dget snd fst String.eqb Ascii.eqb
                Bool.eqb fstr entry]; step_hit|]);
  contradiction.

Lemma search_section_hits (rt : runtime) (label section query_lower : string)
    (results : list value) :
  In section ["common_solvents"; "common_salts"; "common_additives"] ->
  exists hits,
    search_section rt label section query_lower results = Ok (app results hits)
    /\ Forall (hit 0.9) hits.
Proof.
  intros Hin. simpl in Hin.
  destruct Hin as [<-|[<-|[<-|[]]]]; unfold search_section;
    match goal with
    | |- context [bind ?m _] =>
        let v := eval vm_compute in m in change m with v
    end; cbn [bind];
    apply foldM_appends; intros kv acc Hkv; each_item Hkv.
Qed.

Lemma trends_hits (query_lower : string) (results : list value) :
  exists hits,
    foldM (fun results keyword =>
             if contains keyword query_lower then
               trends <- (v <- getitem knowledge_base "recent_trends" ;; as_list v) ;;
               foldM (fun results trend =>
                        t <- as_str trend ;;
                        if contains keyword (lower t)
                        then Ok (app results
                                   [VDict [ ("title", VStr "Recent Research Trend");
                                            ("content", trend);
                                            ("relevance_score", VFloat 0.75);
                                            ("source", VStr "knowledge_base") ]])
                        else Ok results)
                     trends results
             else Ok results)
          trend_keywords results
    = Ok (app results hits) /\ Forall (hit 0.75) hits.
Proof.
  apply foldM_appends. intros keyword acc Hk.
  destruct (contains keyword query_lower);
    [|exists []; rewrite app_nil_r; split; [reflexivity | constructor]].
  match goal with
  | |- context [bind ?m _] =>
      let v := eval vm_compute in m in change m with v
  end; cbn [bind].
  apply foldM_appends. intros trend acc' Ht.
  simpl in Hk.
  repeat (destruct Hk as [<-|Hk]; [each_item Ht|]); contradiction.
Qed.

(** The knowledge-table search returns its component entries, all at
    0.9, followed by its trend entries, all at 0.75. *)
Lemma search_knowledge_base_levels (rt : runtime) (query : string) :
  exists entries trends,
    _search_knowledge_base rt query = Ok (app entries trends) /\
    Forall (hit 0.9) entries /\ Forall (hit 0.75) trends.
Proof.
  unfold _search_knowledge_base.
  destruct (search_section_hits rt "Solvent" "common_solvents" (lower query) [])
    as (h1 & -> & H1); [simpl; tauto|].
  cbn [bind app].
  destruct (search_section_hits rt "Salt" "common_salts" (lower query) h1)
    as (h2 & -> & H2); [simpl; tauto|].
  cbn [bind].
  destruct (search_section_hits rt "Additive" "common_additives" (lower query)
              (app h1 h2)) as (h3 & -> & H3); [simpl; tauto|].
  cbn [bind].
  destruct (trends_hits (lower query) (app (app h1 h2) h3)) as (h4 & -> & H4).
  exists (app (app h1 h2) h3), h4. repeat split; auto.
  repeat (apply Forall_app; split); auto.
Qed.

Lemma scores_of_hits (q : Q) (l : list value) :
  Forall (hit q) l ->
  map (score "relevance_score") l = repeat (Some q) (List.length l).
Proof.
  induction 1 as [|v l (t & c & ->) _ IH]; simpl; [reflexivity|].
  now rewrite IH.
Qed.

Lemma all_some_repeat {A : Type} (x : A) (n : nat) (l : list (option A))
    (ys : list A) :
  all_some l = Some ys ->
  all_some (app (repeat (Some x) n) l) = Some (app (repeat x n) ys).
Proof. intros H. induction n as [|n IH]; simpl; [exact H | now rewrite IH]. Qed.

Lemma non_increasing_two_levels (hi lo : Q) (n m : nat) :
  Qle_bool lo hi = true ->
  non_increasing (app (repeat hi n) (repeat lo m)) = true.
Proof.
  intros Hle.
  assert (Hlo : forall k, non_increasing (repeat lo k) = true).
  { induction k as [|[|k] IH]; try reflexivity.
    change (Qle_bool lo lo && non_increasing (repeat lo (S k)) = true).
    rewrite IH, andb_true_r. apply Qle_bool_iff, Qle_refl. }
  induction n as [|[|n] IH].
  - apply Hlo.
  - destruct m as [|m]; [reflexivity|]. simpl app.
    change (Qle_bool lo hi && non_increasing (repeat lo (S m)) = true).
    now rewrite Hle, Hlo.
  - change (Qle_bool hi hi
            && non_increasing (app (repeat hi (S n)) (repeat lo m)) = true).
    rewrite IH, andb_true_r. apply Qle_bool_iff, Qle_refl.
Qed.

Lemma two_levels_ranked (entries trends : list value) :
  Forall (hit 0.9) entries -> Forall (hit 0.75) trends ->
  ranked_by "relevance_score" (app entries trends) = true.
Proof.
  intros He Ht. unfold ranked_by.
  rewrite map_app, (scores_of_hits _ _ He), (scores_of_hits _ _ Ht).
  rewrite (all_some_repeat _ _ _ (repeat 0.75%Q (List.length trends))).
  - now apply non_increasing_two_levels.
  - rewrite <- (app_nil_r (repeat (Some 0.75%Q) _)).
    rewrite (all_some_repeat _ _ [] []); [now rewrite app_nil_r | reflexivity].
Qed.

(** *** The summary *)

Lemma store_results_printable (vector_store : option VectorStore)
    (query : string) (k : nat) :
  Forall printable (_search_vector_store vector_store query k).
Proof.
  unfold _search_vector_store. destruct vector_store as [store|]; [|constructor].
  unfold try_except.
  destruct (similarity_search_with_score store query k) as [docs|e]; simpl.
  - apply Forall_forall. intros v Hv. apply in_map_iff in Hv.
    destruct Hv as ([doc s] & <- & _). unfold printable, scored_result.
    do 3 eexists. repeat split.
  - destruct (similarity_search store query k) as [docs|e']; simpl; [|constructor].
    apply Forall_forall. intros v Hv. apply in_map_iff in Hv.
    destruct Hv as (doc & <- & _). unfold printable, unscored_result.
    do 3 eexists. repeat split.
Qed.

Lemma summary_lines_total (rt : runtime) (results : list value) :
  Forall printable results ->
  forall i, exists lines, summary_lines rt i results = Ok lines.
Proof.
  induction 1 as [|v l (d & t & c & -> & Ht & Hc) _ IH]; intros i; simpl; [eauto|].
  unfold summary_line, subscript, getitem. rewrite Ht, Hc. simpl.
  destruct (IH (S i)) as (lines & ->). simpl. eauto.
Qed.

Lemma generate_summary_total (rt : runtime) (query : string)
    (results : list value) :
  Forall printable results ->
  exists summary, _generate_summary rt query results = Ok summary.
Proof.
  intros H. unfold _generate_summary. destruct results as [|r rest]; [eauto|].
  destruct (summary_lines_total rt (firstn 5 (r :: rest))) with (i := 1%nat)
    as (lines & ->).
  - now apply Forall_firstn.
  - simpl. eauto.
Qed.

(** The merged list is not one descending ranking: with one external
    document at similarity 0.5 and a query naming EC, the external
    result precedes the knowledge-table entry scored 0.9. *)
Lemma C7_merged_results_not_ranked :
  exists result results,
    process Samples.sample_runtime (Some sample_store) ec_query = Ok result /\
    dget "results" result = Some (VList results) /\
    map (score "relevance_score") results = [Some (1 # 2); Some 0.9]%Q /\
    ranked_by "relevance_score" results = false.
Proof.
  do 2 eexists. split; [vm_compute; reflexivity|].
  split; [reflexivity|]. split; vm_compute; reflexivity.
Qed.

(** *** The external results *)

Lemma similarity_in_unit_interval (distance : Q) :
  exists q,
    (similarity_of distance = VFloat q \/
     exists z, similarity_of distance = VInt z /\ q = inject_Z z) /\
    (0 <= q)%Q /\ (q <= 1)%Q.
Proof.
  unfold similarity_of.
  destruct (Qgtb 1 (1 - distance / 2)) eqn:E1.
  - destruct (Qgtb (1 - distance / 2) 0) eqn:E0.
    + exists (round (1 - distance / 2) 2).
      split; [left; reflexivity|].
      unfold Qgtb in *. apply negb_true_iff in E0, E1.
      assert (H0 : (0 < 1 - distance / 2)%Q).
      { destruct (Qlt_le_dec 0 (1 - distance / 2)) as [G|G]; [exact G|].
        apply Qle_bool_iff in G. congruence. }
      assert (H1 : (1 - distance / 2 < 1)%Q).
      { destruct (Qlt_le_dec (1 - distance / 2) 1) as [G|G]; [exact G|].
        apply Qle_bool_iff in G. congruence. }
      destruct (round_bounds (1 - distance / 2) 2 0 100) as [B0 B1].
      * change (inject_Z (10 ^ Z.of_nat 2)) with 100%Q.
        change (inject_Z 0) with 0%Q. lra.
      * change (inject_Z (10 ^ Z.of_nat 2)) with 100%Q.
        change (inject_Z 100) with 100%Q. lra.
      * change (inject_Z (10 ^ Z.of_nat 2)) with 100%Q in B0, B1.
        change (inject_Z 0) with 0%Q in B0.
        change (inject_Z 100) with 100%Q in B1. split; lra.
    + exists 0%Q. split; [right; exists 0%Z; split; reflexivity|].
      split; lra.
  - exists 1%Q. split; [right; exists 1%Z; split; reflexivity|]. split; lra.
Qed.

Lemma Forall2_map_right {A B : Type} (R : A -> B -> Prop) (f : A -> B)
    (l : list A) :
  (forall x, R x (f x)) -> Forall2 R l (map f l).
Proof. intros H. induction l; simpl; constructor; auto. Qed.

(** What [_search_vector_store] returns is what the store answered. *)
Lemma search_vector_store_from_store (vector_store : option VectorStore)
    (query : string) :
  from_store vector_store query (_search_vector_store vector_store query 5).
Proof.
  unfold from_store, _search_vector_store.
  destruct vector_store as [store|]; [|reflexivity].
  unfold try_except.
  destruct (similarity_search_with_score store query 5) as [docs|e];
    cbn [bind].
  - apply Forall2_map_right. intros [doc distance]. split.
    + unfold presents, scored_result. eexists. repeat split.
    + destruct (similarity_in_unit_interval distance) as (q & HE & H0 & H1).
      exists q. unfold scored_result, score.
      cbn [dget String.eqb Ascii.eqb Bool.eqb].
      destruct HE as [E|(z & E & Hq)]; rewrite E; subst; auto.
  - destruct (similarity_search store query 5) as [docs|e'];
      cbn [bind]; [|reflexivity].
    apply Forall2_map_right. intros doc. split.
    + unfold presents, unscored_result. eexists. repeat split.
    + reflexivity.
Qed.

(** C7, amended.  The results are the external results followed by the
    knowledge-table results.  The external results are one for each
    document the external search answered, in the order of its answer
    (of the search without scores when the one with scores raises; none
    when both raise or no search is configured).  The knowledge-table
    results are the component entries, each with relevance 0.9, followed
    by the trend entries, each with relevance 0.75, so that they are in
    non-increasing order of relevance_score.  sources_count is the number
    of results. *)
Theorem C7_results_store_then_knowledge_table (rt : runtime)
    (vector_store : option VectorStore) (input_data : dict) (query : string) :
  as_str (get input_data "query" (VStr "")) = Ok query ->
  exists result external entries trends,
    process rt vector_store input_data = Ok result /\
    dget "results" result
    = Some (VList (app external (app entries trends))) /\
    from_store vector_store query external /\
    Forall (hit 0.9) entries /\
    Forall (hit 0.75) trends /\
    ranked_by "relevance_score" (app entries trends) = true /\
    dget "sources_count" result
    = Some (VInt (Z.of_nat (List.length
                              (app external (app entries trends))))).
Proof.
  intros Hq.
  destruct (search_knowledge_base_levels rt query)
    as (entries & trends & Hkb & He & Ht).
  assert (Hp : Forall printable
                 (app (_search_vector_store vector_store query 5)
                      (app entries trends))).
  { apply Forall_app. split; [apply store_results_printable|].
    apply Forall_app. split.
    - eapply Forall_impl; [|exact He]. apply hit_printable.
    - eapply Forall_impl; [|exact Ht]. apply hit_printable. }
  destruct (generate_summary_total rt query _ Hp) as (summary & Hs).
  assert (Hres : (match vector_store with
                  | Some _ => app [] (_search_vector_store vector_store query 5)
                  | None => []
                  end) = _search_vector_store vector_store query 5).
  { destruct vector_store; reflexivity. }
  exists [ ("status", VStr "success"); ("query", VStr query);
           ("results", VList (app (_search_vector_store vector_store query 5)
                                  (app entries trends)));
           ("summary", VStr summary);
           ("sources_count",
            VInt (Z.of_nat (List.length
              (app (_search_vector_store vector_store query 5)
                   (app entries trends))))) ],
         (_search_vector_store vector_store query 5), entries, trends.
  repeat split; auto.
  - unfold process. rewrite Hq. cbn [bind]. rewrite Hkb. cbn [bind].
    rewrite Hres, Hs. reflexivity.
  - apply search_vector_store_from_store.
  - now apply two_levels_ranked.
Qed.

Lemma C7_results_store_then_knowledge_table_witness :
  as_str (get ec_query "query" (VStr "")) = Ok "EC" /\
  exists result external entries trends,
    process Samples.sample_runtime (Some sample_store) ec_query = Ok result /\
    dget "results" result
    = Some (VList (app external (app entries trends))) /\
    from_store (Some sample_store) "EC" external /\
    Forall (hit 0.9) entries /\
    Forall (hit 0.75) trends.
Proof.
  assert (Hq : as_str (get ec_query "query" (VStr "")) = Ok "EC") by reflexivity.
  split; [exact Hq|].
  destruct (C7_results_store_then_knowledge_table Samples.sample_runtime
              (Some sample_store) ec_query "EC" Hq)
    as (result & ext & en & tr & H1 & H2 & H3 & H4 & H5 & _).
  exists result, ext, en, tr. auto.
Defined.

End LiteratureRAGFacts.

(* ================================================================== *)
(** ** Coordinator: properties *)
(* ================================================================== *)

Module OrchestratorFacts.
Import PyFacts OrchestratorAgent OrchestratorSpec.

(** *** Inversion of coordinator code that returns *)

Lemma bindM_Ok {A B : Type} (m : M A) (k : A -> M B) (log log' : list call)
    (b : B) :
  bindM m k log = (Ok b, log') ->
  exists a log1, m log = (Ok a, log1) /\ k a log1 = (Ok b, log').
Proof.
  unfold bindM. destruct (m log) as [[a|e] log1]; intros H.
  - exists a, log1. auto.
  - inversion H.
Qed.

Lemma lift_Ok {A : Type} (r : res A) (log log' : list call) (a : A) :
  lift r log = (Ok a, log') -> r = Ok a /\ log' = log.
Proof. unfold lift. intros H. inversion H. auto. Qed.

Lemma ret_Ok {A : Type} (x a : A) (log log' : list call) :
  ret x log = (Ok a, log') -> a = x /\ log' = log.
Proof. unfold ret. intros H. inversion H. auto. Qed.


(** *** Classification *)

Section Classifier.

Variable rt : runtime.
Variable llm_service : option LLMService.

Lemma classify_falls_back (query : string) :
  str_in (strip (lower query)) greetings
  || existsb (fun g => startswith (strip (lower query)) g) greetings = false ->
  existsb (fun p => contains p (strip (lower query))) help_patterns = false ->
  backend_fails rt llm_service query ->
  exists confidence reason,
    _classify_query rt llm_service query
    = classification QUERY_TYPE_ELECTROLYTE_DESIGN confidence true reason.
Proof.
  intros Hg Hh Hf. unfold _classify_query. rewrite Hg, Hh.
  destruct Hf
    as [->|(llm & prompts & -> & Hp & [(e & He)|(r & e & Hr & _ & He)])].
  - eauto.
  - unfold _llm_classify_query. rewrite Hp. cbn [bind]. rewrite He. cbn [bind].
    eauto.
  - unfold _llm_classify_query. rewrite Hp. cbn [bind]. rewrite Hr. cbn [bind].
    rewrite He. destruct e; eauto.
Qed.

End Classifier.

(** C6.  A query of ASCII characters that matches neither the greeting
    nor the help heuristics is classified as electrolyte_design with
    should_delegate true when there is no model backend, when the model
    call raises, or when its response does not parse as JSON; the
    coordinator then runs the full design workflow on it. *)
Theorem C6_classification_defaults_to_design (rt : runtime)
    (llm_service : option LLMService) (query : string) :
  isascii query = true ->
  str_in (strip (lower query)) greetings
  || existsb (fun g => startswith (strip (lower query)) g) greetings = false ->
  existsb (fun p => contains p (strip (lower query))) help_patterns = false ->
  backend_fails rt llm_service query ->
  (exists d,
      _classify_query rt llm_service query = VDict d /\
      dget "query_type" d = Some (VStr "electrolyte_design") /\
      dget "should_delegate" d = Some (VBool true)) /\
  (forall agents input_data log,
      as_str (get input_data "query" (VStr "")) = Ok query ->
      process rt llm_service agents input_data log
      = _handle_design_query rt llm_service agents
          (get input_data "user_materials_input" (VStr "")) query
          (clock rt 0) log).
Proof.
  intros _ Hg Hh Hf.
  destruct (classify_falls_back rt llm_service query Hg Hh Hf) as (c & r & Hc).
  split.
  - rewrite Hc. eexists. repeat split.
  - intros agents input_data log Hq.
    unfold process, bindM, lift. rewrite Hq, Hc. reflexivity.
Qed.

Lemma C6_classification_defaults_to_design_witness :
  isascii "Design a zinc electrolyte" = true /\
  str_in (strip (lower "Design a zinc electrolyte")) greetings
  || existsb (fun g => startswith (strip (lower "Design a zinc electrolyte")) g)
             greetings = false /\
  existsb (fun p => contains p (strip (lower "Design a zinc electrolyte")))
          help_patterns = false /\
  backend_fails Samples.sample_runtime (Some sample_llm)
                "Design a zinc electrolyte" /\
  exists d,
    _classify_query Samples.sample_runtime (Some sample_llm)
                    "Design a zinc electrolyte" = VDict d /\
    dget "query_type" d = Some (VStr "electrolyte_design") /\
    dget "should_delegate" d = Some (VBool true).
Proof.
  assert (Hg : str_in (strip (lower "Design a zinc electrolyte")) greetings
               || existsb (fun g => startswith
                                      (strip (lower "Design a zinc electrolyte")) g)
                          greetings = false) by (vm_compute; reflexivity).
  assert (Hh : existsb (fun p => contains p
                                   (strip (lower "Design a zinc electrolyte")))
                       help_patterns = false) by (vm_compute; reflexivity).
  assert (Hf : backend_fails Samples.sample_runtime (Some sample_llm)
                             "Design a zinc electrolyte").
  { right. exists sample_llm, ("prompt", "system prompt").
    split; [reflexivity|]. split; [reflexivity|]. right.
    exists "This looks like a design request.", JSONDecodeError.
    repeat split; reflexivity. }
  repeat split; auto.
  exact (proj1 (C6_classification_defaults_to_design Samples.sample_runtime
                  (Some sample_llm) "Design a zinc electrolyte" eq_refl
                  Hg Hh Hf)).
Defined.

(** *** Requirements *)

(** [_parse_query] returns when the stored materials input is a string
    or is falsy. *)
Lemma parse_query_returns (rt : runtime) (user_materials_input : value)
    (query : string) :
  truthy user_materials_input = false \/
  (exists text, user_materials_input = VStr text) ->
  exists requirements,
    _parse_query rt user_materials_input query = Ok requirements.
Proof.
  intros [Hf|(text & ->)]; unfold _parse_query.
  - rewrite Hf. cbn [bind]. eauto.
  - destruct (truthy (VStr text)); cbn [as_str bind]; eauto.
Qed.

Lemma parse_zinc_battery :
  _parse_query Samples.sample_runtime (VStr "") "zinc battery"
  = Ok zinc_requirements.
Proof. vm_compute. reflexivity. Qed.

(** From the query to the property agent: the design workflow sends
    LiTFSI with a maximum voltage of 4.2 V to the property agent, whose
    answer lists no issue. *)
Lemma litfsi_query_reports_no_issue :
  exists response log' c output,
    _handle_design_query Samples.sample_runtime None demo_agents (VStr "")
      litfsi_query 0 []
    = (Ok response, log') /\
    nth_error log' 1 = Some c /\
    callee c = Property /\
    dget "components" (call_input c) = Some (VList [VStr "LiTFSI"]) /\
    dget "operating_conditions" (call_input c)
    = Some (VDict [("max_voltage", VFloat 4.2); ("max_temperature", VInt 45)]) /\
    call_output c = Ok output /\
    dget "compatibility_issues" output = Some (VList []).
Proof.
  do 4 eexists. split; [vm_compute; reflexivity|].
  split; [reflexivity|]. split; [reflexivity|]. split; [reflexivity|].
  split; [reflexivity|]. split; reflexivity.
Qed.

(** *** The shape of the responses *)

Section Responses.

Variable rt : runtime.
Variable llm_service : option LLMService.
Variable agents : agent -> list call -> dict -> res dict.

Lemma simple_query_response (query : string) (query_type : value)
    (response : dict) :
  _handle_simple_query rt llm_service query query_type = Ok (Some response) ->
  plain_response response.
Proof.
  unfold _handle_simple_query. intros H.
  destruct (eq_str query_type QUERY_TYPE_GREETING);
    [|destruct (eq_str query_type QUERY_TYPE_HELP);
      [|destruct (eq_str query_type QUERY_TYPE_OFF_TOPIC); [|discriminate]]].
  - apply bind_Ok in H. destruct H as (r & _ & H). inversion H. split; reflexivity.
  - inversion H. split; reflexivity.
  - apply bind_Ok in H. destruct H as (r & _ & H). inversion H. split; reflexivity.
Qed.

Lemma literature_query_response (query : string) (start_time : Q)
    (log log' : list call) (response : dict) :
  _handle_literature_query rt llm_service agents query start_time log
  = (Ok response, log') ->
  plain_response response.
Proof.
  unfold _handle_literature_query. intros H.
  apply bindM_Ok in H. destruct H as (lit & log1 & _ & H).
  apply ret_Ok in H. destruct H as [-> _]. split; reflexivity.
Qed.

Lemma property_query_response (user_materials_input : value) (query : string)
    (start_time : Q) (log log' : list call) (response : dict) :
  _handle_property_query rt llm_service agents
    user_materials_input query start_time log
  = (Ok response, log') ->
  plain_response response.
Proof.
  unfold _handle_property_query. intros H.
  apply bindM_Ok in H. destruct H as (requirements & log0 & _ & H).
  apply bindM_Ok in H. destruct H as (prop & log1 & _ & H).
  apply bindM_Ok in H. destruct H as (names & log2 & _ & H).
  apply bindM_Ok in H. destruct H as (summary & log3 & _ & H).
  apply ret_Ok in H. destruct H as [-> _]. split; reflexivity.
Qed.

Lemma design_query_response (user_materials_input : value) (query : string)
    (start_time : Q) (log log' : list call) (response : dict) :
  _handle_design_query rt llm_service agents
    user_materials_input query start_time log
  = (Ok response, log') ->
  keys response = response_keys.
Proof.
  unfold _handle_design_query. intros H.
  repeat (apply bindM_Ok in H;
          let a := fresh "a" in
          let l := fresh "log" in
          destruct H as (a & l & _ & H)).
  apply ret_Ok in H. destruct H as [-> _]. reflexivity.
Qed.

(** A returning [process] was answered by one of the four handlers. *)
Lemma process_routes (input_data : dict) (log log' : list call)
    (response : dict) :
  process rt llm_service agents input_data log
  = (Ok response, log') ->
  exists r, answered_by rt llm_service agents r
              input_data log response log'.
Proof.
  unfold process. intros H.
  apply bindM_Ok in H. destruct H as (query & log1 & Hq & H).
  apply lift_Ok in Hq. destruct Hq as [Hq ->].
  apply bindM_Ok in H. destruct H as (query_type & log2 & Ht & H).
  apply lift_Ok in Ht. destruct Ht as [Ht ->].
  apply bindM_Ok in H. destruct H as (confidence & log3 & Hc & H).
  apply lift_Ok in Hc. destruct Hc as [Hc ->].
  apply bindM_Ok in H. destruct H as (text & log4 & Hf & H).
  apply lift_Ok in Hf. destruct Hf as [Hf ->].
  apply bindM_Ok in H. destruct H as (cls & log5 & Hd & H).
  apply lift_Ok in Hd. destruct Hd as [Hd ->].
  apply bindM_Ok in H. destruct H as (simple & log6 & Hs & H).
  assert (Hs' : log6 = log /\
                (simple = None \/
                 _handle_simple_query rt llm_service query query_type
                 = Ok simple)).
  { destruct (negb (truthy (get cls "should_delegate" (VBool true)))).
    - apply lift_Ok in Hs. destruct Hs as [Hs ->]. auto.
    - apply ret_Ok in Hs. destruct Hs as [-> ->]. auto. }
  destruct Hs' as [-> Hs'].
  destruct simple as [direct|].
  - apply ret_Ok in H. destruct H as [-> ->].
    destruct Hs' as [Hs'|Hs']; [discriminate|].
    exists Direct, query. split; [exact Hq|]. simpl. eauto.
  - destruct (eq_str query_type QUERY_TYPE_LITERATURE_ONLY);
      [exists LiteratureOnly, query; split; [exact Hq | exact H]|].
    destruct (eq_str query_type QUERY_TYPE_PROPERTY_CHECK);
      [exists PropertyCheck, query; split; [exact Hq | exact H]|].
    exists FullDesign, query; split; [exact Hq | exact H].
Qed.

End Responses.

(** C10.  Every response of the coordinator's [process] has the keys
    query, agent_responses, experiment_plans, summary, processing_time
    and requirements_parsed, on whichever route it was produced, and its
    experiment_plans is the empty list unless the route is the full
    design workflow. *)
Theorem C10_response_shape (rt : runtime) (llm_service : option LLMService)
    (agents : agent -> list call -> dict -> res dict)
    (input_data : dict) (log log' : list call) (response : dict) :
  process rt llm_service agents input_data log
  = (Ok response, log') ->
  keys response = response_keys /\
  exists r,
    answered_by rt llm_service agents r input_data log
                response log' /\
    (r <> FullDesign -> dget "experiment_plans" response = Some (VList [])).
Proof.
  intros H.
  destruct (process_routes rt llm_service agents _ _ _ _ H)
    as (r & Hr).
  pose proof Hr as (query & Hq & Hroute).
  assert (G : keys response = response_keys /\
              (r <> FullDesign ->
               dget "experiment_plans" response = Some (VList []))).
  { destruct r; simpl in Hroute.
    - destruct Hroute as ((qt & Hs) & _).
      destruct (simple_query_response rt llm_service _ _ _ Hs); auto.
    - destruct (literature_query_response rt llm_service agents _ _ _ _ _ Hroute);
        auto.
    - destruct (property_query_response rt llm_service agents
                  _ _ _ _ _ _ Hroute); auto.
    - split; [|intros Hn; now elim Hn].
      exact (design_query_response rt llm_service agents
               _ _ _ _ _ _ Hroute). }
  destruct G as [Gk Ge]. split; [exact Gk|]. exists r. auto.
Qed.

Lemma C10_response_shape_witness :
  exists response,
    process Samples.sample_runtime None demo_agents
            greeting_request []
    = (Ok response, []) /\
    keys response = response_keys /\
    exists r,
      answered_by Samples.sample_runtime None demo_agents r
                  greeting_request [] response [] /\
      (r <> FullDesign -> dget "experiment_plans" response = Some (VList [])).
Proof.
  eexists. split; [vm_compute; reflexivity|].
  apply (C10_response_shape Samples.sample_runtime None demo_agents
           greeting_request [] []).
  vm_compute; reflexivity.
Defined.

(** *** The design workflow *)

Section Design.

Variable rt : runtime.
Variable llm_service : option LLMService.
Variable agents : agent -> list call -> dict -> res dict.










End Design.




End OrchestratorFacts.
(* ================================================================== *)
(** ** Strings and lists: further facts *)
(* ================================================================== *)

Module StringFacts.

Lemma prefix_app (p s : string) :
  String.prefix p s = true <-> exists t, s = p ++ t.
Proof.
  revert s. induction p as [|c p IH]; intros s; simpl.
  - split; [intros _; now exists s | now destruct s].
  - destruct s as [|c' s]; simpl.
    + split; [discriminate | intros (t & H); discriminate].
    + destruct (Ascii.ascii_dec c c') as [->|Hc].
      * rewrite IH. split; intros (t & H); exists t.
        -- now rewrite H.
        -- now inversion H.
      * split; [discriminate|]. intros (t & H). inversion H. congruence.
Qed.

(** [needle in hay] holds exactly when [hay] is [needle] between two
    strings. *)
Lemma contains_spec (needle hay : string) :
  contains needle hay = true <-> exists a b, hay = a ++ needle ++ b.
Proof.
  induction hay as [|c hay IH]; cbn [contains].
  - rewrite orb_false_r, prefix_app. split.
    + intros (t & H). exists "", t. exact H.
    + intros (a & b & H). destruct a; simpl in H; [now exists b|discriminate].
  - rewrite orb_true_iff, prefix_app, IH. split.
    + intros [(t & H)|(a & b & H)].
      * exists "", t. exact H.
      * exists (String c a), b. simpl. now rewrite H.
    + intros (a & b & H). destruct a as [|c' a]; simpl in H.
      * left. now exists b.
      * right. inversion H. now exists a, b.
Qed.

Lemma append_assoc (a b c : string) : (a ++ b) ++ c = a ++ b ++ c.
Proof. induction a; simpl; [reflexivity | now rewrite IHa]. Qed.

Lemma contains_trans (a b c : string) :
  contains a b = true -> contains b c = true -> contains a c = true.
Proof.
  rewrite !contains_spec. intros (x & y & ->) (u & v & ->).
  exists (u ++ x), (y ++ v). now rewrite !append_assoc.
Qed.

Lemma contains_false_trans (a b c : string) :
  contains a b = true -> contains a c = false -> contains b c = false.
Proof.
  intros Hab Hac. destruct (contains b c) eqn:E; [|reflexivity].
  now rewrite (contains_trans _ _ _ Hab E) in Hac.
Qed.

Lemma upper_char_idem (c : ascii) : upper_char (upper_char c) = upper_char c.
Proof.
  destruct c as [[] [] [] [] [] [] [] []]; vm_compute; reflexivity.
Qed.

Lemma upper_idem (s : string) : upper (upper s) = upper s.
Proof.
  induction s as [|c s IH]; simpl; [reflexivity|].
  now rewrite upper_char_idem, IH.
Qed.

Lemma str_in_In (x : string) (l : list string) :
  str_in x l = true <-> In x l.
Proof.
  unfold str_in. rewrite existsb_exists. split.
  - intros (y & Hy & E). apply String.eqb_eq in E. now subst.
  - intros H. exists x. split; [exact H | apply String.eqb_refl].
Qed.

Lemma has_key_dget (k : string) (d : dict) :
  has_key k d = match dget k d with Some _ => true | None => false end.
Proof.
  induction d as [|[k' v] d IH]; simpl; [reflexivity|].
  destruct (String.eqb k k'); [reflexivity | exact IH].
Qed.

(** Storing under a key the value it already holds changes nothing. *)
Lemma dset_same_value (k : string) (v : value) (d : dict) :
  dget k d = Some v -> dset k v d = d.
Proof.
  induction d as [|[k' v'] d IH]; simpl; [discriminate|].
  destruct (String.eqb_spec k k') as [->|].
  - intros H. now inversion H.
  - intros H. now rewrite IH.
Qed.

(** A loop that stores, for each item, a value that depends on the
    item's key only. *)
Lemma dget_fold_dset {A : Type} (key : A -> string) (f : string -> value)
    (l : list A) (d : dict) (k : string) :
  dget k (fold_left (fun d x => dset (key x) (f (key x)) d) l d)
  = if str_in k (map key l) then Some (f k) else dget k d.
Proof.
  revert d. induction l as [|x l IH]; intros d; simpl; [reflexivity|].
  rewrite IH. destruct (str_in k (map key l)) eqn:E.
  - now rewrite orb_true_r.
  - rewrite orb_false_r. destruct (String.eqb_spec k (key x)) as [->|Hk].
    + now rewrite PyFacts.dget_dset_same.
    + now rewrite PyFacts.dget_dset_other by congruence.
Qed.





Lemma fold_left_invariant {A B : Type} (P : B -> Prop) (f : B -> A -> B)
    (l : list A) :
  (forall acc x, In x l -> P acc -> P (f acc x)) ->
  forall acc, P acc -> P (fold_left f l acc).
Proof.
  induction l as [|x l IH]; intros Hstep acc Hacc; simpl; [exact Hacc|].
  apply IH; [intros; apply Hstep; simpl; auto|].
  apply Hstep; simpl; auto.
Qed.

Lemma NoDup_snoc (x : string) (l : list string) :
  NoDup l -> str_in x l = false -> NoDup (app l [x]).
Proof.
  intros Hl Hx. apply NoDup_app; [exact Hl | repeat constructor; simpl; tauto|].
  intros y Hy [<-|[]]. apply str_in_In in Hy. congruence.
Qed.

End StringFacts.

(* ================================================================== *)
(** ** Property responder: lookups, recommendations, errors *)
(* ================================================================== *)

Module PropertyLookupFacts.
Import PyFacts StringFacts PropertyCompatibilityAgent.
Import PropertyCompatibilityLookup.

Lemma mixed_case_never_upper (k m : string) :
  upper k = k -> upper m <> m -> String.eqb k m = false.
Proof.
  intros Hk Hm. destruct (String.eqb_spec k m) as [->|]; [contradiction|].
  reflexivity.
Qed.

(** An upper-cased name is a key of the table exactly when it is one of
    the eight keys spelled in upper case. *)
Lemma upper_key_in_table (k : string) :
  upper k = k -> has_key k property_database = str_in k upper_case_keys.
Proof.
  intros Hk.
  unfold has_key, property_database, _initialize_property_database,
    upper_case_keys, str_in.
  cbn [existsb fst].
  rewrite (mixed_case_never_upper k "LiPF6" Hk) by (vm_compute; discriminate).
  rewrite (mixed_case_never_upper k "LiTFSI" Hk) by (vm_compute; discriminate).
  rewrite (mixed_case_never_upper k "LiFSI" Hk) by (vm_compute; discriminate).
  rewrite (mixed_case_never_upper k "LiBF4" Hk) by (vm_compute; discriminate).
  rewrite (mixed_case_never_upper k "LiBOB" Hk) by (vm_compute; discriminate).
  cbn [orb]. reflexivity.
Qed.

Lemma get_component_properties_fold (components : list string) :
  _get_component_properties components
  = fold_left (fun d c => dset (upper c) (stored (upper c)) d) components [].
Proof.
  unfold _get_component_properties. generalize (@nil (string * value)).
  induction components as [|c cs IH]; intros d; cbn [fold_left];
    [reflexivity|].
  rewrite IH. f_equal. unfold stored.
  now destruct (has_key (upper c) property_database).
Qed.

(** X1.  [_get_component_properties] files every component under its
    upper-cased name: with the table's record when that name is one of
    EC, DMC, EMC, DEC, PC, VC, FEC and PS, and as unknown otherwise.
    The salts and LiBOB, whose keys are spelled in mixed case, are
    reported as unknown however they are written.  The name is an
    ASCII text. *)
Theorem component_filed_under_upper_case_name (components : list string)
    (c : string) :
  isascii c = true ->
  In c components ->
  dget (upper c) (_get_component_properties components)
  = Some (if str_in (upper c) upper_case_keys
          then get property_database (upper c) VNone
          else unknown_component).
Proof.
  intros _ Hc. rewrite get_component_properties_fold.
  rewrite (dget_fold_dset upper stored).
  assert (E : str_in (upper c) (map upper components) = true)
    by (apply str_in_In, in_map, Hc).
  rewrite E. unfold stored.
  now rewrite (upper_key_in_table (upper c) (upper_idem c)).
Qed.

Lemma component_filed_under_upper_case_name_witness :
  In "LiPF6" ["ec"; "LiPF6"] /\
  dget "LIPF6" (_get_component_properties ["ec"; "LiPF6"])
  = Some unknown_component.
Proof.
  split; [simpl; auto|].
  apply (component_filed_under_upper_case_name ["ec"; "LiPF6"] "LiPF6" eq_refl).
  simpl; auto.
Defined.




(** *** Recommendations *)

Lemma additive_in_table (k : string) :
  upper k = k ->
  has_key k property_database
  && match get property_database k VNone with
     | VDict entry => eq_str (get entry "category" VNone) "additive"
     | _ => false
     end
  = str_in k ["VC"; "FEC"; "PS"].
Proof.
  intros Hk. rewrite (upper_key_in_table k Hk).
  unfold upper_case_keys, str_in. cbn [existsb].
  repeat match goal with
         | |- context [String.eqb k ?c] =>
             destruct (String.eqb_spec k c) as [->|_]; [reflexivity|]
         end.
  reflexivity.
Qed.

Lemma has_additive_names (components : list string) :
  existsb (fun c =>
             has_key c property_database
             && match get property_database c VNone with
                | VDict entry => eq_str (get entry "category" VNone) "additive"
                | _ => false
                end)
          (map upper components)
  = names_additive components.
Proof.
  unfold names_additive.
  induction components as [|c cs IH]; cbn [map existsb]; [reflexivity|].
  now rewrite IH, (additive_in_table (upper c) (upper_idem c)).
Qed.

(** The first loop of [_generate_recommendations] appends one line,
    marked as a priority, for each urgent issue. *)
Lemma priority_lines (issues : list value) :
  forall acc recs,
    foldM (fun recs issue =>
             b <- severity_in issue ["critical"; "high"] ;;
             if b then
               d <- as_dict issue ;;
               sol <- getitem d "solution" ;;
               sol <- as_str sol ;;
               Ok (app recs ["PRIORITY: " ++ sol])
             else Ok recs)
          issues acc = Ok recs ->
    exists added,
      recs = app acc added /\
      Forall (fun line => exists sol, line = "PRIORITY: " ++ sol) added /\
      (added = [] <-> Forall (fun i => urgent i = Ok false) issues).
Proof.
  induction issues as [|i issues IH]; intros acc recs H; cbn [foldM] in H.
  - inversion H; subst. exists []. rewrite app_nil_r.
    split; [reflexivity|]. split; [constructor|]. split; auto.
  - apply bind_Ok in H. destruct H as (acc1 & Hstep & H).
    apply bind_Ok in Hstep. destruct Hstep as (b & Hb & Hstep).
    destruct (IH _ _ H) as (added & -> & Hall & Hnil). destruct b.
    + apply bind_Ok in Hstep. destruct Hstep as (d & _ & Hstep).
      apply bind_Ok in Hstep. destruct Hstep as (v & _ & Hstep).
      apply bind_Ok in Hstep. destruct Hstep as (sol & _ & Hstep).
      inversion Hstep; subst; clear Hstep.
      exists (("PRIORITY: " ++ sol) :: added).
      split; [now rewrite <- app_assoc|]. split; [constructor; eauto|].
      split; [discriminate|]. intros G. inversion G as [|? ? G1 G2]; subst.
      unfold urgent in G1. rewrite Hb in G1. discriminate.
    + inversion Hstep; subst; clear Hstep. exists added.
      split; [reflexivity|]. split; [exact Hall|]. rewrite Hnil. split.
      * intros G. constructor; [exact Hb | exact G].
      * intros G. now inversion G.
Qed.

(** X3.  [_generate_recommendations] never returns an empty list, and
    it returns the all-clear line alone exactly when no issue is of
    critical or high severity, the maximum voltage is at most 4.3, the
    maximum temperature is at most 50, and the formulation names VC, FEC
    or PS.  The component names are ASCII texts. *)
Theorem all_clear_only_with_an_additive (components : list string)
    (issues : list value) (operating_conditions : dict) (recs : list string) :
  forallb isascii components = true ->
  _generate_recommendations components issues operating_conditions = Ok recs ->
  recs <> [] /\
  (recs = [all_clear] <->
   Forall (fun i => urgent i = Ok false) issues /\
   gt (get operating_conditions "max_voltage" (VFloat 4.2)) 4.3 = Ok false /\
   gt (get operating_conditions "max_temperature" (VInt 45)) 50 = Ok false /\
   names_additive components = true).
Proof.
  unfold _generate_recommendations. intros _ H.
  apply bind_Ok in H. destruct H as (recs0 & Hfold & H).
  apply bind_Ok in H. destruct H as (hv & Hhv & H).
  apply bind_Ok in H. destruct H as (ht & Hht & H).
  rewrite has_additive_names in H.
  destruct (priority_lines _ _ _ Hfold) as (added & -> & Hall & Hnil).
  rewrite Hhv, Hht. clear Hfold Hhv Hht. cbn [app] in H.
  destruct added as [|line added].
  - destruct hv, ht, (names_additive components);
      cbn [negb app] in H; injection H as <-;
      (split; [discriminate|]);
      (split;
       [intros G; try discriminate G;
        repeat split; auto; apply Hnil; reflexivity
       |intros (_ & G1 & G2 & G3); try discriminate; reflexivity]).
  - inversion Hall as [|? ? (sol & ->) _]; subst.
    destruct hv, ht, (names_additive components);
      cbn [negb app] in H; injection H as <-;
      (split; [discriminate|]);
      (split;
       [intros G; discriminate G
       |intros (G & _); apply Hnil in G; discriminate G]).
Qed.

Lemma all_clear_only_with_an_additive_witness :
  _generate_recommendations ["EC"; "DMC"; "LiPF6"; "VC"] [] [] = Ok [all_clear]
  /\ names_additive ["EC"; "DMC"; "LiPF6"; "VC"] = true.
Proof.
  assert (H : _generate_recommendations ["EC"; "DMC"; "LiPF6"; "VC"] [] []
              = Ok [all_clear]) by (vm_compute; reflexivity).
  split; [exact H|].
  exact (proj2 (proj2 (proj2
           (proj1 (proj2 (all_clear_only_with_an_additive
                           ["EC"; "DMC"; "LiPF6"; "VC"] [] [] [all_clear]
                           eq_refl H))
                  eq_refl)))).
Defined.

(** *** Operating limits that are not numbers *)

Lemma recommendations_need_a_numeric_voltage (components : list string)
    (issues : list value) (operating_conditions : dict) :
  (forall q, as_num (get operating_conditions "max_voltage" (VFloat 4.2))
             <> Ok q) ->
  exists e,
    _generate_recommendations components issues operating_conditions = Raise e.
Proof.
  intros Hv. unfold _generate_recommendations.
  match goal with
  | |- context [foldM ?f ?l ?a] => destruct (foldM f l a) as [recs|e]
  end; cbn [bind]; [|eauto].
  unfold gt at 1.
  destruct (as_num (get operating_conditions "max_voltage" (VFloat 4.2)))
    as [q|e]; cbn [bind]; [now elim (Hv q) | eauto].
Qed.

(** X4.  A maximum voltage that is not a number (a text such as '4.5V',
    or None) is not replaced by the default of 4.2: [process] raises. *)
Theorem non_numeric_voltage_raises (input_data operating_conditions : dict) :
  as_dict (get input_data "operating_conditions" (VDict []))
  = Ok operating_conditions ->
  (forall q, as_num (get operating_conditions "max_voltage" (VFloat 4.2))
             <> Ok q) ->
  exists e, process input_data = Raise e.
Proof.
  intros Hoc Hv. unfold process. rewrite Hoc.
  destruct (as_str_list (get input_data "components" (VList [])))
    as [components|e]; cbn [bind]; [|eauto].
  destruct (as_dict (get input_data "electrode_materials" (VDict [])))
    as [electrode_materials|e]; cbn [bind]; [|eauto].
  destruct (_check_compatibility components operating_conditions
              electrode_materials) as [issues|e]; cbn [bind]; [|eauto].
  destruct (_calculate_aggregate_properties
              (_get_component_properties components)) as [aggregate|e];
    cbn [bind]; [|eauto].
  destruct (recommendations_need_a_numeric_voltage components issues
              operating_conditions Hv) as (e & ->).
  cbn [bind]. eauto.
Qed.

Lemma non_numeric_voltage_raises_witness :
  exists e,
    process [ ("components", VList [VStr "EC"]);
              ("operating_conditions", VDict [("max_voltage", VStr "4.5V")]) ]
    = Raise e.
Proof.
  apply (non_numeric_voltage_raises _ [("max_voltage", VStr "4.5V")]).
  - reflexivity.
  - intros q. vm_compute. discriminate.
Defined.

End PropertyLookupFacts.
(* ================================================================== *)
(** ** Planner with a backend: properties *)
(* ================================================================== *)

Module PlannerBackendFacts.
Import PyFacts StringFacts ExperimentPlanningAgent ExperimentPlanningSpec.
Import PlannerBackendSpec.

Lemma substring_length (n : nat) (s : string) :
  (String.length (substring 0 n s) <= n)%nat.
Proof.
  revert s. induction n as [|n IH]; intros s; destruct s as [|c s]; simpl;
    try lia.
  specialize (IH s). lia.
Qed.

Lemma select_protocols (plan : value) (battery_type : string) :
  _select_protocols plan battery_type = Ok all_protocols.
Proof. reflexivity. Qed.

Lemma identified_dset (battery_type key : string) (v : value) (d : dict) :
  key <> "battery_type" -> key <> "plan_id" ->
  identified battery_type d -> identified battery_type (dset key v d).
Proof.
  intros H1 H2 (Hb & id & Hi & Hl). split.
  - rewrite dget_dset_other by congruence. exact Hb.
  - exists id. rewrite dget_dset_other by congruence. auto.
Qed.

Section Stamps.

Variable rt : runtime.

Lemma stamp_list_identifies (battery_type : string) (plans : list value) :
  forall n stamped_plans,
    stamp_list rt battery_type n plans = Ok stamped_plans ->
    Forall (fun plan => exists d, plan = VDict d /\ identified battery_type d)
           stamped_plans.
Proof.
  induction plans as [|plan plans IH]; intros n out H; simpl in H.
  - inversion H. constructor.
  - apply bind_Ok in H. destruct H as (d & _ & H).
    apply bind_Ok in H. destruct H as (rest & Hrest & H).
    inversion H; subst; clear H. constructor; [|eapply IH; eauto].
    eexists. split; [reflexivity|]. split.
    + apply dget_dset_same.
    + eexists. rewrite dget_dset_other by discriminate.
      split; [apply dget_dset_same | apply substring_length].
Qed.

(** Whatever [_parse_llm_plans] returns that counts as plans is a list
    of identified objects. *)
Lemma parsed_plans_identified (response battery_type : string) :
  truthy (_parse_llm_plans rt response battery_type) = true ->
  exists plans,
    _parse_llm_plans rt response battery_type = VList plans /\
    Forall (fun plan => exists d, plan = VDict d /\ identified battery_type d)
           plans.
Proof.
  assert (S : forall v out,
             stamp_plans rt battery_type v = Ok out -> truthy out = true ->
             exists plans,
               out = VList plans /\
               Forall (fun plan =>
                         exists d, plan = VDict d /\ identified battery_type d)
                      plans).
  { intros v out H Ht. unfold stamp_plans in H.
    destruct v as [| | | |s|l|l|d]; try discriminate.
    - destruct s; [|discriminate]. inversion H; subst. discriminate.
    - apply bind_Ok in H. destruct H as (l' & Hl & H). inversion H; subst.
      exists l'. split; [reflexivity|]. eapply stamp_list_identifies; eauto.
    - destruct d; [|discriminate]. inversion H; subst. discriminate. }
  unfold _parse_llm_plans.
  match goal with
  | |- truthy (match ?m with _ => _ end) = true -> _ =>
      destruct m as [plans|e] eqn:E; [|discriminate]
  end.
  intros Ht. apply bind_Ok in E. destruct E as (direct & Hd & E).
  destruct direct as [direct|].
  - inversion E; subst; clear E.
    destruct (json_loads rt response) as [data|e]; [|destruct e; discriminate].
    apply bind_Ok in Hd. destruct Hd as (has & _ & Hd).
    destruct has; [|discriminate].
    apply bind_Ok in Hd. destruct Hd as (v & _ & Hd).
    apply bind_Ok in Hd. destruct Hd as (out & Hout & Hd).
    inversion Hd; subst. eapply S; eauto.
  - destruct (re_search rt PlansObject response) as [json_match|].
    + apply bind_Ok in E. destruct E as (data & _ & E).
      apply bind_Ok in E. destruct E as (d & _ & E).
      eapply S; eauto.
    + inversion E; subst. discriminate.
Qed.

Lemma fallback_plans_identified (query battery_type : string)
    (plans : list value) :
  _generate_fallback_plans rt query battery_type = Ok plans ->
  Forall (fun plan => exists d, plan = VDict d /\ identified battery_type d)
         plans.
Proof.
  unfold _generate_fallback_plans. intros H.
  apply bind_Ok in H. destruct H as (default & _ & H).
  apply bind_Ok in H. destruct H as (chem & _ & H).
  revert H. apply foldM_preserves; [|constructor].
  intros acc plan_type acc' _ Hacc Hstep.
  apply bind_Ok in Hstep. destruct Hstep as (plan & Hplan & Hstep).
  inversion Hstep; subst; clear Hstep.
  apply Forall_app. split; [exact Hacc|]. constructor; [|constructor].
  unfold fallback_plan in Hplan.
  repeat (apply bind_Ok in Hplan;
          let x := fresh "x" in destruct Hplan as (x & _ & Hplan)).
  inversion Hplan; subst; clear Hplan.
  eexists. split; [reflexivity|]. split; [reflexivity|].
  eexists. split; [reflexivity | apply substring_length].
Qed.

Lemma protocols_attached (battery_type : string) (plans plans' : list value) :
  mapM (fun plan =>
          d <- as_dict plan ;;
          protocols <- _select_protocols plan battery_type ;;
          Ok (VDict (dset "protocols" (VList protocols) d)))
       plans = Ok plans' ->
  Forall (fun plan => exists d, plan = VDict d /\ identified battery_type d)
         plans ->
  Forall (stamped battery_type) plans'.
Proof.
  revert plans'. induction plans as [|plan plans IH]; intros plans' H Hall;
    cbn [mapM] in H.
  - inversion H. constructor.
  - apply bind_Ok in H. destruct H as (y & Hy & H).
    apply bind_Ok in H. destruct H as (ys & Hys & H).
    inversion H; subst; clear H. inversion Hall as [|? ? (d & -> & Hd) Hrest].
    subst. constructor; [|now apply IH].
    cbn [as_dict bind] in Hy. rewrite select_protocols in Hy.
    cbn [bind] in Hy. inversion Hy; subst.
    exists (dset "protocols" (VList all_protocols) d).
    split; [reflexivity|]. split.
    + apply identified_dset; [discriminate | discriminate | exact Hd].
    + apply dget_dset_same.
Qed.

End Stamps.

Lemma detected_type_not_empty (query : string) :
  _detect_battery_type query <> "".
Proof.
  unfold _detect_battery_type.
  repeat match goal with
         | |- (if ?b then _ else _) <> _ => destruct b; [discriminate|]
         end.
  discriminate.
Qed.

(** X5.  With or without a backend, every plan [process] returns is an
    object that carries the chemistry named in the response, which is
    never empty, an identifier of at most eight characters and the five
    protocols; total_plans counts the plans. *)
Theorem every_returned_plan_is_stamped (rt : runtime)
    (llm_service : option LLMService) (input_data result : dict) :
  process rt llm_service input_data = Ok result ->
  exists battery_type plans,
    battery_type <> "" /\
    dget "battery_type" result = Some (VStr battery_type) /\
    dget "experiment_plans" result = Some (VList plans) /\
    dget "total_plans" result = Some (VInt (Z.of_nat (List.length plans))) /\
    Forall (stamped battery_type) plans.
Proof.
  unfold process. intros H.
  apply bind_Ok in H. destruct H as (query & _ & H).
  apply bind_Ok in H. destruct H as (battery_type & _ & H).
  change (if String.eqb battery_type "" then _detect_battery_type query
          else battery_type) with (chemistry_of battery_type query) in H.
  assert (Hne : chemistry_of battery_type query <> "").
  { unfold chemistry_of. destruct (String.eqb_spec battery_type "") as [->|];
      [apply detected_type_not_empty | assumption]. }
  revert Hne H. generalize (chemistry_of battery_type query). intros bt Hne H.
  apply bind_Ok in H. destruct H as (plans & Hplans & H).
  apply bind_Ok in H. destruct H as (plans' & Hplans' & H).
  apply bind_Ok in H. destruct H as (recommendation & _ & H).
  inversion H; subst; clear H.
  exists bt, plans'. split; [exact Hne|]. repeat split.
  apply (protocols_attached bt plans plans' Hplans').
  destruct llm_service as [llm|].
  - unfold _generate_plans_with_llm in Hplans.
    apply bind_Ok in Hplans. destruct Hplans as (prompts & _ & Hplans).
    unfold try_except in Hplans.
    destruct (generate llm (fst prompts) (snd prompts) 0.4 3000)
      as [response|e]; cbn [bind] in Hplans.
    + destruct (truthy (_parse_llm_plans rt response bt)) eqn:Et.
      * destruct (parsed_plans_identified rt response bt Et) as (l & El & Hl).
        rewrite El in Hplans. cbn [as_list] in Hplans.
        inversion Hplans; subst. exact Hl.
      * destruct (_generate_fallback_plans rt query bt) eqn:Ef;
          inversion Hplans; subst.
        eapply fallback_plans_identified; eauto.
    + eapply fallback_plans_identified; eauto.
  - eapply fallback_plans_identified; eauto.
Qed.

Lemma every_returned_plan_is_stamped_witness :
  exists result battery_type plans,
    process Samples.sample_runtime None zinc_query = Ok result /\
    battery_type <> "" /\
    dget "battery_type" result = Some (VStr battery_type) /\
    dget "experiment_plans" result = Some (VList plans) /\
    dget "total_plans" result = Some (VInt (Z.of_nat (List.length plans))) /\
    Forall (stamped battery_type) plans.
Proof.
  eexists.
  destruct (every_returned_plan_is_stamped Samples.sample_runtime None
              zinc_query _ eq_refl) as (bt & plans & H).
  exists bt, plans. split; [reflexivity | exact H].
Defined.

(** *** Replies the planner cannot use *)





(** X7.  The planner does not check the plans of the backend: when the
    first plan of a reply has no title, [process] raises the key error
    of the recommendation line instead of answering.  The query is an
    ASCII text. *)
Theorem untitled_backend_plan_raises (rt : runtime)
    (llm : LLMService) (input_data : dict) (query battery_type response : string)
    (prompts : string * string) (reply first : dict) (others : list value) :
  isascii query = true ->
  as_str (get input_data "query" (VStr "")) = Ok query ->
  as_str (get input_data "battery_type" (VStr "")) = Ok battery_type ->
  render_prompt rt PlansPrompt
    (plans_prompt_arguments input_data query
       (chemistry_of battery_type query)) = Ok prompts ->
  generate llm (fst prompts) (snd prompts) 0.4 3000 = Ok response ->
  json_loads rt response = Ok (VDict reply) ->
  dget "plans" reply = Some (VList (VDict first :: others)) ->
  forallb is_object others = true ->
  dget "title" first = None ->
  process rt (Some llm) input_data = Raise (KeyError "title").
Proof.
  intros _ Hq Hb Hp Hg Hj Hplans Hothers Htitle.
  unfold process. rewrite Hq, Hb. cbn [bind].
  change (if String.eqb battery_type "" then _detect_battery_type query
          else battery_type) with (chemistry_of battery_type query).
  generalize dependent (chemistry_of battery_type query). intros bt Hp.
  unfold _generate_plans_with_llm.
  unfold plans_prompt_arguments in Hp. rewrite Hp. cbn [bind]. rewrite Hg.
  cbn [bind try_except].
  assert (Hs : forall n, exists stamped_others,
               stamp_list rt bt n others = Ok stamped_others /\
               Forall (fun v => is_object v = true) stamped_others).
  { clear - Hothers. induction others as [|o others IH]; intros n.
    - exists []. split; [reflexivity | constructor].
    - simpl in Hothers. apply andb_prop in Hothers. destruct Hothers as [Ho Hr].
      destruct o; try discriminate. destruct (IH Hr (S n)) as (r & Er & Hr').
      cbn [stamp_list as_dict bind]. rewrite Er. cbn [bind].
      eexists. split; [reflexivity|]. constructor; [reflexivity | exact Hr']. }
  destruct (Hs 1%nat) as (stamped_others & Es & Hobj).
  assert (Hparse : _parse_llm_plans rt response bt
                   = VList (VDict (dset "battery_type" (VStr bt)
                                     (dset "plan_id"
                                        (VStr (substring 0 8 (uuid4 rt 0)))
                                        first))
                            :: stamped_others)).
  { unfold _parse_llm_plans. rewrite Hj.
    assert (Hk : has_key "plans" reply = true)
      by (now rewrite has_key_dget, Hplans).
    cbn [str_in_value bind subscript]. rewrite Hk. unfold getitem.
    rewrite Hplans. cbn [bind stamp_plans stamp_list as_dict]. rewrite Es.
    reflexivity. }
  rewrite Hparse.
  cbn [truthy List.length Nat.eqb negb as_list bind try_except mapM as_dict].
  rewrite select_protocols. cbn [bind].
  assert (Hm : exists rest,
             mapM (fun plan =>
                     d <- as_dict plan ;;
                     protocols <- _select_protocols plan bt ;;
                     Ok (VDict (dset "protocols" (VList protocols) d)))
                  stamped_others = Ok rest).
  { apply mapM_total. intros x Hx.
    rewrite Forall_forall in Hobj. specialize (Hobj x Hx).
    destruct x; try discriminate. cbn [as_dict bind].
    rewrite select_protocols. cbn [bind]. eauto. }
  destruct Hm as (rest & ->). cbn [bind _generate_recommendation as_dict].
  unfold getitem.
  rewrite !dget_dset_other by discriminate. rewrite Htitle. reflexivity.
Qed.

Lemma untitled_backend_plan_raises_witness :
  process one_plan_runtime (Some (constant_llm "one plan")) zinc_query
  = Raise (KeyError "title").
Proof.
  apply (untitled_backend_plan_raises one_plan_runtime
           (constant_llm "one plan") zinc_query "zinc battery" "" "one plan"
           ("prompt", "system prompt")
           [("plans", VList [VDict [("rationale", VStr "none")]])]
           [("rationale", VStr "none")] []);
    reflexivity.
Defined.

End PlannerBackendFacts.
(* ================================================================== *)
(** ** Sorting: properties *)
(* ================================================================== *)

Module SortFacts.
Import PyFacts PySort Ranking.


Section Sorting.

Context {A : Type}.
Variable key : A -> Q.



Lemma non_increasing_cons (x : Q) (l : list Q) :
  non_increasing (x :: l) = true <->
  match l with
  | [] => True
  | y :: _ => Qle_bool y x = true
  end /\ non_increasing l = true.
Proof.
  destruct l as [|y l]; cbn [non_increasing].
  - tauto.
  - rewrite andb_true_iff. tauto.
Qed.



End Sorting.




(** The first [n] of a list in non-increasing order are in
    non-increasing order. *)
Lemma non_increasing_firstn (n : nat) (l : list Q) :
  non_increasing l = true -> non_increasing (firstn n l) = true.
Proof.
  revert l. induction n as [|n IH]; intros l H; [reflexivity|].
  destruct l as [|x l]; [reflexivity|].
  apply non_increasing_cons in H. destruct H as [Hx Hl].
  cbn [firstn]. apply non_increasing_cons. split; [|now apply IH].
  destruct n; [exact I|]. destruct l; [exact I | exact Hx].
Qed.

End SortFacts.

(* ================================================================== *)
(** ** Performance predictor: chemistry, comparison, backend *)
(* ================================================================== *)

Module PerformanceComparisonFacts.
Import PyFacts StringFacts SortFacts PySort Ranking.
Import PerformancePredictionAgent PerformanceComparison.

(** *** Chemistry detection *)

Lemma any_indicator_true (indicators components_upper : list string) :
  any_indicator indicators components_upper = true <->
  exists ind comp,
    In ind indicators /\ In comp components_upper /\ contains ind comp = true.
Proof.
  unfold any_indicator. rewrite existsb_exists. split.
  - intros (ind & Hi & H). apply existsb_exists in H.
    destruct H as (comp & Hc & H). eauto.
  - intros (ind & comp & Hi & Hc & H). exists ind. split; [exact Hi|].
    apply existsb_exists. eauto.
Qed.

(** Indicators that contain a shorter indicator of the same list add
    nothing. *)
Lemma any_indicator_short (indicators short components_upper : list string) :
  (forall s, In s short -> In s indicators) ->
  (forall ind, In ind indicators ->
               exists s, In s short /\ contains s ind = true) ->
  any_indicator indicators components_upper
  = any_indicator short components_upper.
Proof.
  intros Hsub Hshort. apply eq_iff_eq_true. rewrite !any_indicator_true. split.
  - intros (ind & comp & Hi & Hc & H).
    destruct (Hshort ind Hi) as (s & Hs & Hsi).
    exists s, comp. repeat split; auto. eapply contains_trans; eauto.
  - intros (s & comp & Hs & Hc & H). exists s, comp. auto.
Qed.

Ltac short_indicators :=
  apply any_indicator_short;
  [ intros s Hs; simpl in Hs; simpl; intuition
  | intros ind Hind; simpl in Hind;
    repeat (destruct Hind as [<-|Hind];
            [first [ eexists; split; [left; reflexivity | reflexivity]
                   | eexists; split; [right; left; reflexivity | reflexivity]
                   | eexists; split;
                     [right; right; left; reflexivity | reflexivity] ]|]);
    contradiction ].

Lemma mentions_any (indicator : string) (formulation : dict) :
  mentions indicator formulation
  = any_indicator [indicator] (map upper (keys formulation)).
Proof. unfold mentions, any_indicator. simpl. now rewrite orb_false_r. Qed.

(** X8.  The chemistry of a formulation is decided by whether one of
    its component names, in upper case, contains LI; failing that, ZN or
    ZINC; then NA or SODIUM; then MG or MAGNESIUM; then H2O, WATER or
    AQUEOUS.  The longer indicators of the source's lists, which all
    contain one of these, never change the answer.  The component
    names are ASCII texts. *)
Theorem chemistry_decided_by_short_indicators (formulation : dict) :
  forallb isascii (keys formulation) = true ->
  _detect_chemistry formulation
  = if mentions "LI" formulation then "lithium-ion"
    else if mentions "ZN" formulation || mentions "ZINC" formulation
    then "zinc"
    else if mentions "NA" formulation || mentions "SODIUM" formulation
    then "sodium-ion"
    else if mentions "MG" formulation || mentions "MAGNESIUM" formulation
    then "magnesium"
    else if mentions "H2O" formulation || mentions "WATER" formulation
            || mentions "AQUEOUS" formulation
    then "aqueous"
    else "unknown".
Proof.
  intros _. unfold _detect_chemistry. rewrite !mentions_any.
  set (cu := map upper (keys formulation)).
  assert (E1 : any_indicator li_indicators cu = any_indicator ["LI"] cu)
    by (unfold li_indicators; short_indicators).
  assert (E2 : any_indicator zn_indicators cu
               = any_indicator ["ZN"] cu || any_indicator ["ZINC"] cu).
  { transitivity (any_indicator ["ZN"; "ZINC"] cu);
      [unfold zn_indicators; short_indicators|].
    unfold any_indicator. simpl. now rewrite !orb_false_r. }
  assert (E3 : any_indicator na_indicators cu
               = any_indicator ["NA"] cu || any_indicator ["SODIUM"] cu).
  { transitivity (any_indicator ["NA"; "SODIUM"] cu);
      [unfold na_indicators; short_indicators|].
    unfold any_indicator. simpl. now rewrite !orb_false_r. }
  assert (E4 : any_indicator mg_indicators cu
               = any_indicator ["MG"] cu || any_indicator ["MAGNESIUM"] cu).
  { transitivity (any_indicator ["MG"; "MAGNESIUM"] cu);
      [unfold mg_indicators; short_indicators|].
    unfold any_indicator. simpl. now rewrite !orb_false_r. }
  assert (E5 : any_indicator aqueous_indicators cu
               = any_indicator ["H2O"] cu || any_indicator ["WATER"] cu
                 || any_indicator ["AQUEOUS"] cu).
  { unfold any_indicator, aqueous_indicators. simpl.
    now rewrite !orb_false_r, orb_assoc. }
  now rewrite E1, E2, E3, E4, E5.
Qed.

(** A zinc triflate solution with sodium sulfate: the zinc indicator is
    met before the sodium one. *)
Lemma chemistry_decided_by_short_indicators_witness :
  _detect_chemistry [("Zn(CF3SO3)2", VFloat 2.0); ("Na2SO4", VFloat 0.5)]
  = "zinc".
Proof.
  rewrite (chemistry_decided_by_short_indicators
             [("Zn(CF3SO3)2", VFloat 2.0); ("Na2SO4", VFloat 0.5)] eq_refl).
  reflexivity.
Defined.

(** *** Comparison of formulations *)





(** *** The predictor and its backend *)




End PerformanceComparisonFacts.
(* ================================================================== *)
(** ** Literature responder: further properties *)
(* ================================================================== *)

Module RetrievalFacts.
Import PyFacts StringFacts LiteratureRAGAgent LiteratureRAGSpec Ranking.
Import LiteratureRAGFacts RetrievalSpec.

(** *** Matching by substring *)

Lemma solvents_with_ec (rt : runtime) (query_lower : string) :
  contains "ec" query_lower = true ->
  exists hits,
    search_section rt "Solvent" "common_solvents" query_lower []
    = Ok (ethylene_carbonate_result :: hits) /\
    Forall (hit 0.9) hits.
Proof.
  intros Hec. unfold search_section.
  match goal with
  | |- context [bind ?m _] =>
      let v := eval vm_compute in m in change m with v
  end; cbn [bind foldM].
  cbn [bind as_str as_dict getitem dget snd fst String.eqb Ascii.eqb Bool.eqb
       fstr entry app].
  change (lower "EC") with "ec". rewrite Hec. cbn [orb bind].
  repeat match goal with
         | |- context [if ?c then _ else _] => destruct c; cbn [bind app]
         end;
    eexists; (split; [reflexivity|]);
    repeat constructor; unfold hit; eauto.
Qed.

(** X12.  Abbreviations are looked for as substrings of the query, not
    as words: every query that mentions the word electrolyte contains
    'ec', so its first knowledge-table result is ethylene carbonate.
    The query is an ASCII text. *)
Theorem electrolyte_matches_ethylene_carbonate (rt : runtime)
    (query : string) :
  isascii query = true ->
  contains "electrolyte" (lower query) = true ->
  exists others,
    _search_knowledge_base rt query = Ok (ethylene_carbonate_result :: others).
Proof.
  intros _ H.
  assert (Hec : contains "ec" (lower query) = true)
    by (apply (contains_trans "ec" "electrolyte"); [reflexivity | exact H]).
  unfold _search_knowledge_base.
  destruct (solvents_with_ec rt (lower query) Hec) as (h1 & -> & _).
  cbn [bind].
  destruct (search_section_hits rt "Salt" "common_salts" (lower query)
              (ethylene_carbonate_result :: h1)) as (h2 & -> & _);
    [simpl; tauto|].
  cbn [bind].
  destruct (search_section_hits rt "Additive" "common_additives" (lower query)
              (app (ethylene_carbonate_result :: h1) h2)) as (h3 & -> & _);
    [simpl; tauto|].
  cbn [bind].
  destruct (trends_hits (lower query)
              (app (app (ethylene_carbonate_result :: h1) h2) h3))
    as (h4 & -> & _).
  cbn [app]. eauto.
Qed.

Lemma electrolyte_matches_ethylene_carbonate_witness :
  contains "electrolyte" (lower "A zinc Electrolyte for cold weather") = true /\
  exists others,
    _search_knowledge_base Samples.sample_runtime
      "A zinc Electrolyte for cold weather"
    = Ok (ethylene_carbonate_result :: others).
Proof.
  split; [reflexivity|].
  apply (electrolyte_matches_ethylene_carbonate Samples.sample_runtime
           "A zinc Electrolyte for cold weather" eq_refl).
  reflexivity.
Defined.

(** *** A store that is out of service *)

(** X13.  When both searches of the external store raise, [process]
    answers exactly as it does without a store: from the knowledge
    table alone. *)
Theorem failing_store_is_not_seen (rt : runtime) (store : VectorStore)
    (input_data : dict) (query : string) :
  as_str (get input_data "query" (VStr "")) = Ok query ->
  (exists e, similarity_search_with_score store query 5 = Raise e) ->
  (exists e, similarity_search store query 5 = Raise e) ->
  process rt (Some store) input_data = process rt None input_data.
Proof.
  intros Hq (e1 & H1) (e2 & H2). unfold process. rewrite Hq. cbn [bind].
  unfold _search_vector_store, try_except. now rewrite H1, H2.
Qed.

Lemma failing_store_is_not_seen_witness :
  process Samples.sample_runtime (Some failing_store) ec_query
  = process Samples.sample_runtime None ec_query.
Proof.
  apply (failing_store_is_not_seen Samples.sample_runtime failing_store
           ec_query "EC"); [reflexivity | eexists; reflexivity
                            | eexists; reflexivity].
Defined.

End RetrievalFacts.
(* ================================================================== *)
(** ** Coordinator: further properties *)
(* ================================================================== *)

Module CoordinatorFacts.
Import PyFacts StringFacts OrchestratorAgent OrchestratorSpec CoordinatorSpec.
Import OrchestratorFacts.

(** *** Greetings *)

(** X14.  A query whose lower-cased, stripped text starts with one of
    the greeting words ('hi', 'yo', 'sup', ...) is answered as a
    greeting whatever follows the word: no sub-agent is called, and the
    response, when there is one, is the greeting response.  Without a
    backend there always is one.  The query is an ASCII text. *)
Theorem greeting_prefix_is_answered_directly (rt : runtime)
    (llm_service : option LLMService)
    (agents : agent -> list call -> dict -> res dict)
    (input_data : dict) (query g : string) (log : list call) :
  isascii query = true ->
  as_str (get input_data "query" (VStr "")) = Ok query ->
  In g greetings ->
  startswith (strip (lower query)) g = true ->
  exists outcome,
    process rt llm_service agents input_data log = (outcome, log) /\
    (forall response,
        outcome = Ok response ->
        exists text time, response = greeting_response query text time) /\
    (llm_service = None -> exists response, outcome = Ok response).
Proof.
  intros _ Hq Hg Hs.
  assert (Hc : _classify_query rt llm_service query
               = classification QUERY_TYPE_GREETING 0.95 false
                   "Simple greeting detected").
  { unfold _classify_query.
    assert (E : existsb (fun g => startswith (strip (lower query)) g) greetings
                = true) by (apply existsb_exists; eauto).
    rewrite E, orb_true_r. reflexivity. }
  unfold process, bindM, lift, ret. rewrite Hq, Hc.
  cbn [classification subscript getitem dget String.eqb Ascii.eqb Bool.eqb
       format as_num bind as_dict get truthy negb].
  unfold _handle_simple_query.
  cbn [eq_str QUERY_TYPE_GREETING String.eqb Ascii.eqb Bool.eqb].
  destruct llm_service as [llm|].
  - destruct (render_prompt rt GreetingPrompt [VStr query]) as [prompts|e];
      cbn [bind].
    + destruct (generate llm (fst prompts) (snd prompts) 0.7 150)
        as [text|e]; cbn [bind].
      * eexists. split; [reflexivity|]. split; [|discriminate].
        intros response H. inversion H; subst. unfold greeting_response. eauto.
      * eexists. split; [reflexivity|]. split; [|discriminate]. discriminate.
    + eexists. split; [reflexivity|]. split; [|discriminate]. discriminate.
  - cbn [bind]. eexists. split; [reflexivity|]. split; [|eauto].
    intros response H. inversion H; subst. unfold greeting_response. eauto.
Qed.

Lemma greeting_prefix_is_answered_directly_witness :
  exists outcome,
    process Samples.sample_runtime None demo_agents high_voltage_request []
    = (outcome, []) /\
    exists response, outcome = Ok response.
Proof.
  destruct (greeting_prefix_is_answered_directly Samples.sample_runtime None
              demo_agents high_voltage_request
              "High-voltage electrolyte for NMC cathodes" "hi" []
              eq_refl eq_refl ltac:(simpl; tauto) eq_refl)
    as (outcome & H & _ & Hnone).
  exists outcome. split; [exact H | exact (Hnone eq_refl)].
Defined.

(** *** Materials named by the user *)

Lemma add_keeps (x : string) (materials : list string) :
  let added := if negb (str_in x materials) then app materials [x]
               else materials in
  (NoDup materials -> NoDup added) /\
  (forall y, In y materials -> In y added) /\ In x added.
Proof.
  cbv zeta. destruct (str_in x materials) eqn:E; cbn [negb].
  - repeat split; auto. now apply str_in_In.
  - repeat split.
    + intros H. now apply NoDup_snoc.
    + intros y Hy. apply in_or_app. now left.
    + apply in_or_app. right. simpl. tauto.
Qed.

Lemma known_materials_found (query_lower : string)
    (table : list (string * string)) :
  forall (acc : list string) pattern canonical,
    In (pattern, canonical) table ->
    contains pattern query_lower = true ->
    In canonical
       (fold_left
          (fun materials (entry : string * string) =>
             let (pattern, canonical) := entry in
             if contains pattern query_lower
             then if negb (str_in canonical materials)
                  then app materials [canonical]
                  else materials
             else materials)
          table acc).
Proof.
  induction table as [|[p c] table IH]; intros acc pattern canonical Hin Hc;
    [contradiction|].
  cbn [fold_left]. destruct Hin as [E|Hin].
  - inversion E; subst. rewrite Hc.
    apply (fold_left_invariant (fun materials => In canonical materials)).
    + intros a [p' c'] _ Ha. destruct (contains p' query_lower); [|exact Ha].
      now apply (add_keeps c' a).
    + apply (add_keeps canonical acc).
  - eapply IH; eauto.
Qed.

(** X15.  [_extract_user_materials] returns no material twice, and
    returns the recorded name of every known material whose pattern
    occurs anywhere in the lower-cased query, inside a word or not.  The
    query is an ASCII text. *)
Theorem user_materials_without_repetition (rt : runtime) (query : string) :
  isascii query = true ->
  NoDup (_extract_user_materials rt query) /\
  forall pattern canonical,
    In (pattern, canonical) known_materials ->
    contains pattern (lower query) = true ->
    In canonical (_extract_user_materials rt query).
Proof.
  intros _. unfold _extract_user_materials. cbv zeta.
  set (P := fun materials : list string =>
              NoDup materials /\
              forall pattern canonical,
                In (pattern, canonical) known_materials ->
                contains pattern (lower query) = true ->
                In canonical materials).
  assert (Hkeep : forall x materials,
             P materials ->
             P (if negb (str_in x materials) then app materials [x]
                else materials)).
  { intros x materials (Hn & Hin).
    destruct (add_keeps x materials) as (K1 & K2 & _).
    split; [auto | intros p c Hp Hc; apply K2; now apply (Hin p c)]. }
  change (P (fold_left
               (fun materials groups =>
                  if negb (str_in (nth 2 groups "") materials)
                     && (2 <=? String.length (nth 2 groups ""))%nat
                  then app materials [nth 2 groups ""]
                  else materials)
               (re_findall rt ConcentrationPattern query)
               (fold_left
                  (fun materials groups =>
                     if (2 <=? String.length (nth 0 groups ""))%nat
                        && negb (str_in (nth 0 groups "") stop_words)
                     then if negb (str_in (nth 0 groups "") materials)
                          then app materials [nth 0 groups ""]
                          else materials
                     else materials)
                  (re_findall rt FormulaPattern query)
                  (fold_left
                     (fun materials (entry : string * string) =>
                        let (pattern, canonical) := entry in
                        if contains pattern (lower query)
                        then if negb (str_in canonical materials)
                             then app materials [canonical]
                             else materials
                        else materials)
                     known_materials [])))).
  apply fold_left_invariant.
  { intros acc groups _ Hacc.
    destruct (2 <=? String.length (nth 2 groups ""))%nat;
      [|now rewrite andb_false_r].
    rewrite andb_true_r. now apply Hkeep. }
  apply fold_left_invariant.
  { intros acc groups _ Hacc.
    destruct ((2 <=? String.length (nth 0 groups ""))%nat
              && negb (str_in (nth 0 groups "") stop_words));
      [now apply Hkeep | exact Hacc]. }
  (* the table *)
  split.
  - apply (fold_left_invariant (fun materials => NoDup materials));
      [|constructor].
    intros acc [pattern canonical] _ Hacc.
    destruct (contains pattern (lower query)); [|exact Hacc].
    now apply (add_keeps canonical acc).
  - intros pattern canonical Hin Hc. eapply known_materials_found; eauto.
Qed.

(** A query that names LiPF6 twice lists it once. *)
Lemma user_materials_without_repetition_witness :
  NoDup (_extract_user_materials Samples.sample_runtime
           "LiPF6 in EC, then more lipf6") /\
  In "LiPF6" (_extract_user_materials Samples.sample_runtime
                "LiPF6 in EC, then more lipf6").
Proof.
  destruct (user_materials_without_repetition Samples.sample_runtime
              "LiPF6 in EC, then more lipf6" eq_refl) as [Hn Hin].
  split; [exact Hn|].
  apply (Hin "lipf6" "LiPF6"); [|reflexivity].
  unfold known_materials. repeat (first [left; reflexivity | right]).
Defined.

(** *** Failing sub-agents *)

Lemma ret_Ok_any {A : Type} (x : A) (outcome : res A) (log log' : list call) :
  ret x log = (outcome, log') -> outcome = Ok x /\ log' = log.
Proof. unfold ret. intros H. now inversion H. Qed.

Lemma bindM_cases {A B : Type} (m : M A) (k : A -> M B) (log log' : list call)
    (outcome : res B) :
  bindM m k log = (outcome, log') ->
  (exists e, m log = (Raise e, log') /\ outcome = Raise e) \/
  (exists a log1, m log = (Ok a, log1) /\ k a log1 = (outcome, log')).
Proof.
  unfold bindM. destruct (m log) as [[a|e] log1]; intros H.
  - right. eauto.
  - left. inversion H; subst. eauto.
Qed.

Lemma lift_cases {A : Type} (r : res A) (log log' : list call)
    (outcome : res A) :
  lift r log = (outcome, log') -> log' = log.
Proof. unfold lift. intros H. now inversion H. Qed.

Lemma invoke_cases (agents : agent -> list call -> dict -> res dict)
    (a : agent) (input_data : dict) (log log' : list call)
    (outcome : res dict) :
  invoke agents a input_data log = (outcome, log') ->
  exists c, log' = app log [c] /\ callee c = a /\ call_output c = outcome.
Proof. unfold invoke. intros H. inversion H; subst. eauto. Qed.

Lemma only_last_cons (c : call) (calls : list call) :
  returned c -> only_last_may_fail calls -> only_last_may_fail (c :: calls).
Proof. intros Hc H. destruct calls; simpl; auto. Qed.

Lemma predictions_in_order (calls : list call) :
  Forall (fun c => callee c = Prediction) calls ->
  in_pipeline_order 3 (map callee calls) = true.
Proof.
  induction 1 as [|c calls Hc _ IH]; simpl; [reflexivity|]. now rewrite Hc.
Qed.

Section Failures.

Variable rt : runtime.
Variable llm_service : option LLMService.
Variable agents : agent -> list call -> dict -> res dict.

Lemma literature_step_cases (query : string) (log log' : list call)
    (outcome : res dict) :
  literature_step rt llm_service agents query log = (outcome, log') ->
  exists c, log' = app log [c] /\ callee c = Literature /\
            ((exists r, outcome = Ok r) -> returned c).
Proof.
  unfold literature_step. intros H.
  apply bindM_cases in H. destruct H as [(e & H & ->)|(a & log1 & H & Hk)];
    apply invoke_cases in H; destruct H as (c & -> & Hc & Ho).
  - exists c. repeat split; auto. intros (r & Hr). discriminate.
  - apply ret_Ok_any in Hk. destruct Hk as [_ ->].
    exists c. repeat split; auto. intros _. exists a. exact Ho.
Qed.

Lemma property_step_cases (components : value) (requirements : dict)
    (log log' : list call) (outcome : res dict) :
  property_step rt llm_service agents components requirements log
  = (outcome, log') ->
  exists c, log' = app log [c] /\ callee c = Property /\
            ((exists r, outcome = Ok r) -> returned c).
Proof.
  unfold property_step. intros H.
  apply bindM_cases in H. destruct H as [(e & H & ->)|(a & log1 & H & Hk)];
    apply invoke_cases in H; destruct H as (c & -> & Hc & Ho).
  - exists c. repeat split; auto. intros (r & Hr). discriminate.
  - apply ret_Ok_any in Hk. destruct Hk as [_ ->].
    exists c. repeat split; auto. intros _. exists a. exact Ho.
Qed.

Lemma predict_plans_cases (query : string) (requirements : dict)
    (plans : list value) :
  forall (i : nat) (log log' : list call)
         (outcome : res (list dict * list value)),
    predict_plans rt agents query requirements i plans log = (outcome, log') ->
    exists calls,
      log' = app log calls /\
      Forall (fun c => callee c = Prediction) calls /\
      only_last_may_fail calls /\
      ((exists r, outcome = Ok r) -> Forall returned calls).
Proof.
  induction plans as [|plan plans IH]; intros i log log' outcome H;
    cbn [predict_plans] in H.
  - apply ret_Ok_any in H. destruct H as [_ ->]. exists [].
    rewrite app_nil_r. repeat split; constructor.
  - apply bindM_cases in H. destruct H as [(e & H & ->)|(d & log1 & H & Hk)];
      apply lift_cases in H; subst.
    { exists []. rewrite app_nil_r. repeat split; constructor. }
    apply bindM_cases in Hk.
    destruct Hk as [(e & H & ->)|(fd & log1 & H & Hk)];
      apply lift_cases in H; subst.
    { exists []. rewrite app_nil_r. repeat split; constructor. }
    apply bindM_cases in Hk.
    destruct Hk as [(e & H & ->)|(out & log1 & H & Hk)];
      apply invoke_cases in H; destruct H as (c & -> & Hc & Ho).
    { exists [c]. repeat split; try (repeat constructor; assumption).
      intros (r & Hr). discriminate. }
    assert (Hret : returned c) by (exists out; exact Ho).
    apply bindM_cases in Hk.
    destruct Hk as [(e & H & ->)|(r & log1 & H & Hk)].
    + destruct (IH _ _ _ _ H) as (calls & -> & Hall & Hlast & _).
      exists (c :: calls). rewrite <- app_assoc. repeat split; auto.
      * now apply only_last_cons.
      * intros (r & Hr). discriminate.
    + destruct (IH _ _ _ _ H) as (calls & -> & Hall & Hlast & Hok).
      apply ret_Ok_any in Hk. destruct Hk as [_ ->].
      exists (c :: calls). rewrite <- app_assoc. repeat split; auto.
      * now apply only_last_cons.
      * intros _. constructor; [exact Hret|]. apply Hok. eauto.
Qed.

End Failures.

(** X16.  Whatever the sub-agents do, the design workflow calls them in
    the order literature, property, planner, predictor, and it calls no
    agent after one has raised: of the calls it makes, every one but
    the last returned. *)
Theorem design_workflow_stops_at_first_failure (rt : runtime)
    (llm_service : option LLMService)
    (agents : agent -> list call -> dict -> res dict)
    (user_materials_input : value) (query : string) (start_time : Q)
    (log log' : list call) (outcome : res dict) :
  _handle_design_query rt llm_service agents user_materials_input query
    start_time log = (outcome, log') ->
  exists calls,
    log' = app log calls /\
    in_pipeline_order 0 (map callee calls) = true /\
    only_last_may_fail calls.
Proof.
  unfold _handle_design_query. intros H.
  apply bindM_cases in H. destruct H as [(e & H & ->)|(req & log1 & H & Hk)];
    apply lift_cases in H; subst.
  { exists []. rewrite app_nil_r. repeat split. }
  apply bindM_cases in Hk. destruct Hk as [(e & H & ->)|(lit & log1 & H & Hk)];
    apply literature_step_cases in H; destruct H as (c1 & -> & Hc1 & Ho1).
  { exists [c1]. simpl. rewrite Hc1. repeat split. }
  assert (R1 : returned c1) by (apply Ho1; eauto).
  apply bindM_cases in Hk. destruct Hk as [(e & H & ->)|(prop & log1 & H & Hk)];
    apply property_step_cases in H; destruct H as (c2 & -> & Hc2 & Ho2).
  { exists [c1; c2]. simpl. rewrite Hc1, Hc2, <- app_assoc. repeat split; auto. }
  assert (R2 : returned c2) by (apply Ho2; eauto).
  apply bindM_cases in Hk. destruct Hk as [(e & H & ->)|(nc & log1 & H & Hk)];
    apply lift_cases in H; subst.
  { exists [c1; c2]. simpl. rewrite Hc1, Hc2, <- app_assoc. repeat split; auto. }
  apply bindM_cases in Hk. destruct Hk as [(e & H & ->)|(ni & log1 & H & Hk)];
    apply lift_cases in H; subst.
  { exists [c1; c2]. simpl. rewrite Hc1, Hc2, <- app_assoc. repeat split; auto. }
  apply bindM_cases in Hk. destruct Hk as [(e & H & ->)|(plan & log1 & H & Hk)];
    apply invoke_cases in H; destruct H as (c3 & -> & Hc3 & Ho3).
  { exists [c1; c2; c3]. simpl. rewrite Hc1, Hc2, Hc3, <- !app_assoc.
    repeat split; auto. }
  assert (R3 : returned c3) by (exists plan; exact Ho3).
  assert (Hfinish : forall calls,
             Forall (fun c => callee c = Prediction) calls ->
             only_last_may_fail calls ->
             exists all,
               app (app (app (app log [c1]) [c2]) [c3]) calls = app log all /\
               in_pipeline_order 0 (map callee all) = true /\
               only_last_may_fail all).
  { intros calls Hall Hlast. exists (c1 :: c2 :: c3 :: calls).
    rewrite <- !app_assoc. split; [reflexivity|]. split.
    - simpl. rewrite Hc1, Hc2, Hc3. now apply predictions_in_order.
    - repeat apply only_last_cons; auto. }
  apply bindM_cases in Hk.
  destruct Hk as [(e & H & ->)|(planned & log1 & H & Hk)];
    apply lift_cases in H; subst.
  { rewrite <- (app_nil_r (app (app (app log [c1]) [c2]) [c3])).
    apply (Hfinish []); constructor. }
  apply bindM_cases in Hk.
  destruct Hk as [(e & H & ->)|(predicted & log1 & H & Hk)];
    apply predict_plans_cases in H;
    destruct H as (calls & -> & Hall & Hlast & _).
  { now apply Hfinish. }
  repeat (apply bindM_cases in Hk;
          let e := fresh "e" in
          let x := fresh "x" in
          let l := fresh "log" in
          let H := fresh "H" in
          destruct Hk as [(e & H & ->)|(x & l & H & Hk)];
          apply lift_cases in H; subst; [now apply Hfinish|]).
  apply ret_Ok_any in Hk. destruct Hk as [_ ->]. now apply Hfinish.
Qed.

Lemma design_workflow_stops_at_first_failure_witness :
  exists e literature property,
    _handle_design_query Samples.sample_runtime None agents_without_property
      (VStr "") "zinc battery" 0 []
    = (Raise e, [literature; property]) /\
    in_pipeline_order 0 (map callee [literature; property]) = true /\
    only_last_may_fail [literature; property].
Proof.
  do 3 eexists.
  assert (H : _handle_design_query Samples.sample_runtime None
                agents_without_property (VStr "") "zinc battery" 0 []
              = (Raise _, [_; _])) by (vm_compute; reflexivity).
  split; [exact H|].
  destruct (design_workflow_stops_at_first_failure _ _ _ _ _ _ _ _ _ H)
    as (calls & E & Horder & Hlast).
  simpl in E. subst calls. split; assumption.
Defined.


(** *** Requirements read from the query *)

Lemma existsb_sublist_false {A : Type} (f : A -> bool) (small big : list A) :
  (forall x, In x small -> In x big) ->
  existsb f big = false -> existsb f small = false.
Proof.
  intros Hsub Hbig. destruct (existsb f small) eqn:E; [|reflexivity].
  apply existsb_exists in E. destruct E as (x & Hx & Hfx).
  assert (G : existsb f big = true) by (apply existsb_exists; eauto).
  congruence.
Qed.

(** Turns the local bindings of the function in [H] into definitions of
    the context, one by one. *)
Ltac intro_lets H :=
  repeat match type of H with
         | (let x := ?v in @?b x) = ?r =>
             let y := fresh x in
             pose (y := v); change (b y = r) in H; cbv beta in H
         end.

Ltac sublist := intros x Hx; simpl in Hx; simpl; intuition.

(** What a returning [_parse_query] stores for the chemistry, the
    operating conditions and the electrodes. *)
Lemma parsed_fields (rt : runtime) (user_materials_input : value)
    (query : string) (result : dict) :
  _parse_query rt user_materials_input query = Ok result ->
  exists detected conditions electrodes,
    dget "battery_type" result = Some (VStr detected) /\
    dget "operating_conditions" result = Some (VDict conditions) /\
    dget "electrode_materials" result = Some (VDict electrodes) /\
    (In detected ["zinc"; "sodium-ion"; "magnesium"] ->
     conditions = fixed_conditions detected /\
     dget "anode" electrodes = Some (VStr (fixed_anode detected))) /\
    (detected = "" ->
     ExperimentPlanningAgent._detect_battery_type query = "lithium-ion").
Proof.
  intros H. cbv beta delta [_parse_query] in H. intro_lets H.
  apply bind_Ok in H. destruct H as (from_input & Hfrom & H).
  intro_lets H. injection H as <-.
  exists detected_battery, operating_conditions, electrode_materials.
  assert (K0 : dget "battery_type" requirements0
               = Some (VStr detected_battery))
    by (subst requirements0; apply dget_dset_same).
  assert (K1 : dget "battery_type" requirements1
               = Some (VStr detected_battery)).
  { subst requirements1. destruct (truthy user_materials_input).
    - apply bind_Ok in Hfrom. destruct Hfrom as (text & _ & Hfrom).
      injection Hfrom as Hfrom. rewrite <- Hfrom. reflexivity.
    - injection Hfrom as Hfrom. rewrite <- Hfrom. reflexivity. }
  assert (K2 : dget "battery_type" requirements2
               = Some (VStr detected_battery)).
  { subst requirements2. clearbody all_user_materials.
    destruct all_user_materials; [exact K1|].
    rewrite dget_dset_other by discriminate. exact K1. }
  split; [|split; [|split; [|split]]].
  - subst requirements6 requirements5 requirements4 requirements3.
    rewrite !dget_dset_other by discriminate. exact K2.
  - subst requirements6 requirements5 requirements4.
    rewrite !dget_dset_other by discriminate. apply dget_dset_same.
  - subst requirements6 requirements5.
    rewrite dget_dset_other by discriminate. apply dget_dset_same.
  - clear K0 K1 K2. clearbody components1 mentions.
    clearbody detected_battery.
    intros [<-|[<-|[<-|[]]]];
      subst operating_conditions electrode_materials electrodes;
      split; reflexivity.
  - clear K0 K1 K2. intros E. subst detected_battery mentions query_lower.
    cbv beta in E.
    repeat match type of E with
           | (if ?b then _ else _) = _ =>
               let F := fresh "F" in destruct b eqn:F; [discriminate|]
           end.
    unfold ExperimentPlanningAgent._detect_battery_type. cbv zeta.
    repeat match goal with
           | |- context [existsb ?f ?small] =>
               let G := fresh "G" in
               assert (G : existsb f small = false)
                 by (first
                       [ apply (fun Hs => existsb_sublist_false f small _ Hs F);
                         solve [sublist]
                       | apply (fun Hs => existsb_sublist_false f small _ Hs F0);
                         solve [sublist]
                       | apply (fun Hs => existsb_sublist_false f small _ Hs F1);
                         solve [sublist]
                       | apply (fun Hs => existsb_sublist_false f small _ Hs F2);
                         solve [sublist]
                       | apply (fun Hs => existsb_sublist_false f small _ Hs F3);
                         solve [sublist]
                       | apply (fun Hs => existsb_sublist_false f small _ Hs F4);
                         solve [sublist] ]);
               rewrite G; clear G
           end.
    reflexivity.
Qed.

(** X17.  For a zinc, sodium-ion or magnesium query [_parse_query] reads
    no operating limit from the text: the maximum voltage and
    temperature and the anode are those fixed for the chemistry, whether
    or not the query asks for a high voltage or a high temperature.  The
    query is an ASCII text. *)
Theorem limits_fixed_by_chemistry (rt : runtime) (user_materials_input : value)
    (query : string) (requirements : dict) (battery_type : string) :
  isascii query = true ->
  _parse_query rt user_materials_input query = Ok requirements ->
  dget "battery_type" requirements = Some (VStr battery_type) ->
  In battery_type ["zinc"; "sodium-ion"; "magnesium"] ->
  dget "operating_conditions" requirements
  = Some (VDict (fixed_conditions battery_type)) /\
  exists electrodes,
    dget "electrode_materials" requirements = Some (VDict electrodes) /\
    dget "anode" electrodes = Some (VStr (fixed_anode battery_type)).
Proof.
  intros _ H Hbt Hin.
  destruct (parsed_fields _ _ _ _ H)
    as (detected & conditions & electrodes & Hd & Hc & He & Hfixed & _).
  rewrite Hbt in Hd. injection Hd as <-.
  destruct (Hfixed Hin) as (-> & Ha). split; [exact Hc|]. eauto.
Qed.

Lemma limits_fixed_by_chemistry_witness :
  exists requirements,
    _parse_query Samples.sample_runtime (VStr "")
      "high voltage sodium cell for high temperature" = Ok requirements /\
    dget "battery_type" requirements = Some (VStr "sodium-ion") /\
    dget "operating_conditions" requirements
    = Some (VDict [("max_voltage", VFloat 4.0); ("max_temperature", VInt 55)]).
Proof.
  eexists.
  assert (H : _parse_query Samples.sample_runtime (VStr "")
                "high voltage sodium cell for high temperature" = Ok _)
    by (vm_compute; reflexivity).
  split; [exact H|]. split; [reflexivity|].
  exact (proj1 (limits_fixed_by_chemistry Samples.sample_runtime (VStr "")
                  "high voltage sodium cell for high temperature" _
                  "sodium-ion" eq_refl H eq_refl
                  ltac:(simpl; tauto))).
Defined.

(** X18.  When [_parse_query] detects no chemistry and leaves
    battery_type empty, the planner's own detection, which reads the
    same query, finds none either and plans for lithium-ion.  The query
    is an ASCII text. *)
Theorem undetected_chemistry_is_planned_as_lithium (rt : runtime)
    (user_materials_input : value) (query : string) (requirements : dict) :
  isascii query = true ->
  _parse_query rt user_materials_input query = Ok requirements ->
  dget "battery_type" requirements = Some (VStr "") ->
  ExperimentPlanningSpec.chemistry_of "" query = "lithium-ion".
Proof.
  intros _ H Hbt.
  destruct (parsed_fields _ _ _ _ H)
    as (detected & conditions & electrodes & Hd & _ & _ & _ & Hempty).
  rewrite Hbt in Hd. injection Hd as <-. exact (Hempty eq_refl).
Qed.

Lemma undetected_chemistry_is_planned_as_lithium_witness :
  exists requirements,
    _parse_query Samples.sample_runtime (VStr "") "a long cycle life"
    = Ok requirements /\
    ExperimentPlanningSpec.chemistry_of "" "a long cycle life" = "lithium-ion".
Proof.
  eexists.
  assert (H : _parse_query Samples.sample_runtime (VStr "") "a long cycle life"
              = Ok _) by (vm_compute; reflexivity).
  split; [exact H|].
  exact (undetected_chemistry_is_planned_as_lithium Samples.sample_runtime
           (VStr "") "a long cycle life" _ eq_refl H eq_refl).
Defined.

(** *** The routes that need one agent *)

(** X19.  The literature route makes exactly one sub-agent call, to the
    literature agent with the query, whether or not that call returns;
    the property route, once the requirements are read, makes exactly
    one call, to the property agent with the components read.  Neither
    route calls the planner or the predictor. *)
Theorem single_agent_routes (rt : runtime) (llm_service : option LLMService)
    (agents : agent -> list call -> dict -> res dict)
    (user_materials_input : value) (query : string) (start_time : Q)
    (log : list call) :
  (exists c,
      snd (_handle_literature_query rt llm_service agents query start_time log)
      = app log [c] /\
      callee c = Literature /\ call_input c = [("query", VStr query)]) /\
  (forall requirements,
      _parse_query rt user_materials_input query = Ok requirements ->
      exists c,
        snd (_handle_property_query rt llm_service agents user_materials_input
               query start_time log) = app log [c] /\
        callee c = Property /\
        dget "components" (call_input c)
        = Some (get requirements "components" (VList []))).
Proof.
  split.
  - unfold _handle_literature_query, literature_step, bindM, invoke, ret.
    destruct (agents Literature log [("query", VStr query)]);
      eexists; repeat split.
  - intros requirements Hp.
    unfold _handle_property_query, property_step, bindM, lift, invoke, ret.
    rewrite Hp.
    match goal with
    | |- context [agents Property log ?i] => destruct (agents Property log i)
    end; [|eexists; repeat split].
    destruct (as_str_list (get requirements "components" (VList [])));
      [|eexists; repeat split].
    match goal with
    | |- context [property_summary ?r ?c ?p] =>
        destruct (property_summary r c p)
    end; eexists; repeat split.
Qed.

Lemma single_agent_routes_witness :
  exists c,
    snd (_handle_property_query Samples.sample_runtime None demo_agents
           (VStr "") litfsi_query 0 []) = [c] /\
    callee c = Property /\
    dget "components" (call_input c) = Some (VList [VStr "LiTFSI"]).
Proof.
  destruct (proj2 (single_agent_routes Samples.sample_runtime None demo_agents
                     (VStr "") litfsi_query 0 []) _ eq_refl)
    as (c & H1 & H2 & H3).
  exists c. repeat split; assumption.
Defined.

End CoordinatorFacts.
